(** * Voice-bot front-end: conversation state machine, transcript log,
      connection lifecycle and token route.

    Three artefacts of the repository are embedded:

    - [Mock]  : the fully simulated page component ([src/app/page.tsx] and its
                untyped twin), whose timers are [setTimeout]/[setInterval];
    - [Live]  : the page component wired to the real-time SDK, whose
                suspension points are promises and SDK events;
    - [TokenRoute] : the HTTP GET handler issuing session credentials.

    React state is modelled by a record holding the component's [useState]
    cells and [useRef] slots; a handler is a function from the state of the
    render it closes over to the state after its setters have been applied.
    Browser facilities the handlers call (timers, animation frames) are part
    of the state; calls into the SDK are recorded in a call log.  The audio
    level is a JavaScript number: the expressions that compute it are
    evaluated in binary64, and the cell holds the exact value of the
    result. *)

From Stdlib Require Import ZArith NArith PArith QArith List String Bool Lia.
From Stdlib Require Import SpecFloat Qpower PrimFloat FloatOps Lqa Sorted.
Import ListNotations.
Local Open Scope string_scope.
Local Open Scope list_scope.

(** ** Data shared by both page components *)

(** [useState<"idle" | "listening" | "processing" | "speaking">] *)
Inductive BotState : Type :=
  | idle
  | listening
  | processing
  | speaking.

(** [role: "user" | "bot" | "system"] *)
Inductive Role : Type :=
  | user
  | bot
  | system.

(** [interface Message]; the [Date] is the clock reading in milliseconds. *)
Record Message : Type := mkMessage {
  role : Role;
  text : string;
  timestamp : N
}.

(** The functional update inside [addMessage]:
    [(prev) => [...prev, { role, text, timestamp: new Date() }]]. *)
Definition append (clock : N) (r : Role) (t : string)
    (prev : list Message) : list Message :=
  prev ++ [mkMessage r t clock].

(** [transcript.length > 0 ? transcript[transcript.length - 1] : null] *)
Definition lastMessage (transcript : list Message) : option Message :=
  if (0 <? List.length transcript)%nat
  then nth_error transcript (List.length transcript - 1)
  else None.

(** [l1] is an initial segment of [l2]. *)
Definition extends (l1 l2 : list Message) : Prop :=
  exists added, l2 = l1 ++ added.

(** Number of system entries carrying a given text. *)
Definition count_system (t : string) (log : list Message) : nat :=
  List.length (filter (fun m =>
    match role m with
    | system => String.eqb (text m) t
    | _ => false
    end) log).

(** ** Binary64 numbers

    A JavaScript number is an IEEE 754 binary64 value.  Its arithmetic is
    taken from the Standard Library's specification of floating point,
    [SpecFloat], at precision 53 and maximal exponent 1024: results are
    rounded to nearest, ties to even.  A state cell that holds a number
    holds its exact value, a rational. *)

(** The rational [m * 2^e]. *)
Definition dyadic (m e : Z) : Q := inject_Z m * 2 ^ e.

(** The exact value of a finite binary64 number.  Infinities and NaN,
    which the expressions below do not produce on their inputs, are read
    as 0. *)
Definition SF2Q (x : spec_float) : Q :=
  match x with
  | S754_finite s m e => dyadic (cond_Zopp s (Zpos m)) e
  | _ => 0
  end.

(** [+0] or a positive finite number. *)
Definition nonnegFinite (x : spec_float) : bool :=
  match x with
  | S754_zero false | S754_finite false _ _ => true
  | _ => false
  end.

(** [a * b], [a + b] and [a / b] on numbers. *)
Definition mul64 : spec_float -> spec_float -> spec_float := SFmul 53 1024.
Definition add64 : spec_float -> spec_float -> spec_float := SFadd 53 1024.
Definition div64 : spec_float -> spec_float -> spec_float := SFdiv 53 1024.

(** The number an integer denotes; it is the integer itself below 2^53. *)
Definition ofInt (z : Z) : spec_float := binary_normalize 53 1024 z 0 false.

(** The literals [0.3] and [0.7] denote the binary64 numbers nearest to
    3/10 and 7/10; both lie below the fraction they stand for. *)
Definition lit03 : spec_float := S754_finite false 5404319552844595 (-54).
Definition lit07 : spec_float := S754_finite false 6305039478318694 (-53).

(** Their exact values. *)
Definition double03 : Q := 5404319552844595 # 18014398509481984.
Definition double07 : Q := 6305039478318694 # 9007199254740992.

(** [0.3 + Math.random() * 0.7], with the draw [r] of [Math.random()] taken
    as an input: the product is rounded, then the sum. *)
Definition newLevel64 (r : spec_float) : spec_float :=
  add64 lit03 (mul64 r lit07).

(** The value written to the level cell. *)
Definition newLevel (r : spec_float) : Q := SF2Q (newLevel64 r).

(** What [Math.random()] returns: a binary64 number in [0, 1). *)
Definition unitDraw (r : spec_float) : bool :=
  valid_binary 53 1024 r && nonnegFinite r && negb (Qle_bool 1 (SF2Q r)).

(** The draws 0 and 1/2. *)
Definition draw0 : spec_float := S754_zero false.
Definition drawHalf : spec_float := S754_finite false 4503599627370496 (-53).

(** The largest binary64 number below 1, the largest draw possible. *)
Definition drawMax : spec_float := S754_finite false 9007199254740991 (-53).

(** [2^-53]: the spacing of the binary64 numbers between 1/2 and 1. *)
Definition ulp53 : Q := 1 # 9007199254740992.

(** The exponent at which [m * 2^e] is rounded: that of the binary64 format
    at its magnitude, unless [e] is already coarser. *)
Definition grid (m : positive) (e : Z) : Z :=
  Z.max e (fexp 53 1024 (Zpos (digits2_pos m) + e)).

(** Invariant of the right shift [shr_1]: after [k] steps from [m0] the
    mantissa is [m0 / 2^k], and the round and sticky bits are clear if
    only zero bits were shifted out. *)
Definition shifted (m0 k : Z) (st : shr_record) : Prop :=
  shr_m st = (m0 / 2 ^ k)%Z /\
  ((m0 mod 2 ^ k)%Z = 0%Z -> shr_r st = false /\ shr_s st = false).

(** ** The simulated component *)

Module Mock.

(** The closures handed to [setTimeout] and [setInterval]. *)
Inductive Callback : Type :=
  | ConnectedCb      (* body of the timeout in [handleConnect] *)
  | ResponseCb       (* outer timeout of [toggleRecording] *)
  | PlaybackDoneCb   (* inner timeout of [toggleRecording] *)
  | LevelTickCb.     (* body of the interval in [simulateVoiceActivity] *)

(** A pending browser timer; [period] is [Some p] for an interval. *)
Record Timer : Type := mkTimer {
  tid : positive;
  due : N;
  period : option N;
  cb : Callback
}.

Record State : Type := mkState {
  botState : BotState;
  isConnected : bool;
  audioLevel : Q;
  transcript : list Message;
  intervalRef : option positive;   (* [intervalRef.current] *)
  timers : list Timer;             (* the browser's timer table *)
  nextId : positive;               (* next timer handle to be issued *)
  now : N                          (* wall clock, ms *)
}.

Definition init : State :=
  mkState idle false 0 [] None [] 1%positive 0%N.

Definition userText : string :=
  "Hello, I'd like to know more about the service.".
Definition botText : string :=
  "I can certainly help with that. What specific features are you interested in?".

(** *** State setters *)

Definition setBotState (v : BotState) (s : State) : State :=
  mkState v (isConnected s) (audioLevel s) (transcript s)
          (intervalRef s) (timers s) (nextId s) (now s).

Definition setIsConnected (v : bool) (s : State) : State :=
  mkState (botState s) v (audioLevel s) (transcript s)
          (intervalRef s) (timers s) (nextId s) (now s).

Definition setAudioLevel (v : Q) (s : State) : State :=
  mkState (botState s) (isConnected s) v (transcript s)
          (intervalRef s) (timers s) (nextId s) (now s).

Definition addMessage (r : Role) (t : string) (s : State) : State :=
  mkState (botState s) (isConnected s) (audioLevel s)
          (append (now s) r t (transcript s))
          (intervalRef s) (timers s) (nextId s) (now s).

(** *** Browser timers *)

Definition register (p : option N) (c : Callback) (delay : N)
    (s : State) : State :=
  mkState (botState s) (isConnected s) (audioLevel s) (transcript s)
          (intervalRef s)
          (timers s ++ [mkTimer (nextId s) (now s + delay) p c])
          (Pos.succ (nextId s)) (now s).

Definition setTimeout (c : Callback) (delay : N) (s : State) : State :=
  register None c delay s.

(** [clearInterval(id)]: a handle that is no longer pending is ignored. *)
Definition clearInterval (id : positive) (s : State) : State :=
  mkState (botState s) (isConnected s) (audioLevel s) (transcript s)
          (intervalRef s)
          (filter (fun t => negb (Pos.eqb (tid t) id)) (timers s))
          (nextId s) (now s).

(** [if (intervalRef.current) clearInterval(intervalRef.current)];
    the slot itself keeps the stale handle. *)
Definition clearIntervalRef (s : State) : State :=
  match intervalRef s with
  | Some id => clearInterval id s
  | None => s
  end.

(** [intervalRef.current = setInterval(..., 100)] *)
Definition setIntervalRef (c : Callback) (delay : N) (s : State) : State :=
  let s' := register (Some delay) c delay s in
  mkState (botState s') (isConnected s') (audioLevel s') (transcript s')
          (Some (nextId s)) (timers s') (nextId s') (now s').

(** *** Handlers *)

Definition simulateVoiceActivity (s : State) : State :=
  setIntervalRef LevelTickCb 100 (clearIntervalRef s).

Definition handleConnect (s : State) : State :=
  setTimeout ConnectedCb 1500 (setBotState processing s).

Definition handleDisconnect (s : State) : State :=
  addMessage system "Disconnected."
    (clearIntervalRef
      (setAudioLevel 0
        (setBotState idle
          (setIsConnected false s)))).

Definition toggleRecording (s : State) : State :=
  if negb (isConnected s) then s
  else
    match botState s with
    | listening =>
        setTimeout ResponseCb 1500
          (setAudioLevel 0
            (clearIntervalRef
              (setBotState processing s)))
    | _ =>
        simulateVoiceActivity (setBotState listening s)
    end.

(** The bodies of the timer callbacks; [r] is the value [Math.random()]
    returns when the callback asks for it. *)
Definition runCallback (c : Callback) (r : spec_float) (s : State)
    : State :=
  match c with
  | ConnectedCb =>
      addMessage system "Connected to HF Inference Model."
        (setBotState idle (setIsConnected true s))
  | ResponseCb =>
      setTimeout PlaybackDoneCb 3000
        (simulateVoiceActivity
          (addMessage user userText
            (setBotState speaking s)))
  | PlaybackDoneCb =>
      setAudioLevel 0
        (clearIntervalRef
          (setBotState idle
            (addMessage bot botText s)))
  | LevelTickCb =>
      setAudioLevel (newLevel r) s
  end.

(** *** The event loop *)

Definition findTimer (id : positive) (ts : list Timer) : option Timer :=
  find (fun t => Pos.eqb (tid t) id) ts.

(** A timeout leaves the table when it fires; an interval is re-armed one
    period after the firing instant. *)
Definition rearm (clock : N) (t : Timer) (ts : list Timer) : list Timer :=
  match period t with
  | None => filter (fun u => negb (Pos.eqb (tid u) (tid t))) ts
  | Some p =>
      map (fun u => if Pos.eqb (tid u) (tid t)
                    then mkTimer (tid u) (clock + p) (period u) (cb u)
                    else u) ts
  end.

Definition fire (id : positive) (r : spec_float) (s : State) : State :=
  match findTimer id (timers s) with
  | None => s
  | Some t =>
      runCallback (cb t) r
        (mkState (botState s) (isConnected s) (audioLevel s) (transcript s)
                 (intervalRef s) (rearm (now s) t (timers s))
                 (nextId s) (now s))
  end.

Definition elapse (d : N) (s : State) : State :=
  mkState (botState s) (isConnected s) (audioLevel s) (transcript s)
          (intervalRef s) (timers s) (nextId s) (now s + d).

Inductive Event : Type :=
  | ClickConnect
  | ClickDisconnect
  | ClickToggle
  | Elapse (d : N)
  | TimerFires (id : positive) (r : spec_float).

(** What the rendered page and the browser allow: the Connect button is
    rendered only while disconnected, the Disconnect button only while
    connected, the orb (bound to [toggleRecording]) always; a timer fires
    once its due time has been reached and no earlier timer is pending. *)
Definition enabled (e : Event) (s : State) : bool :=
  match e with
  | ClickConnect => negb (isConnected s)
  | ClickDisconnect => isConnected s
  | ClickToggle => true
  | Elapse _ => true
  | TimerFires id _ =>
      match findTimer id (timers s) with
      | None => false
      | Some t =>
          (due t <=? now s)%N
          && forallb (fun u => (due t <=? due u)%N) (timers s)
      end
  end.

Definition dispatch (e : Event) (s : State) : State :=
  match e with
  | ClickConnect => handleConnect s
  | ClickDisconnect => handleDisconnect s
  | ClickToggle => toggleRecording s
  | Elapse d => elapse d s
  | TimerFires id r => fire id r s
  end.

Definition step (s : State) (e : Event) : State :=
  if enabled e s then dispatch e s else s.

Definition run (s : State) (es : list Event) : State :=
  fold_left step es s.

(** Every event of a trace is enabled when its turn comes. *)
Fixpoint admissible (s : State) (es : list Event) : bool :=
  match es with
  | [] => true
  | e :: es' => enabled e s && admissible (step s e) es'
  end.

(** The sampler loop is running when the handle in [intervalRef] is still
    in the timer table. *)
Definition samplerRunning (s : State) : bool :=
  match intervalRef s with
  | Some id =>
      match findTimer id (timers s) with
      | Some _ => true
      | None => false
      end
  | None => false
  end.

(** *** Well-formed timer tables

    Handles are issued in increasing order, so every handle in use is below
    [nextId]; and the only interval ever pending is the one whose handle
    sits in [intervalRef], ticking every 100 ms. *)

Definition isTick (t : Timer) : bool :=
  match cb t with
  | LevelTickCb => true
  | _ => false
  end.

Definition fresh (s : State) : bool :=
  forallb (fun t => (tid t <? nextId s)%positive) (timers s)
  && match intervalRef s with
     | Some id => (id <? nextId s)%positive
     | None => true
     end.

Definition ownedTick (ref : option positive) (t : Timer) : bool :=
  if isTick t
  then
    match ref, period t with
    | Some id, Some p => Pos.eqb (tid t) id && N.eqb p 100
    | _, _ => false
    end
  else true.

Definition wf (s : State) : bool :=
  fresh s && forallb (ownedTick (intervalRef s)) (timers s).

(** The same, as a proposition. *)
Definition wfP (s : State) : Prop :=
  (forall t, In t (timers s) -> (tid t < nextId s)%positive)
  /\ (forall id, intervalRef s = Some id -> (id < nextId s)%positive)
  /\ (forall t, In t (timers s) -> isTick t = true ->
        intervalRef s = Some (tid t) /\ period t = Some 100%N).

(** No tick of the synthetic sampler is pending any more. *)
Definition noTicks (s : State) : bool :=
  forallb (fun t => negb (isTick t)) (timers s).

(** *** Hanging up while the response is pending

    The user stops talking in state [s], which schedules the response
    timeout under the handle [nextId s]; [d1] ms later the user disconnects;
    [d2] ms later that timeout fires; [d3] ms later the playback timeout it
    scheduled (two handles further on, after the sampler interval) fires. *)

Definition stopThenHangUp (d1 : N) (s : State) : State :=
  handleDisconnect (elapse d1 (toggleRecording s)).

Definition thenResponse (d1 d2 : N) (s : State) : State :=
  fire (nextId s) draw0 (elapse d2 (stopThenHangUp d1 s)).

Definition thenPlaybackDone (d1 d2 d3 : N) (s : State) : State :=
  fire (Pos.succ (Pos.succ (nextId s))) draw0
    (elapse d3 (thenResponse d1 d2 s)).

(** *** Sample sessions *)

(** [n] sampler ticks, one every 100 ms, each drawing [r]. *)
Definition ticks (n : nat) (id : positive) (r : spec_float)
    : list Event :=
  List.concat (repeat [Elapse 100; TimerFires id r] n).

(** Connect and wait for the link. *)
Definition sessionConnected : list Event :=
  [ClickConnect; Elapse 1500; TimerFires 1 draw0].

(** ... and the user has been talking for two seconds. *)
Definition sessionToListening : list Event :=
  sessionConnected ++ [ClickToggle] ++ ticks 20 2 drawHalf.

(** Connect, start talking; the first sampler tick draws 0. *)
Definition sessionFirstTick : list Event :=
  sessionConnected ++ [ClickToggle; Elapse 100; TimerFires 2 draw0].

(** ... and stops. *)
Definition sessionToProcessing : list Event :=
  sessionToListening ++ [ClickToggle].

(** ... and the scripted response has started. *)
Definition sessionToSpeaking : list Event :=
  sessionToProcessing ++ [Elapse 1500; TimerFires 3 draw0].

(** Stop talking, hang up half a second later; the first response timer
    then runs out. *)
Definition hangUpWhileProcessing : list Event :=
  sessionToProcessing ++
  [Elapse 500; ClickDisconnect; Elapse 1000; TimerFires 3 draw0].

(** ... the sampler ticks through the scripted playback and the second
    response timer runs out. *)
Definition hangUpThenPlayback : list Event :=
  hangUpWhileProcessing ++ ticks 29 4 drawHalf ++
  [Elapse 100; TimerFires 5 draw0].

(** *** Further observations on the simulated page *)

(** Number of sampler intervals pending in the timer table. *)
Definition tickCount (s : State) : nat :=
  List.length (filter isTick (timers s)).

(** No two pending timers share a handle. *)
Definition distinctHandles (s : State) : Prop :=
  NoDup (map tid (timers s)).

(** The states in which the page shows audio activity. *)
Definition active (b : BotState) : bool :=
  match b with
  | listening | speaking => true
  | _ => false
  end.

(** [Math.random()] returns a number in [0, 1): the draws carried by the
    timer events of a trace are such numbers. *)
Definition validDraw (e : Event) : bool :=
  match e with
  | TimerFires _ r => unitDraw r
  | _ => true
  end.

(** The connection timeout of [handleConnect] firing [d] ms after the
    click; its handle is [nextId s]. *)
Definition connectThenLink (d : N) (s : State) : State :=
  fire (nextId s) draw0 (elapse d (handleConnect s)).

(** A turn that runs to its end: the user stops talking in state [s], the
    response timeout fires [d1] ms later and the playback timeout it
    schedules fires [d2] ms after that. *)
Definition turnResponse (d1 : N) (s : State) : State :=
  fire (nextId s) draw0 (elapse d1 (toggleRecording s)).

Definition turnDone (d1 d2 : N) (s : State) : State :=
  fire (Pos.succ (Pos.succ (nextId s))) draw0 (elapse d2 (turnResponse d1 s)).

End Mock.

(** ** The component wired to the real-time SDK *)

(** JavaScript truthiness of a possibly undefined string: defined and
    non-empty. *)
Definition truthy (v : option string) : bool :=
  match v with
  | Some s => negb (String.eqb s EmptyString)
  | None => false
  end.

(** The string held by a value known to be defined. *)
Definition str (v : option string) : string :=
  match v with
  | Some s => s
  | None => EmptyString
  end.

(** [a || b] on possibly undefined strings. *)
Definition orElse (a b : option string) : option string :=
  if truthy a then a else b.

Module Live.

(** Calls made into the SDK, in program order. *)
Inductive SdkCall : Type :=
  | NewRoom (r : positive)
  | RegisterHandlers (r : positive)
  | RoomConnect (r : positive) (url token : string)
  | RoomDisconnect (r : positive)
  | StopAndUnpublishMic (r : positive)
  | SetMicrophoneEnabled (r : positive).

Record State : Type := mkState {
  botState : BotState;
  isConnected : bool;
  audioLevel : Q;
  transcript : list Message;
  roomRef : option positive;            (* [roomRef.current] *)
  animationFrameRef : option positive;  (* [animationFrameRef.current] *)
  analyzerReady : bool;     (* [analyzerRef] and [dataArrayRef] are set *)
  frames : list positive;   (* animation-frame requests still pending *)
  nextFrame : positive;
  nextRoom : positive;
  sdk : list SdkCall;
  now : N
}.

Definition init : State :=
  mkState idle false 0 [] None None false [] 1%positive 1%positive [] 0%N.

Definition defaultUrl : string := "wss://superai-ivr-34isl21s.livekit.cloud".

(** *** State setters *)

Definition setBotState (v : BotState) (s : State) : State :=
  mkState v (isConnected s) (audioLevel s) (transcript s) (roomRef s)
          (animationFrameRef s) (analyzerReady s) (frames s) (nextFrame s)
          (nextRoom s) (sdk s) (now s).

Definition setIsConnected (v : bool) (s : State) : State :=
  mkState (botState s) v (audioLevel s) (transcript s) (roomRef s)
          (animationFrameRef s) (analyzerReady s) (frames s) (nextFrame s)
          (nextRoom s) (sdk s) (now s).

Definition setAudioLevel (v : Q) (s : State) : State :=
  mkState (botState s) (isConnected s) v (transcript s) (roomRef s)
          (animationFrameRef s) (analyzerReady s) (frames s) (nextFrame s)
          (nextRoom s) (sdk s) (now s).

Definition addMessage (r : Role) (t : string) (s : State) : State :=
  mkState (botState s) (isConnected s) (audioLevel s)
          (append (now s) r t (transcript s)) (roomRef s)
          (animationFrameRef s) (analyzerReady s) (frames s) (nextFrame s)
          (nextRoom s) (sdk s) (now s).

Definition setRoomRef (v : option positive) (s : State) : State :=
  mkState (botState s) (isConnected s) (audioLevel s) (transcript s) v
          (animationFrameRef s) (analyzerReady s) (frames s) (nextFrame s)
          (nextRoom s) (sdk s) (now s).

Definition call (c : SdkCall) (s : State) : State :=
  mkState (botState s) (isConnected s) (audioLevel s) (transcript s)
          (roomRef s) (animationFrameRef s) (analyzerReady s) (frames s)
          (nextFrame s) (nextRoom s) (sdk s ++ [c]) (now s).

(** [new Room(...)]: the fresh handle is [nextRoom s]. *)
Definition newRoom (s : State) : State :=
  let s' := call (NewRoom (nextRoom s)) s in
  mkState (botState s') (isConnected s') (audioLevel s') (transcript s')
          (roomRef s') (animationFrameRef s') (analyzerReady s') (frames s')
          (nextFrame s') (Pos.succ (nextRoom s)) (sdk s') (now s').

(** *** Animation frames *)

(** [if (animationFrameRef.current) cancelAnimationFrame(...)] *)
Definition cancelFrameRef (s : State) : State :=
  match animationFrameRef s with
  | Some id =>
      mkState (botState s) (isConnected s) (audioLevel s) (transcript s)
              (roomRef s) (animationFrameRef s) (analyzerReady s)
              (filter (fun f => negb (Pos.eqb f id)) (frames s))
              (nextFrame s) (nextRoom s) (sdk s) (now s)
  | None => s
  end.

(** [animationFrameRef.current = requestAnimationFrame(updateVolume)] *)
Definition requestFrame (s : State) : State :=
  mkState (botState s) (isConnected s) (audioLevel s) (transcript s)
          (roomRef s) (Some (nextFrame s)) (analyzerReady s)
          (frames s ++ [nextFrame s]) (Pos.succ (nextFrame s))
          (nextRoom s) (sdk s) (now s).

(** [analyser.frequencyBinCount] for [fftSize = 64]. *)
Definition bufferLength : nat := 32.

(** The summation loop of [updateVolume] over the byte array. *)
Fixpoint sumBins (n : nat) (data : list Z) : Z :=
  match n, data with
  | S n', d :: data' => (d + sumBins n' data')%Z
  | _, _ => 0%Z
  end.

(** [average / 100] for a sum [z]: [(z / bufferLength) / 100], each
    division rounded to binary64. *)
Definition levelOfSum (z : Z) : Q :=
  SF2Q (div64 (div64 (ofInt z) (ofInt (Z.of_nat bufferLength)))
          (ofInt 100)).

(** The level written for a reading.  The bytes add up to an integer below
    2^53, so the additions of the loop are exact. *)
Definition level (data : list Z) : Q :=
  levelOfSum (sumBins bufferLength data).

(** [setAudioLevel(average / 100)], then the request for the next frame. *)
Definition updateVolume (data : list Z) (s : State) : State :=
  if analyzerReady s
  then requestFrame (setAudioLevel (level data) s)
  else s.

Definition setupRealVisualizer (data : list Z) (s : State) : State :=
  updateVolume data
    (mkState (botState s) (isConnected s) (audioLevel s) (transcript s)
             (roomRef s) (animationFrameRef s) true (frames s)
             (nextFrame s) (nextRoom s) (sdk s) (now s)).

(** *** Room event handlers registered by [handleConnect] *)

Definition onConnected (s : State) : State :=
  addMessage system "Secure Link Established."
    (setBotState idle (setIsConnected true s)).

Definition onDisconnected (s : State) : State :=
  addMessage system "Disconnected."
    (setBotState idle (setIsConnected false s)).

(** *** [handleConnect], split at its suspension points *)

(** What the awaited [fetch("/api/token")] and [response.json()] give. *)
Inductive TokenReply : Type :=
  | ReplyRejected (message : string)
  | ReplyBody (accessToken server_url : option string).

(** What the awaited [room.connect(url, token)] gives. *)
Inductive Transport : Type :=
  | TransportResolved
  | TransportRejected (message : string).

(** The [catch] block. *)
Definition connectFailed (message : string) (s : State) : State :=
  addMessage system ("Connection failed: " ++ message)
    (setBotState idle s).

Definition connectBegin (s : State) : State :=
  addMessage system "Connecting to Server..." (setBotState processing s).

Definition pickUrl (envUrl server_url : option string) : string :=
  match orElse (orElse envUrl server_url) (Some defaultUrl) with
  | Some u => u
  | None => defaultUrl
  end.

(** From the token reply up to the [await room.connect(...)]. *)
Definition connectWithReply (envUrl : option string) (reply : TokenReply)
    (s : State) : State :=
  match reply with
  | ReplyRejected message => connectFailed message s
  | ReplyBody token server_url =>
      let url := pickUrl envUrl server_url in
      if negb (truthy token)
      then connectFailed "No token received" s
      else
        let r := nextRoom s in
        call (RoomConnect r url (str token))
          (call (RegisterHandlers r)
            (setRoomRef (Some r) (newRoom s)))
  end.

Definition connectSettled (t : Transport) (s : State) : State :=
  match t with
  | TransportResolved => s
  | TransportRejected message => connectFailed message s
  end.

(** Whether a reply lets [handleConnect] reach [room.connect]. *)
Definition reachesTransport (reply : TokenReply) : bool :=
  match reply with
  | ReplyRejected _ => false
  | ReplyBody token _ => truthy token
  end.

(** One uninterrupted run of [handleConnect]. *)
Definition handleConnect (envUrl : option string) (reply : TokenReply)
    (t : Transport) (s : State) : State :=
  let s1 := connectWithReply envUrl reply (connectBegin s) in
  if reachesTransport reply then connectSettled t s1 else s1.

(** The run ends in the [catch] block. *)
Definition connectFails (reply : TokenReply) (t : Transport) : bool :=
  match reply, t with
  | ReplyRejected _, _ => true
  | ReplyBody token _, TransportResolved => negb (truthy token)
  | ReplyBody _ _, TransportRejected _ => true
  end.

(** *** [handleDisconnect] and [toggleRecording] *)

Definition releaseRoom (s : State) : State :=
  match roomRef s with
  | Some r => setRoomRef None (call (RoomDisconnect r) s)
  | None => s
  end.

Definition handleDisconnect (s : State) : State :=
  cancelFrameRef
    (setAudioLevel 0
      (setIsConnected false
        (releaseRoom s))).

(** Up to the [await] in the start-listening branch. *)
Definition toggleRecording (s : State) : State :=
  if negb (isConnected s) then s
  else
    match roomRef s with
    | None => s
    | Some r =>
        match botState s with
        | listening =>
            cancelFrameRef
              (setAudioLevel 0
                (setBotState processing
                  (call (StopAndUnpublishMic r) s)))
        | _ =>
            call (SetMicrophoneEnabled r) (setBotState listening s)
        end
    end.

(** What the awaited [setMicrophoneEnabled(true)] gives. *)
Inductive MicOutcome : Type :=
  | MicPublished (hasTrack : bool)
  | MicRejected.

(** The rest of the start-listening branch. *)
Definition micSettled (o : MicOutcome) (data : list Z) (s : State) : State :=
  match o with
  | MicPublished true => setupRealVisualizer data s
  | MicPublished false => s
  | MicRejected =>
      setBotState idle (addMessage system "Microphone access denied." s)
  end.

(** A pending animation frame runs [updateVolume]. *)
Definition onFrame (id : positive) (data : list Z) (s : State) : State :=
  if existsb (Pos.eqb id) (frames s)
  then
    updateVolume data
      (mkState (botState s) (isConnected s) (audioLevel s) (transcript s)
               (roomRef s) (animationFrameRef s) (analyzerReady s)
               (filter (fun f => negb (Pos.eqb f id)) (frames s))
               (nextFrame s) (nextRoom s) (sdk s) (now s))
  else s.

(** The request recorded in [animationFrameRef] is still pending.  This is
    the one loop the page is able to cancel. *)
Definition trackedFramePending (s : State) : bool :=
  match animationFrameRef s with
  | Some id => existsb (Pos.eqb id) (frames s)
  | None => false
  end.

(** The pending requests other than the one recorded in
    [animationFrameRef].  [setupRealVisualizer] starts a loop without
    cancelling an earlier one, and [animationFrameRef] records only the
    latest request, so an earlier loop is out of the page's reach. *)
Definition untrackedFrames (s : State) : list positive :=
  match animationFrameRef s with
  | Some id => filter (fun f => negb (Pos.eqb f id)) (frames s)
  | None => frames s
  end.

(** A sampler loop is running when some [updateVolume] request is pending,
    recorded or not. *)
Definition samplerRunning (s : State) : bool :=
  match frames s with
  | [] => false
  | _ :: _ => true
  end.

Definition roomDisconnects (s : State) : nat :=
  List.length (filter (fun c =>
    match c with RoomDisconnect _ => true | _ => false end) (sdk s)).

(** *** Stimuli reaching the component *)

Inductive Event : Type :=
  | ConnectClicked
  | TokenArrives (envUrl : option string) (reply : TokenReply)
  | TransportSettles (t : Transport)
  | DisconnectClicked          (* also the unmount cleanup effect *)
  | ToggleClicked
  | MicSettles (o : MicOutcome) (data : list Z)
  | RoomConnected
  | RoomDisconnected
  | Frame (id : positive) (data : list Z)
  | Elapse (d : N).

Definition elapse (d : N) (s : State) : State :=
  mkState (botState s) (isConnected s) (audioLevel s) (transcript s)
          (roomRef s) (animationFrameRef s) (analyzerReady s) (frames s)
          (nextFrame s) (nextRoom s) (sdk s) (now s + d).

Definition step (s : State) (e : Event) : State :=
  match e with
  | ConnectClicked => connectBegin s
  | TokenArrives envUrl reply => connectWithReply envUrl reply s
  | TransportSettles t => connectSettled t s
  | DisconnectClicked => handleDisconnect s
  | ToggleClicked => toggleRecording s
  | MicSettles o data => micSettled o data s
  | RoomConnected => onConnected s
  | RoomDisconnected => onDisconnected s
  | Frame id data => onFrame id data s
  | Elapse d => elapse d s
  end.

Definition run (s : State) (es : list Event) : State :=
  fold_left step es s.

(** *** Sample sessions *)

Definition sampleToken : TokenReply := ReplyBody (Some "jwt") None.

(** The link comes up, the user talks and stops. *)
Definition sessionToProcessing : list Event :=
  [ConnectClicked; TokenArrives None sampleToken; RoomConnected;
   TransportSettles TransportResolved;
   ToggleClicked; MicSettles (MicPublished true) (repeat 50%Z 32);
   ToggleClicked].

(** The link comes up and the user is talking. *)
Definition sessionToListening : list Event :=
  [ConnectClicked; TokenArrives None sampleToken; RoomConnected;
   TransportSettles TransportResolved;
   ToggleClicked; MicSettles (MicPublished true) (repeat 50%Z 32)].

(** The user starts talking, stops and starts again before the first
    microphone request has settled; then both requests are granted.  Each
    grant runs [setupRealVisualizer], so two sampler loops are running, with
    requests 1 and 2 pending, of which [animationFrameRef] records 2. *)
Definition sessionTwoLoops : list Event :=
  [ConnectClicked; TokenArrives None sampleToken; RoomConnected;
   TransportSettles TransportResolved;
   ToggleClicked; ToggleClicked; ToggleClicked;
   MicSettles (MicPublished true) (repeat 50%Z 32);
   MicSettles (MicPublished true) (repeat 50%Z 32)].

(** *** Further observations on the live page *)

(** What [getByteFrequencyData] writes into the [Uint8Array] of
    [bufferLength] entries: that many bytes. *)
Definition validBytes (data : list Z) : bool :=
  Nat.eqb (List.length data) bufferLength
  && forallb (fun d => (0 <=? d)%Z && (d <=? 255)%Z) data.

Definition validFrames (e : Event) : bool :=
  match e with
  | MicSettles _ data => validBytes data
  | Frame _ data => validBytes data
  | _ => true
  end.

(** The level for the sum [z] lies between 0 and 2.55 and within [2^-51]
    of the exact [z / 3200]. *)
Definition levelChecked (z : Z) : bool :=
  Qle_bool 0 (levelOfSum z)
  && Qle_bool (levelOfSum z) (255 # 100)
  && Qle_bool (inject_Z z / (3200 # 1) - (1 # 2251799813685248))
       (levelOfSum z)
  && Qle_bool (levelOfSum z)
       (inject_Z z / (3200 # 1) + (1 # 2251799813685248)).

(** The sums that 32 bytes can add up to. *)
Definition byteSums : list Z := map Z.of_nat (seq 0 (Z.to_nat 8161)).

(** A connection attempt that succeeds: the click, the token reply, the
    room's connected event and the resolution of [room.connect]. *)
Definition connectSession (envUrl token server_url : option string)
    : list Event :=
  [ConnectClicked; TokenArrives envUrl (ReplyBody token server_url);
   RoomConnected; TransportSettles TransportResolved].

End Live.

(** ** The token route *)

Module TokenRoute.

Record VideoGrant : Type := mkGrant {
  roomJoin : bool;
  room : string;
  canPublish : bool;
  canSubscribe : bool
}.

(** The SDK's [AccessToken] object. *)
Record AccessToken : Type := mkToken {
  apiKey : string;
  apiSecret : string;
  identity : string;
  video : option VideoGrant
}.

(** [new AccessToken(apiKey, apiSecret, { identity })] *)
Definition newAccessToken (key secret ident : string) : AccessToken :=
  mkToken key secret ident None.

(** [at.addGrant(grant)] *)
Definition addGrant (g : VideoGrant) (a : AccessToken) : AccessToken :=
  mkToken (apiKey a) (apiSecret a) (identity a) (Some g).

(** What [at.toJwt()] hands back.  In the 1.x line of the SDK the method
    signs synchronously and returns the compact token; from 2.0 on it is
    asynchronous and returns a promise of the token. *)
Inductive JwtResult : Type :=
  | JwtString (jwt : string)
  | JwtPromise (jwt : string).

(** The value of a property of a JSON body. *)
Inductive JsonValue : Type :=
  | JsonString (s : string)
  | JsonEmptyObject.

(** [JSON.stringify], applied by [NextResponse.json], on what [toJwt()]
    returned: a string is written as it is; a promise has no enumerable
    property of its own and is written as the empty object. *)
Definition stringify (v : JwtResult) : JsonValue :=
  match v with
  | JwtString jwt => JsonString jwt
  | JwtPromise _ => JsonEmptyObject
  end.

Inductive Body : Type :=
  | TokenBody (accessToken : JsonValue)
  | ErrorBody (error : string).

Record Response : Type := mkResponse {
  status : N;
  body : Body
}.

Record Env : Type := mkEnv {
  LIVEKIT_API_KEY : option string;
  LIVEKIT_API_SECRET : option string
}.

Record NextRequest : Type := mkRequest {
  url : string;
  headers : list (string * string)
}.

(** [s.substring(7)] *)
Definition substringFrom (n : nat) (s : string) : string :=
  String.substring n (String.length s - n) s.

(** ["user-" + Math.random().toString(36).substring(7)]; [draw36] is the
    base-36 rendering of the draw. *)
Definition makeIdentity (draw36 : string) : string :=
  "user-" ++ substringFrom 7 draw36.

(** [NextResponse.json(body, { status })]; the status defaults to 200. *)
Definition json (b : Body) (st : option N) : Response :=
  mkResponse (match st with Some n => n | None => 200%N end) b.

Section Handler.

(** The SDK's serialisation of a token, [at.toJwt()].  The handler passes
    its result to [NextResponse.json] without awaiting it. *)
Variable toJwt : AccessToken -> JwtResult.

Definition GET (req : NextRequest) (env : Env) (draw36 : string)
    : Response :=
  let key := LIVEKIT_API_KEY env in
  let secret := LIVEKIT_API_SECRET env in
  if negb (truthy key) || negb (truthy secret)
  then json (ErrorBody "Server misconfigured") (Some 500%N)
  else
    let atok :=
      addGrant (mkGrant true "voice-bot-room" true true)
        (newAccessToken (str key) (str secret) (makeIdentity draw36)) in
    json (TokenBody (stringify (toJwt atok))) None.

End Handler.

Definition credentialsPresent (env : Env) : bool :=
  truthy (LIVEKIT_API_KEY env) && truthy (LIVEKIT_API_SECRET env).

(** The token the handler builds from its environment and its draw. *)
Definition issued (env : Env) (draw36 : string) : AccessToken :=
  mkToken (str (LIVEKIT_API_KEY env)) (str (LIVEKIT_API_SECRET env))
          ("user-" ++ substringFrom 7 draw36)
          (Some (mkGrant true "voice-bot-room" true true)).

(** An SDK of the 1.x line and one of the 2.x line; [sign] stands for the
    signature computation. *)
Definition sdk1 (sign : AccessToken -> string) (a : AccessToken)
    : JwtResult := JwtString (sign a).
Definition sdk2 (sign : AccessToken -> string) (a : AccessToken)
    : JwtResult := JwtPromise (sign a).

End TokenRoute.

(** ** What the page shows of the log *)

(** [{lastMessage && isConnected && !showHistory && (...)}]: the entry
    shown as live caption, if any. *)
Definition liveCaption (transcript : list Message)
    (isConnected showHistory : bool) : option Message :=
  match lastMessage transcript with
  | Some m => if isConnected && negb showHistory then Some m else None
  | None => None
  end.

(** Entry [a] is stamped no later than entry [b]. *)
Definition stampLe (a b : Message) : Prop :=
  (timestamp a <= timestamp b)%N.

(** The log is sorted by time stamp and no entry is stamped later than
    the clock. *)
Definition chronological (clock : N) (log : list Message) : Prop :=
  StronglySorted stampLe log
  /\ Forall (fun a => (timestamp a <= clock)%N) log.

(** ** The synthetic level on the machine's numbers

    The expression of [newLevel64] on the primitive binary64 numbers, to
    check the specification against the arithmetic of the processor at
    concrete draws. *)

Definition newLevelPrim (r : float) : float :=
  (0x1.3333333333333p-2 + r * 0x1.6666666666666p-1)%float.

(** The largest binary64 number below 1, the largest draw possible. *)
Definition largestDraw : float := 0x1.fffffffffffffp-1%float.

(** * Properties *)

(** ** The transcript log *)

Lemma extends_refl (l : list Message) : extends l l.
Proof. exists []. now rewrite app_nil_r. Qed.

Lemma extends_append (l : list Message) clock r t :
  extends l (append clock r t l).
Proof. now exists [mkMessage r t clock]. Qed.

Lemma extends_length (l1 l2 : list Message) :
  extends l1 l2 -> (List.length l1 <= List.length l2)%nat.
Proof. intros [a ->]. rewrite length_app. lia. Qed.

Lemma extends_firstn (l1 l2 : list Message) :
  extends l1 l2 -> firstn (List.length l1) l2 = l1.
Proof.
  intros [a ->]. rewrite firstn_app, firstn_all, Nat.sub_diag.
  simpl. now rewrite app_nil_r.
Qed.

Lemma append_length (l : list Message) clock r t :
  List.length (append clock r t l) = S (List.length l).
Proof. unfold append. rewrite length_app. simpl. lia. Qed.

Lemma lastMessage_append (l : list Message) clock r t :
  lastMessage (append clock r t l) = Some (mkMessage r t clock).
Proof.
  unfold lastMessage. rewrite append_length. simpl Nat.ltb.
  cbv iota. unfold append.
  replace (S (List.length l) - 1)%nat with (List.length l) by lia.
  rewrite nth_error_app2 by lia. now rewrite Nat.sub_diag.
Qed.

Lemma count_system_app (t : string) (l1 l2 : list Message) :
  count_system t (l1 ++ l2) = (count_system t l1 + count_system t l2)%nat.
Proof. unfold count_system. now rewrite filter_app, length_app. Qed.

Lemma count_system_one (t : string) (clock : N) :
  count_system t [mkMessage system t clock] = 1%nat.
Proof. unfold count_system. simpl. now rewrite String.eqb_refl. Qed.

(** *** Projections of the simulated component's helpers *)

Ltac split_ref s := destruct (Mock.intervalRef s).

Lemma mock_transcript_clearIntervalRef (s : Mock.State) :
  Mock.transcript (Mock.clearIntervalRef s) = Mock.transcript s.
Proof. unfold Mock.clearIntervalRef. now split_ref s. Qed.

Lemma mock_now_clearIntervalRef (s : Mock.State) :
  Mock.now (Mock.clearIntervalRef s) = Mock.now s.
Proof. unfold Mock.clearIntervalRef. now split_ref s. Qed.

Lemma mock_botState_clearIntervalRef (s : Mock.State) :
  Mock.botState (Mock.clearIntervalRef s) = Mock.botState s.
Proof. unfold Mock.clearIntervalRef. now split_ref s. Qed.

Lemma mock_isConnected_clearIntervalRef (s : Mock.State) :
  Mock.isConnected (Mock.clearIntervalRef s) = Mock.isConnected s.
Proof. unfold Mock.clearIntervalRef. now split_ref s. Qed.

Lemma mock_audioLevel_clearIntervalRef (s : Mock.State) :
  Mock.audioLevel (Mock.clearIntervalRef s) = Mock.audioLevel s.
Proof. unfold Mock.clearIntervalRef. now split_ref s. Qed.

Lemma mock_nextId_clearIntervalRef (s : Mock.State) :
  Mock.nextId (Mock.clearIntervalRef s) = Mock.nextId s.
Proof. unfold Mock.clearIntervalRef. now split_ref s. Qed.

Lemma mock_intervalRef_clearIntervalRef (s : Mock.State) :
  Mock.intervalRef (Mock.clearIntervalRef s) = Mock.intervalRef s.
Proof.
  unfold Mock.clearIntervalRef.
  now destruct (Mock.intervalRef s) eqn:E.
Qed.

Create Rewrite HintDb mock_proj.
#[local] Hint Rewrite
  mock_transcript_clearIntervalRef mock_now_clearIntervalRef
  mock_botState_clearIntervalRef mock_isConnected_clearIntervalRef
  mock_audioLevel_clearIntervalRef mock_nextId_clearIntervalRef
  mock_intervalRef_clearIntervalRef : mock_proj.

Ltac mock_simpl :=
  simpl; autorewrite with mock_proj; simpl.

Lemma mock_transcript_simulate (s : Mock.State) :
  Mock.transcript (Mock.simulateVoiceActivity s) = Mock.transcript s.
Proof. unfold Mock.simulateVoiceActivity. now mock_simpl. Qed.

Lemma mock_transcript_handleDisconnect (s : Mock.State) :
  Mock.transcript (Mock.handleDisconnect s)
  = Mock.transcript s ++ [mkMessage system "Disconnected." (Mock.now s)].
Proof. unfold Mock.handleDisconnect. now mock_simpl. Qed.

Lemma mock_toggle_extends (s : Mock.State) :
  Mock.transcript (Mock.toggleRecording s) = Mock.transcript s.
Proof.
  unfold Mock.toggleRecording.
  destruct (Mock.isConnected s); [|reflexivity].
  destruct (Mock.botState s); unfold Mock.simulateVoiceActivity;
    now mock_simpl.
Qed.

Lemma mock_runCallback_extends c r (s : Mock.State) :
  extends (Mock.transcript s) (Mock.transcript (Mock.runCallback c r s)).
Proof.
  destruct c; unfold Mock.runCallback, Mock.simulateVoiceActivity;
    mock_simpl; try apply extends_append; apply extends_refl.
Qed.

Lemma mock_fire_extends id r (s : Mock.State) :
  extends (Mock.transcript s) (Mock.transcript (Mock.fire id r s)).
Proof.
  unfold Mock.fire. destruct (Mock.findTimer id (Mock.timers s)) as [t|].
  - apply (mock_runCallback_extends (Mock.cb t) r
             (Mock.mkState (Mock.botState s) (Mock.isConnected s)
                (Mock.audioLevel s) (Mock.transcript s)
                (Mock.intervalRef s)
                (Mock.rearm (Mock.now s) t (Mock.timers s))
                (Mock.nextId s) (Mock.now s))).
  - apply extends_refl.
Qed.

Lemma mock_step_extends (s : Mock.State) (e : Mock.Event) :
  extends (Mock.transcript s) (Mock.transcript (Mock.step s e)).
Proof.
  unfold Mock.step. destruct (Mock.enabled e s); [|apply extends_refl].
  destruct e; cbn [Mock.dispatch].
  - apply extends_refl.
  - rewrite mock_transcript_handleDisconnect. now eexists.
  - rewrite mock_toggle_extends. apply extends_refl.
  - apply extends_refl.
  - apply mock_fire_extends.
Qed.

(** *** Projections of the live component's helpers *)

Lemma live_cancelFrameRef_fields (s : Live.State) :
  Live.transcript (Live.cancelFrameRef s) = Live.transcript s
  /\ Live.botState (Live.cancelFrameRef s) = Live.botState s
  /\ Live.isConnected (Live.cancelFrameRef s) = Live.isConnected s
  /\ Live.audioLevel (Live.cancelFrameRef s) = Live.audioLevel s
  /\ Live.roomRef (Live.cancelFrameRef s) = Live.roomRef s
  /\ Live.sdk (Live.cancelFrameRef s) = Live.sdk s
  /\ Live.animationFrameRef (Live.cancelFrameRef s)
     = Live.animationFrameRef s.
Proof.
  unfold Live.cancelFrameRef.
  destruct (Live.animationFrameRef s) eqn:E; simpl; auto 10.
Qed.

Lemma live_releaseRoom_fields (s : Live.State) :
  Live.transcript (Live.releaseRoom s) = Live.transcript s
  /\ Live.botState (Live.releaseRoom s) = Live.botState s
  /\ Live.roomRef (Live.releaseRoom s) = None
  /\ Live.frames (Live.releaseRoom s) = Live.frames s
  /\ Live.animationFrameRef (Live.releaseRoom s)
     = Live.animationFrameRef s.
Proof.
  unfold Live.releaseRoom.
  destruct (Live.roomRef s) eqn:E; simpl; auto 10.
Qed.

Lemma live_transcript_handleDisconnect (s : Live.State) :
  Live.transcript (Live.handleDisconnect s) = Live.transcript s.
Proof.
  unfold Live.handleDisconnect.
  rewrite (proj1 (live_cancelFrameRef_fields _)). simpl.
  apply live_releaseRoom_fields.
Qed.

Lemma live_botState_handleDisconnect (s : Live.State) :
  Live.botState (Live.handleDisconnect s) = Live.botState s.
Proof.
  unfold Live.handleDisconnect.
  rewrite (proj1 (proj2 (live_cancelFrameRef_fields _))). simpl.
  apply live_releaseRoom_fields.
Qed.

Lemma live_transcript_toggleRecording (s : Live.State) :
  Live.transcript (Live.toggleRecording s) = Live.transcript s.
Proof.
  unfold Live.toggleRecording.
  destruct (Live.isConnected s); [|reflexivity].
  destruct (Live.roomRef s); [|reflexivity].
  destruct (Live.botState s); simpl; try reflexivity.
  now rewrite (proj1 (live_cancelFrameRef_fields _)).
Qed.

Lemma live_transcript_updateVolume data (s : Live.State) :
  Live.transcript (Live.updateVolume data s) = Live.transcript s.
Proof. unfold Live.updateVolume. now destruct (Live.analyzerReady s). Qed.

Lemma live_step_extends (s : Live.State) (e : Live.Event) :
  extends (Live.transcript s) (Live.transcript (Live.step s e)).
Proof.
  destruct e; cbn [Live.step].
  - apply extends_append.
  - destruct reply as [m | token url]; cbn [Live.connectWithReply].
    + apply extends_append.
    + destruct (negb (truthy token)).
      * apply extends_append.
      * apply extends_refl.
  - destruct t; cbn [Live.connectSettled].
    + apply extends_refl.
    + apply extends_append.
  - rewrite live_transcript_handleDisconnect. apply extends_refl.
  - rewrite live_transcript_toggleRecording. apply extends_refl.
  - destruct o as [[|]|]; cbn [Live.micSettled].
    + unfold Live.setupRealVisualizer.
      rewrite live_transcript_updateVolume. apply extends_refl.
    + apply extends_refl.
    + apply extends_append.
  - apply extends_append.
  - apply extends_append.
  - unfold Live.onFrame. destruct (existsb _ _).
    + rewrite live_transcript_updateVolume. apply extends_refl.
    + apply extends_refl.
  - apply extends_refl.
Qed.

(** C9. On both pages [addMessage] makes the log exactly one entry longer,
    keeps the entries that were there, and makes the utterance it was given,
    stamped with the clock, the one that [lastMessage] reads back; the same
    holds of the list update it applies, for every log.  No operation of
    either page component ever shortens the log. *)
Theorem append_grows_by_one_and_is_last :
  (forall (log : list Message) (clock : N) (r : Role) (t : string),
      List.length (append clock r t log) = S (List.length log)
      /\ lastMessage (append clock r t log) = Some (mkMessage r t clock))
  /\ (forall (s : Mock.State) (r : Role) (t : string),
        Mock.transcript (Mock.addMessage r t s)
        = Mock.transcript s ++ [mkMessage r t (Mock.now s)]
        /\ List.length (Mock.transcript (Mock.addMessage r t s))
           = S (List.length (Mock.transcript s))
        /\ lastMessage (Mock.transcript (Mock.addMessage r t s))
           = Some (mkMessage r t (Mock.now s)))
  /\ (forall (s : Live.State) (r : Role) (t : string),
        Live.transcript (Live.addMessage r t s)
        = Live.transcript s ++ [mkMessage r t (Live.now s)]
        /\ List.length (Live.transcript (Live.addMessage r t s))
           = S (List.length (Live.transcript s))
        /\ lastMessage (Live.transcript (Live.addMessage r t s))
           = Some (mkMessage r t (Live.now s)))
  /\ (forall (s : Mock.State) (e : Mock.Event),
        (List.length (Mock.transcript s)
         <= List.length (Mock.transcript (Mock.step s e)))%nat)
  /\ (forall (s : Live.State) (e : Live.Event),
        (List.length (Live.transcript s)
         <= List.length (Live.transcript (Live.step s e)))%nat).
Proof.
  split; [|split; [|split; [|split]]].
  - intros. split; [apply append_length | apply lastMessage_append].
  - intros s r t.
    change (Mock.transcript (Mock.addMessage r t s))
      with (append (Mock.now s) r t (Mock.transcript s)).
    split; [reflexivity|].
    split; [apply append_length | apply lastMessage_append].
  - intros s r t.
    change (Live.transcript (Live.addMessage r t s))
      with (append (Live.now s) r t (Live.transcript s)).
    split; [reflexivity|].
    split; [apply append_length | apply lastMessage_append].
  - intros. apply extends_length, mock_step_extends.
  - intros. apply extends_length, live_step_extends.
Qed.

(** C8. Disconnecting never clears the log: the entries present before
    are the initial segment of the log afterwards, unchanged and in the
    same order.  The simulated handler appends its one system entry, the
    live handler leaves the log as it is, and the live session-ended
    handler appends one system entry. *)
Theorem disconnect_keeps_log :
  (forall s : Mock.State,
      firstn (List.length (Mock.transcript s))
             (Mock.transcript (Mock.handleDisconnect s))
      = Mock.transcript s
      /\ Mock.transcript (Mock.handleDisconnect s)
         = Mock.transcript s
           ++ [mkMessage system "Disconnected." (Mock.now s)])
  /\ (forall s : Live.State,
        Live.transcript (Live.handleDisconnect s) = Live.transcript s)
  /\ (forall s : Live.State,
        firstn (List.length (Live.transcript s))
               (Live.transcript (Live.onDisconnected s))
        = Live.transcript s
        /\ Live.transcript (Live.onDisconnected s)
           = Live.transcript s
             ++ [mkMessage system "Disconnected." (Live.now s)]).
Proof.
  split; [|split].
  - intros s. rewrite mock_transcript_handleDisconnect. split; [|reflexivity].
    apply extends_firstn. now eexists.
  - apply live_transcript_handleDisconnect.
  - intros s. split; [|reflexivity].
    apply extends_firstn. simpl. now eexists.
Qed.

(** ** The speak toggle *)

(** C2. While no session is connected the speak toggle returns the state it
    was given: conversation state, audio level, transcript, timers and
    handles are all untouched, and the handler completes normally. *)
Theorem toggle_while_disconnected_is_noop :
  (forall s : Mock.State,
      Mock.isConnected s = false ->
      Mock.toggleRecording s = s /\ Mock.step s Mock.ClickToggle = s)
  /\ (forall s : Live.State,
        Live.isConnected s = false ->
        Live.toggleRecording s = s).
Proof.
  split.
  - intros s H. unfold Mock.step. cbn [Mock.enabled Mock.dispatch].
    unfold Mock.toggleRecording. now rewrite H.
  - intros s H. unfold Live.toggleRecording. now rewrite H.
Qed.

Lemma toggle_while_disconnected_is_noop_witness :
  (Mock.toggleRecording (Mock.handleConnect Mock.init)
   = Mock.handleConnect Mock.init
   /\ Mock.step (Mock.handleConnect Mock.init) Mock.ClickToggle
      = Mock.handleConnect Mock.init)
  /\ Live.toggleRecording (Live.connectBegin Live.init)
     = Live.connectBegin Live.init.
Proof.
  split.
  - apply (proj1 toggle_while_disconnected_is_noop). reflexivity.
  - apply (proj2 toggle_while_disconnected_is_noop). reflexivity.
Defined.

(** ** Well-formedness of the timer table is an invariant *)

Lemma ownedTick_spec ref t :
  Mock.ownedTick ref t = true <->
  (Mock.isTick t = true ->
   ref = Some (Mock.tid t) /\ Mock.period t = Some 100%N).
Proof.
  unfold Mock.ownedTick. destruct (Mock.isTick t).
  - destruct ref as [id|], (Mock.period t) as [p|]; split;
      try (intros H; discriminate H);
      try (intros H; destruct (H eq_refl) as [H1 H2]; discriminate).
    + intros H _. apply andb_true_iff in H as [H1 H2].
      apply Pos.eqb_eq in H1. apply N.eqb_eq in H2. now subst.
    + intros H. destruct (H eq_refl) as [H1 H2].
      injection H1 as <-. injection H2 as ->.
      now rewrite Pos.eqb_refl.
  - split; [discriminate | reflexivity].
Qed.

Lemma wf_spec (s : Mock.State) : Mock.wf s = true <-> Mock.wfP s.
Proof.
  unfold Mock.wf, Mock.fresh, Mock.wfP.
  rewrite !andb_true_iff, !forallb_forall. split.
  - intros [[H1 H2] H3]. repeat split.
    + intros t Ht. now apply Pos.ltb_lt, H1.
    + intros id E. rewrite E in H2. now apply Pos.ltb_lt.
    + now apply (proj1 (ownedTick_spec _ _) (H3 t H)).
    + now apply (proj1 (ownedTick_spec _ _) (H3 t H)).
  - intros (H1 & H2 & H3). repeat split.
    + intros t Ht. now apply Pos.ltb_lt, H1.
    + destruct (Mock.intervalRef s) as [id|]; [|reflexivity].
      now apply Pos.ltb_lt, H2.
    + intros t Ht. apply ownedTick_spec. intros. now apply H3.
Qed.

Lemma wfP_same (s s' : Mock.State) :
  Mock.timers s' = Mock.timers s ->
  Mock.intervalRef s' = Mock.intervalRef s ->
  Mock.nextId s' = Mock.nextId s ->
  Mock.wfP s -> Mock.wfP s'.
Proof. unfold Mock.wfP. intros -> -> ->. exact (fun H => H). Qed.

Lemma wfP_clearInterval id (s : Mock.State) :
  Mock.wfP s -> Mock.wfP (Mock.clearInterval id s).
Proof.
  intros (H1 & H2 & H3). unfold Mock.wfP. simpl. repeat split.
  - intros t Ht. apply filter_In in Ht. now apply H1.
  - exact H2.
  - apply filter_In in H. now apply H3.
  - apply filter_In in H. now apply H3.
Qed.

Lemma wfP_clearIntervalRef (s : Mock.State) :
  Mock.wfP s -> Mock.wfP (Mock.clearIntervalRef s).
Proof.
  unfold Mock.clearIntervalRef. destruct (Mock.intervalRef s) eqn:E.
  - apply wfP_clearInterval.
  - exact (fun H => H).
Qed.

(** Once the handle in [intervalRef] has been cleared no tick is pending. *)
Lemma noTicks_clearIntervalRef (s : Mock.State) :
  Mock.wfP s -> Mock.noTicks (Mock.clearIntervalRef s) = true.
Proof.
  intros (_ & _ & H3). unfold Mock.noTicks. apply forallb_forall.
  intros t Ht. destruct (Mock.isTick t) eqn:Et; [|reflexivity]. exfalso.
  unfold Mock.clearIntervalRef in Ht.
  destruct (Mock.intervalRef s) as [id|] eqn:E.
  - simpl in Ht. apply filter_In in Ht as [Ht Hne].
    destruct (H3 t Ht Et) as [Hid _].
    injection Hid as ->. now rewrite Pos.eqb_refl in Hne.
  - destruct (H3 t Ht Et) as [Hid _]. discriminate.
Qed.

Lemma wfP_setTimeout c d (s : Mock.State) :
  c <> Mock.LevelTickCb -> Mock.wfP s -> Mock.wfP (Mock.setTimeout c d s).
Proof.
  intros Hc (H1 & H2 & H3). unfold Mock.wfP. simpl. repeat split.
  - intros t Ht. apply in_app_or in Ht as [Ht | [<- | []]].
    + specialize (H1 t Ht). lia.
    + simpl. lia.
  - intros id E. specialize (H2 id E). lia.
  - apply in_app_or in H as [Ht | [<- | []]].
    + now apply H3.
    + unfold Mock.isTick in H0. simpl in H0. now destruct c.
  - apply in_app_or in H as [Ht | [<- | []]].
    + now apply H3.
    + unfold Mock.isTick in H0. simpl in H0. now destruct c.
Qed.

Lemma wfP_simulateVoiceActivity (s : Mock.State) :
  Mock.wfP s -> Mock.wfP (Mock.simulateVoiceActivity s).
Proof.
  intros H. pose proof (noTicks_clearIntervalRef s H) as Hno.
  apply wfP_clearIntervalRef in H. destruct H as (H1 & H2 & H3).
  unfold Mock.noTicks in Hno. rewrite forallb_forall in Hno.
  unfold Mock.simulateVoiceActivity, Mock.wfP. simpl. repeat split.
  - intros t Ht. apply in_app_or in Ht as [Ht | [<- | []]].
    + specialize (H1 t Ht). lia.
    + simpl. lia.
  - intros id E. injection E as <-. lia.
  - apply in_app_or in H as [Ht | [<- | []]].
    + specialize (Hno t Ht). rewrite H0 in Hno. discriminate.
    + reflexivity.
  - apply in_app_or in H as [Ht | [<- | []]].
    + specialize (Hno t Ht). rewrite H0 in Hno. discriminate.
    + reflexivity.
Qed.

Lemma wfP_rearm clock t (s : Mock.State) :
  Mock.wfP s ->
  Mock.wfP (Mock.mkState (Mock.botState s) (Mock.isConnected s)
         (Mock.audioLevel s) (Mock.transcript s) (Mock.intervalRef s)
         (Mock.rearm clock t (Mock.timers s)) (Mock.nextId s) (Mock.now s)).
Proof.
  intros (H1 & H2 & H3). unfold Mock.wfP, Mock.rearm. simpl.
  destruct (Mock.period t) as [p|].
  - repeat split.
    + intros u Hu. apply in_map_iff in Hu as (v & <- & Hv).
      specialize (H1 v Hv). now destruct (Pos.eqb _ _).
    + exact H2.
    + apply in_map_iff in H as (v & <- & Hv).
      destruct (Pos.eqb (Mock.tid v) (Mock.tid t));
        [change (Mock.isTick v = true) in H0|]; exact (proj1 (H3 v Hv H0)).
    + apply in_map_iff in H as (v & <- & Hv).
      destruct (Pos.eqb (Mock.tid v) (Mock.tid t));
        [change (Mock.isTick v = true) in H0|]; exact (proj2 (H3 v Hv H0)).
  - repeat split.
    + intros u Hu. apply filter_In in Hu. now apply H1.
    + exact H2.
    + apply filter_In in H. now apply H3.
    + apply filter_In in H. now apply H3.
Qed.

Lemma wfP_runCallback c r (s : Mock.State) :
  Mock.wfP s -> Mock.wfP (Mock.runCallback c r s).
Proof.
  intros H. destruct c; cbn [Mock.runCallback].
  - revert H. now apply wfP_same.
  - apply wfP_setTimeout; [discriminate|].
    apply wfP_simulateVoiceActivity. revert H. now apply wfP_same.
  - apply (wfP_same (Mock.clearIntervalRef
             (Mock.setBotState idle (Mock.addMessage bot Mock.botText s))));
      try reflexivity.
    apply wfP_clearIntervalRef. revert H. now apply wfP_same.
  - revert H. now apply wfP_same.
Qed.

Lemma wfP_handleDisconnect (s : Mock.State) :
  Mock.wfP s -> Mock.wfP (Mock.handleDisconnect s).
Proof.
  intros H. unfold Mock.handleDisconnect.
  eapply wfP_same;
    [reflexivity | reflexivity | reflexivity | apply wfP_clearIntervalRef].
  revert H. now apply wfP_same.
Qed.

Lemma wfP_toggleRecording (s : Mock.State) :
  Mock.wfP s -> Mock.wfP (Mock.toggleRecording s).
Proof.
  intros H. unfold Mock.toggleRecording.
  destruct (negb (Mock.isConnected s)); [assumption|].
  assert (Hs : forall v, Mock.wfP (Mock.setBotState v s))
    by (intros v; revert H; now apply wfP_same).
  destruct (Mock.botState s); try now apply wfP_simulateVoiceActivity.
  apply wfP_setTimeout; [discriminate|].
  apply (wfP_same (Mock.clearIntervalRef (Mock.setBotState processing s)));
    try reflexivity.
  now apply wfP_clearIntervalRef.
Qed.

Lemma wfP_step (s : Mock.State) (e : Mock.Event) :
  Mock.wfP s -> Mock.wfP (Mock.step s e).
Proof.
  intros H. unfold Mock.step. destruct (Mock.enabled e s); [|assumption].
  destruct e; cbn [Mock.dispatch].
  - apply wfP_setTimeout; [discriminate|]. revert H. now apply wfP_same.
  - now apply wfP_handleDisconnect.
  - now apply wfP_toggleRecording.
  - revert H. now apply wfP_same.
  - unfold Mock.fire. destruct (Mock.findTimer id (Mock.timers s)); auto.
    now apply wfP_runCallback, wfP_rearm.
Qed.

(** Every state the simulated page can reach has a well-formed timer
    table. *)
Lemma wf_reachable (es : list Mock.Event) :
  Mock.wf (Mock.run Mock.init es) = true.
Proof.
  apply wf_spec. unfold Mock.run.
  assert (H : Mock.wfP Mock.init) by (now apply wf_spec).
  revert H. generalize Mock.init. induction es as [|e es IH]; intros s H.
  - exact H.
  - simpl. apply IH. now apply wfP_step.
Qed.

(** ** Disconnecting *)

Lemma find_after_filter (id : positive) (ts : list Mock.Timer) :
  Mock.findTimer id
    (filter (fun t => negb (Pos.eqb (Mock.tid t) id)) ts) = None.
Proof.
  unfold Mock.findTimer. induction ts as [|t ts IH]; [reflexivity|].
  simpl. destruct (Pos.eqb (Mock.tid t) id) eqn:E; simpl; [exact IH|].
  now rewrite E.
Qed.

Lemma existsb_after_filter (id : positive) (fs : list positive) :
  existsb (Pos.eqb id) (filter (fun f => negb (Pos.eqb f id)) fs) = false.
Proof.
  induction fs as [|f fs IH]; [reflexivity|].
  simpl. destruct (Pos.eqb f id) eqn:E; simpl; [exact IH|].
  rewrite Pos.eqb_sym, E. exact IH.
Qed.

Lemma filter_twice {A : Type} (p : A -> bool) (l : list A) :
  filter p (filter p l) = filter p l.
Proof.
  induction l as [|a l IH]; [reflexivity|].
  simpl. destruct (p a) eqn:E; simpl; [rewrite E; f_equal|]; exact IH.
Qed.

Lemma mock_samplerRunning_clearIntervalRef (s : Mock.State) :
  Mock.samplerRunning (Mock.clearIntervalRef s) = false.
Proof.
  unfold Mock.samplerRunning, Mock.clearIntervalRef.
  destruct (Mock.intervalRef s) as [id|] eqn:E; simpl; rewrite E.
  - now rewrite find_after_filter.
  - reflexivity.
Qed.

Lemma mock_handleDisconnect_fields (s : Mock.State) :
  Mock.samplerRunning (Mock.handleDisconnect s) = false
  /\ Mock.audioLevel (Mock.handleDisconnect s) = 0
  /\ Mock.botState (Mock.handleDisconnect s) = idle
  /\ Mock.isConnected (Mock.handleDisconnect s) = false.
Proof.
  unfold Mock.handleDisconnect. repeat split; try now mock_simpl.
  exact (mock_samplerRunning_clearIntervalRef
           (Mock.setAudioLevel 0
              (Mock.setBotState idle (Mock.setIsConnected false s)))).
Qed.

Lemma mock_noTicks_handleDisconnect (s : Mock.State) :
  Mock.wfP s -> Mock.noTicks (Mock.handleDisconnect s) = true.
Proof.
  intros H. unfold Mock.handleDisconnect.
  apply (noTicks_clearIntervalRef
           (Mock.setAudioLevel 0
              (Mock.setBotState idle (Mock.setIsConnected false s)))).
  revert H. now apply wfP_same.
Qed.

Lemma live_tracked_cancelFrameRef (s : Live.State) :
  Live.trackedFramePending (Live.cancelFrameRef s) = false.
Proof.
  unfold Live.trackedFramePending, Live.cancelFrameRef.
  destruct (Live.animationFrameRef s) as [id|] eqn:E; simpl; rewrite ?E.
  - apply existsb_after_filter.
  - reflexivity.
Qed.

(** Cancelling removes the recorded request and no other. *)
Lemma live_frames_cancelFrameRef (s : Live.State) :
  Live.frames (Live.cancelFrameRef s) = Live.untrackedFrames s.
Proof.
  unfold Live.cancelFrameRef, Live.untrackedFrames.
  now destruct (Live.animationFrameRef s).
Qed.

Lemma live_frames_handleDisconnect (s : Live.State) :
  Live.frames (Live.handleDisconnect s) = Live.untrackedFrames s.
Proof.
  destruct s as [b c a tr room fr ready fs nf nr calls clock].
  unfold Live.handleDisconnect, Live.releaseRoom, Live.cancelFrameRef,
    Live.untrackedFrames.
  now destruct room, fr.
Qed.

Lemma live_handleDisconnect_fields (s : Live.State) :
  Live.trackedFramePending (Live.handleDisconnect s) = false
  /\ Live.audioLevel (Live.handleDisconnect s) = 0
  /\ Live.isConnected (Live.handleDisconnect s) = false
  /\ Live.roomRef (Live.handleDisconnect s) = None.
Proof.
  unfold Live.handleDisconnect.
  set (s1 := Live.setAudioLevel 0
               (Live.setIsConnected false (Live.releaseRoom s))).
  destruct (live_cancelFrameRef_fields s1) as (_ & _ & Hc & Ha & Hr & _).
  repeat split.
  - apply live_tracked_cancelFrameRef.
  - now rewrite Ha.
  - now rewrite Hc.
  - rewrite Hr. simpl. apply live_releaseRoom_fields.
Qed.

Lemma live_handleDisconnect_twice (s : Live.State) :
  Live.handleDisconnect (Live.handleDisconnect s) = Live.handleDisconnect s.
Proof.
  destruct s as [b c a tr room fr ready fs nf nr calls clock].
  unfold Live.handleDisconnect, Live.releaseRoom, Live.cancelFrameRef.
  destruct room, fr; simpl; try reflexivity; now rewrite filter_twice.
Qed.

Lemma live_roomDisconnects_handleDisconnect (s : Live.State) :
  Live.roomDisconnects (Live.handleDisconnect s)
  = (Live.roomDisconnects s
     + match Live.roomRef s with Some _ => 1 | None => 0 end)%nat.
Proof.
  destruct s as [b c a tr room fr ready fs nf nr calls clock].
  unfold Live.handleDisconnect, Live.releaseRoom, Live.cancelFrameRef,
    Live.roomDisconnects.
  destruct room, fr; simpl; rewrite ?filter_app, ?length_app; simpl; lia.
Qed.

(** The live page once the handler has run and the session-ended event has
    been delivered. *)
Lemma live_disconnect_then_event (s : Live.State) :
  Live.botState (Live.onDisconnected (Live.handleDisconnect s)) = idle
  /\ Live.isConnected (Live.onDisconnected (Live.handleDisconnect s))
     = false
  /\ Live.audioLevel (Live.onDisconnected (Live.handleDisconnect s)) = 0
  /\ Live.trackedFramePending (Live.onDisconnected (Live.handleDisconnect s))
     = false
  /\ Live.frames (Live.onDisconnected (Live.handleDisconnect s))
     = Live.untrackedFrames s
  /\ Live.transcript (Live.onDisconnected (Live.handleDisconnect s))
     = Live.transcript s
       ++ [mkMessage system "Disconnected." (Live.now s)].
Proof.
  destruct s as [b c a tr room fr ready fs nf nr calls clock].
  unfold Live.handleDisconnect, Live.releaseRoom, Live.cancelFrameRef,
    Live.trackedFramePending, Live.untrackedFrames.
  destruct room, fr; simpl; repeat split; apply existsb_after_filter.
Qed.

(** Two sampler loops on the live page.  In the session [sessionTwoLoops]
    the requests 1 and 2 are pending and [animationFrameRef] records 2.  The
    stop toggle, and likewise the disconnect handler followed by the
    session-ended event, cancel request 2 only: request 1 stays pending, and
    when its turn comes it writes the level of its reading, here 5/2, on a
    page that is processing, or idle and disconnected. *)
Example live_second_loop_survives :
  Live.frames (Live.run Live.init Live.sessionTwoLoops)
  = [1%positive; 2%positive]
  /\ Live.animationFrameRef (Live.run Live.init Live.sessionTwoLoops)
     = Some 2%positive
  /\ Live.botState (Live.run Live.init Live.sessionTwoLoops) = listening
  /\ Live.frames
       (Live.toggleRecording (Live.run Live.init Live.sessionTwoLoops))
     = [1%positive]
  /\ Live.botState
       (Live.onFrame 1 (repeat 250%Z 32)
          (Live.toggleRecording (Live.run Live.init Live.sessionTwoLoops)))
     = processing
  /\ Live.audioLevel
       (Live.onFrame 1 (repeat 250%Z 32)
          (Live.toggleRecording (Live.run Live.init Live.sessionTwoLoops)))
     == 5 # 2
  /\ Live.samplerRunning
       (Live.onDisconnected
          (Live.handleDisconnect
             (Live.run Live.init Live.sessionTwoLoops))) = true
  /\ Live.botState
       (Live.onFrame 1 (repeat 250%Z 32)
          (Live.onDisconnected
             (Live.handleDisconnect
                (Live.run Live.init Live.sessionTwoLoops)))) = idle
  /\ Live.isConnected
       (Live.onFrame 1 (repeat 250%Z 32)
          (Live.onDisconnected
             (Live.handleDisconnect
                (Live.run Live.init Live.sessionTwoLoops)))) = false
  /\ Live.audioLevel
       (Live.onFrame 1 (repeat 250%Z 32)
          (Live.onDisconnected
             (Live.handleDisconnect
                (Live.run Live.init Live.sessionTwoLoops)))) == 5 # 2.
Proof.
  split; [vm_compute; reflexivity |].
  split; [vm_compute; reflexivity |].
  split; [vm_compute; reflexivity |].
  split; [vm_compute; reflexivity |].
  split; [vm_compute; reflexivity |].
  split; [vm_compute; reflexivity |].
  split; [vm_compute; reflexivity |].
  split; [vm_compute; reflexivity |].
  split; vm_compute; reflexivity.
Qed.





(** ** Toggling while the bot is busy *)

Lemma find_hit_inside (id : positive) (ts rest : list Mock.Timer)
    (t : Mock.Timer) :
  Mock.tid t = id -> Mock.findTimer id (ts ++ t :: rest) <> None.
Proof.
  intros <-. unfold Mock.findTimer.
  induction ts as [|u ts IH]; simpl.
  - now rewrite Pos.eqb_refl.
  - now destruct (Pos.eqb (Mock.tid u) (Mock.tid t)).
Qed.

Lemma mock_samplerRunning_simulate (s : Mock.State) :
  Mock.samplerRunning (Mock.simulateVoiceActivity s) = true.
Proof.
  unfold Mock.samplerRunning, Mock.simulateVoiceActivity. simpl.
  destruct (Mock.findTimer _ _) eqn:E; [reflexivity|].
  now apply (find_hit_inside _ _ []) in E.
Qed.

(** The timer table once the handle in [ref] has been cleared. *)
Lemma timers_clearIntervalRef (s : Mock.State) :
  Mock.timers (Mock.clearIntervalRef s)
  = match Mock.intervalRef s with
    | Some id =>
        filter (fun t => negb (Pos.eqb (Mock.tid t) id)) (Mock.timers s)
    | None => Mock.timers s
    end.
Proof.
  unfold Mock.clearIntervalRef. now destruct (Mock.intervalRef s) eqn:E.
Qed.

Lemma findTimer_app id (l1 l2 : list Mock.Timer) :
  Mock.findTimer id (l1 ++ l2)
  = match Mock.findTimer id l1 with
    | Some t => Some t
    | None => Mock.findTimer id l2
    end.
Proof.
  unfold Mock.findTimer. induction l1 as [|u l1 IH]; [reflexivity|].
  simpl. now destruct (Pos.eqb (Mock.tid u) id).
Qed.

(** Stopping the recording clears the sampler interval; the timeout it then
    schedules gets a handle of its own. *)
Lemma mock_samplerRunning_stop (s : Mock.State) :
  Mock.wf s = true ->
  Mock.isConnected s = true ->
  Mock.botState s = listening ->
  Mock.samplerRunning (Mock.toggleRecording s) = false.
Proof.
  intros Hwf Hc Hb. apply wf_spec in Hwf. destruct Hwf as (_ & H2 & _).
  unfold Mock.toggleRecording. rewrite Hc, Hb. cbn [negb].
  unfold Mock.samplerRunning, Mock.setTimeout, Mock.register.
  cbn [Mock.intervalRef Mock.timers Mock.setAudioLevel].
  rewrite mock_intervalRef_clearIntervalRef, timers_clearIntervalRef.
  cbn [Mock.setBotState Mock.intervalRef Mock.timers].
  destruct (Mock.intervalRef s) as [id|] eqn:E; [|reflexivity].
  rewrite findTimer_app, find_after_filter.
  unfold Mock.findTimer. cbn [find Mock.tid].
  cbn [Mock.setAudioLevel Mock.nextId].
  rewrite mock_nextId_clearIntervalRef. cbn [Mock.setBotState Mock.nextId].
  assert (Hn : Pos.eqb (Mock.nextId s) id = false)
    by (apply Pos.eqb_neq; specialize (H2 id eq_refl); lia).
  now rewrite Hn.
Qed.




(** ** Failed connection attempts *)

Lemma live_connectFailed_fields message (s : Live.State) :
  Live.botState (Live.connectFailed message s) = idle
  /\ Live.roomRef (Live.connectFailed message s) = Live.roomRef s
  /\ Live.sdk (Live.connectFailed message s) = Live.sdk s
  /\ Live.isConnected (Live.connectFailed message s) = Live.isConnected s
  /\ Live.transcript (Live.connectFailed message s)
     = Live.transcript s
       ++ [mkMessage system ("Connection failed: " ++ message) (Live.now s)].
Proof. repeat split. Qed.

(** Every failing run ends in [idle] with the log extended by the
    "Connecting to Server..." notice and exactly one failure entry. *)
Lemma connect_failure_resets_state envUrl reply t (s : Live.State) :
  Live.connectFails reply t = true ->
  Live.botState (Live.handleConnect envUrl reply t s) = idle
  /\ exists message,
       Live.transcript (Live.handleConnect envUrl reply t s)
       = Live.transcript s
         ++ [mkMessage system "Connecting to Server..." (Live.now s);
             mkMessage system ("Connection failed: " ++ message)
               (Live.now s)].
Proof.
  unfold Live.handleConnect, Live.connectFails, Live.reachesTransport.
  destruct reply as [m | token url].
  - intros _. split; [reflexivity|]. exists m.
    cbn -[String.append append]. unfold append. now rewrite <- app_assoc.
  - cbn [Live.connectWithReply]. destruct (truthy token) eqn:E.
    + destruct t as [|m]; [discriminate|]. intros _.
      split; [reflexivity|]. exists m.
      cbn -[String.append append]. unfold append. now rewrite <- app_assoc.
    + intros _. split; [reflexivity|]. exists "No token received".
      cbn -[String.append append]. unfold append. now rewrite <- app_assoc.
Qed.

(** When the credential is missing the attempt creates no handle and makes
    no call into the SDK. *)
Lemma connect_credential_failure_holds_nothing envUrl reply t
    (s : Live.State) :
  Live.reachesTransport reply = false ->
  Live.roomRef (Live.handleConnect envUrl reply t s) = Live.roomRef s
  /\ Live.sdk (Live.handleConnect envUrl reply t s) = Live.sdk s.
Proof.
  unfold Live.handleConnect. intros H. rewrite H.
  destruct reply as [m | token url]; simpl in *.
  - now split.
  - rewrite H. now split.
Qed.

(** When the transport rejects, the handle created for the attempt stays in
    [roomRef], with its handlers registered and never disconnected. *)
Lemma connect_transport_failure_keeps_handle envUrl token url message
    (s : Live.State) :
  truthy token = true ->
  Live.roomRef
    (Live.handleConnect envUrl (Live.ReplyBody token url)
       (Live.TransportRejected message) s)
  = Some (Live.nextRoom s)
  /\ Live.sdk
       (Live.handleConnect envUrl (Live.ReplyBody token url)
          (Live.TransportRejected message) s)
     = Live.sdk s
       ++ [Live.NewRoom (Live.nextRoom s);
           Live.RegisterHandlers (Live.nextRoom s);
           Live.RoomConnect (Live.nextRoom s)
             (Live.pickUrl envUrl url) (str token)].
Proof.
  intros H. unfold Live.handleConnect. simpl. rewrite H. simpl.
  split; [reflexivity|]. now rewrite <- !app_assoc.
Qed.

(** C4, at the failing input.  The token endpoint answers with a token and
    the transport then rejects: the run fails, the state is [idle], the log
    holds one failure entry, yet [roomRef] still holds the room created for
    the attempt and the SDK was never asked to disconnect it. *)
Theorem connect_transport_failure_at_init :
  Live.connectFails Live.sampleToken
    (Live.TransportRejected "could not establish signal connection") = true
  /\ Live.botState
       (Live.handleConnect None Live.sampleToken
          (Live.TransportRejected "could not establish signal connection")
          Live.init) = idle
  /\ Live.transcript
       (Live.handleConnect None Live.sampleToken
          (Live.TransportRejected "could not establish signal connection")
          Live.init)
     = [mkMessage system "Connecting to Server..." 0;
        mkMessage system
          "Connection failed: could not establish signal connection" 0]
  /\ Live.roomRef
       (Live.handleConnect None Live.sampleToken
          (Live.TransportRejected "could not establish signal connection")
          Live.init) = Some 1%positive
  /\ Live.roomDisconnects
       (Live.handleConnect None Live.sampleToken
          (Live.TransportRejected "could not establish signal connection")
          Live.init) = 0%nat.
Proof. repeat split. Qed.

(** ** The token route *)

(** C10.  The handler answers with status 500 and the body
    [{ error: "Server misconfigured" }] exactly when a server credential is
    missing or empty, and with status 200 and a body [{ accessToken: v }]
    otherwise.  The token it builds is made from the two credentials,
    grants join, publish and subscribe on the room "voice-bot-room" and
    carries an identity made by the server from its own random draw; the
    answer does not depend on the request.  The value [v] is what
    [at.toJwt()] returns, serialised without being awaited: the token
    string when the SDK's [toJwt] is synchronous, and the empty object,
    whatever the token, when it returns a promise. *)
Theorem token_route_answer :
  forall (toJwt : TokenRoute.AccessToken -> TokenRoute.JwtResult)
         (req : TokenRoute.NextRequest) (env : TokenRoute.Env)
         (draw36 : string),
    TokenRoute.GET toJwt req env draw36
    = (if TokenRoute.credentialsPresent env
       then TokenRoute.mkResponse 200
              (TokenRoute.TokenBody
                 (TokenRoute.stringify
                    (toJwt
                       (TokenRoute.mkToken
                          (str (TokenRoute.LIVEKIT_API_KEY env))
                          (str (TokenRoute.LIVEKIT_API_SECRET env))
                          ("user-" ++ TokenRoute.substringFrom 7 draw36)
                          (Some (TokenRoute.mkGrant
                                   true "voice-bot-room" true true))))))
       else TokenRoute.mkResponse 500
              (TokenRoute.ErrorBody "Server misconfigured"))
    /\ (forall req' : TokenRoute.NextRequest,
          TokenRoute.GET toJwt req' env draw36
          = TokenRoute.GET toJwt req env draw36)
    /\ (TokenRoute.credentialsPresent env = true ->
        forall jwt : string,
          toJwt (TokenRoute.issued env draw36) = TokenRoute.JwtString jwt ->
          TokenRoute.GET toJwt req env draw36
          = TokenRoute.mkResponse 200
              (TokenRoute.TokenBody (TokenRoute.JsonString jwt)))
    /\ (TokenRoute.credentialsPresent env = true ->
        forall jwt : string,
          toJwt (TokenRoute.issued env draw36) = TokenRoute.JwtPromise jwt ->
          TokenRoute.GET toJwt req env draw36
          = TokenRoute.mkResponse 200
              (TokenRoute.TokenBody TokenRoute.JsonEmptyObject)).
Proof.
  intros toJwt req env draw36.
  assert (H : TokenRoute.GET toJwt req env draw36
              = if TokenRoute.credentialsPresent env
                then TokenRoute.mkResponse 200
                       (TokenRoute.TokenBody
                          (TokenRoute.stringify
                             (toJwt (TokenRoute.issued env draw36))))
                else TokenRoute.mkResponse 500
                       (TokenRoute.ErrorBody "Server misconfigured")).
  { unfold TokenRoute.GET, TokenRoute.credentialsPresent.
    destruct (truthy (TokenRoute.LIVEKIT_API_KEY env));
      destruct (truthy (TokenRoute.LIVEKIT_API_SECRET env)); reflexivity. }
  split; [exact H|]. split; [reflexivity|]. split.
  - intros Hc jwt Hj. rewrite H, Hc, Hj. reflexivity.
  - intros Hc jwt Hj. rewrite H, Hc, Hj. reflexivity.
Qed.

Lemma token_route_answer_witness :
  TokenRoute.GET (TokenRoute.sdk1 (fun _ => "jwt"))
    (TokenRoute.mkRequest "/api/token" [])
    (TokenRoute.mkEnv (Some "key") (Some "secret")) "0.4fzyo82mvyr"
  = TokenRoute.mkResponse 200
      (TokenRoute.TokenBody (TokenRoute.JsonString "jwt"))
  /\ TokenRoute.GET (TokenRoute.sdk2 (fun _ => "jwt"))
       (TokenRoute.mkRequest "/api/token" [])
       (TokenRoute.mkEnv (Some "key") (Some "secret")) "0.4fzyo82mvyr"
     = TokenRoute.mkResponse 200
         (TokenRoute.TokenBody TokenRoute.JsonEmptyObject).
Proof.
  split.
  - refine (proj1 (proj2 (proj2
      (token_route_answer (TokenRoute.sdk1 (fun _ => "jwt"))
         (TokenRoute.mkRequest "/api/token" [])
         (TokenRoute.mkEnv (Some "key") (Some "secret")) "0.4fzyo82mvyr")))
      _ "jwt" _); reflexivity.
  - refine (proj2 (proj2 (proj2
      (token_route_answer (TokenRoute.sdk2 (fun _ => "jwt"))
         (TokenRoute.mkRequest "/api/token" [])
         (TokenRoute.mkEnv (Some "key") (Some "secret")) "0.4fzyo82mvyr")))
      _ "jwt" _); reflexivity.
Defined.

(** With an SDK whose [toJwt] returns a promise, whatever the credentials
    and the draw, no answer of the handler carries a token string: the
    client reads the empty object as its token. *)
Lemma token_route_promise_never_string sign req env draw36 jwt :
  TokenRoute.body (TokenRoute.GET (TokenRoute.sdk2 sign) req env draw36)
  <> TokenRoute.TokenBody (TokenRoute.JsonString jwt).
Proof.
  unfold TokenRoute.GET, TokenRoute.sdk2.
  destruct (negb (truthy (TokenRoute.LIVEKIT_API_KEY env))
            || negb (truthy (TokenRoute.LIVEKIT_API_SECRET env)));
    discriminate.
Qed.

Example token_route_empty_secret toJwt req draw36 :
  TokenRoute.GET toJwt req (TokenRoute.mkEnv (Some "key") (Some EmptyString))
    draw36
  = TokenRoute.mkResponse 500 (TokenRoute.ErrorBody "Server misconfigured").
Proof. reflexivity. Qed.

Example token_route_identity toJwt req :
  TokenRoute.GET toJwt req
    (TokenRoute.mkEnv (Some "key") (Some "secret")) "0.4fzyo82mvyr"
  = TokenRoute.mkResponse 200
      (TokenRoute.TokenBody
         (TokenRoute.stringify
            (toJwt (TokenRoute.mkToken "key" "secret" "user-82mvyr"
                      (Some (TokenRoute.mkGrant
                               true "voice-bot-room" true true)))))).
Proof. reflexivity. Qed.

(** ** The synthetic sampler *)

(** *** Rounding to binary64

    What [binary_round_aux] does to an exact positive value [m * 2^e]: it
    drops the bits below the exponent [grid m e] and keeps the quotient or
    moves one up, staying on the quotient when nothing was dropped. *)

Section Binary64.

Local Open Scope Z_scope.

Lemma pow2_pos (e : Z) : (0 < 2 ^ e)%Q.
Proof. apply Qpower_0_lt. reflexivity. Qed.

Lemma dyadic_shift (a e n : Z) :
  0 <= n -> (dyadic (a * 2 ^ n) e == dyadic a (e + n))%Q.
Proof.
  intros Hn. unfold dyadic.
  rewrite inject_Z_mult, (Zpower_Qpower 2 n Hn).
  rewrite (Qpower_plus 2 e n) by discriminate.
  change (inject_Z 2) with 2%Q. ring.
Qed.

Lemma dyadic_le (a b e : Z) : a <= b -> (dyadic a e <= dyadic b e)%Q.
Proof.
  intros H. unfold dyadic. apply Qmult_le_compat_r.
  - rewrite <- Zle_Qle. exact H.
  - apply Qlt_le_weak, pow2_pos.
Qed.

Lemma dyadic_le_inv (a b e : Z) : (dyadic a e <= dyadic b e)%Q -> a <= b.
Proof.
  unfold dyadic. intros H. apply Qmult_le_r in H; [| apply pow2_pos].
  rewrite <- Zle_Qle in H. exact H.
Qed.

Lemma dyadic_lt_inv (a b e : Z) : (dyadic a e < dyadic b e)%Q -> a < b.
Proof.
  unfold dyadic. intros H. apply Qmult_lt_r in H; [| apply pow2_pos].
  rewrite <- Zlt_Qlt in H. exact H.
Qed.

(** [digits2_pos m] is the number of binary digits of [m]. *)
Lemma digits2_bounds (m : positive) :
  2 ^ (Zpos (digits2_pos m) - 1) <= Zpos m < 2 ^ Zpos (digits2_pos m).
Proof.
  induction m as [m IH | m IH |]; simpl digits2_pos.
  - rewrite Pos2Z.inj_succ. set (d := Zpos (digits2_pos m)) in *.
    replace (Z.succ d - 1) with (Z.succ (d - 1)) by lia.
    rewrite !Z.pow_succ_r by lia. lia.
  - rewrite Pos2Z.inj_succ. set (d := Zpos (digits2_pos m)) in *.
    replace (Z.succ d - 1) with (Z.succ (d - 1)) by lia.
    rewrite !Z.pow_succ_r by lia. lia.
  - simpl. lia.
Qed.

(** One step of the right shift halves the mantissa, moves its last bit to
    the round bit and folds the old round bit into the sticky bit. *)
Lemma shr_1_div2 (st : shr_record) :
  0 <= shr_m st ->
  shr_m (shr_1 st) = shr_m st / 2 /\
  shr_r (shr_1 st) = Z.odd (shr_m st) /\
  shr_s (shr_1 st) = (shr_r st || shr_s st)%bool.
Proof.
  destruct st as [m r s]. simpl. intros Hm.
  destruct m as [| p | p]; [simpl; auto | | lia].
  destruct p as [p | p |]; simpl.
  - split; [| auto]. rewrite Pos2Z.inj_xI. apply (Z.div_unique _ 2 _ 1); lia.
  - split; [| auto]. rewrite Pos2Z.inj_xO. apply (Z.div_unique _ 2 _ 0); lia.
  - auto.
Qed.

Lemma shifted_step (m0 k : Z) (st : shr_record) :
  0 <= m0 -> 0 <= k -> shifted m0 k st -> shifted m0 (k + 1) (shr_1 st).
Proof.
  intros Hm Hk [Hq Hx].
  assert (Hp : 0 < 2 ^ k) by (apply Z.pow_pos_nonneg; lia).
  assert (Hq0 : 0 <= shr_m st) by (rewrite Hq; apply Z.div_pos; lia).
  destruct (shr_1_div2 st Hq0) as (H1 & H2 & H3).
  assert (Hpow : 2 ^ (k + 1) = 2 ^ k * 2)
    by (rewrite Z.pow_add_r by lia; reflexivity).
  split.
  - rewrite H1, Hq, Hpow, Z.div_div by lia. reflexivity.
  - intros Hmod. rewrite Hpow in Hmod.
    assert (Hdm := Z.div_mod m0 (2 ^ k * 2) ltac:(lia)).
    rewrite Hmod in Hdm.
    assert (Hm0 : m0 = (2 * (m0 / (2 ^ k * 2))) * 2 ^ k) by lia.
    assert (Hmk : m0 mod 2 ^ k = 0).
    { rewrite Hm0. apply Z.mod_mul. lia. }
    destruct (Hx Hmk) as [Hr Hs].
    rewrite H2, H3, Hr, Hs. split; [| reflexivity].
    rewrite Hq. rewrite Hm0 at 1. rewrite Z.div_mul by lia.
    rewrite Z.odd_mul. reflexivity.
Qed.

Lemma shifted_iter (m0 : Z) (p : positive) :
  0 <= m0 ->
  forall k st, 0 <= k -> shifted m0 k st ->
  shifted m0 (k + Zpos p) (iter_pos shr_1 p st).
Proof.
  intros Hm. induction p as [p IH | p IH |]; intros k st Hk H; simpl iter_pos.
  - replace (k + Zpos p~1) with (((k + 1) + Zpos p) + Zpos p) by lia.
    apply IH; [lia |]. apply IH; [lia |]. apply shifted_step; assumption.
  - replace (k + Zpos p~0) with ((k + Zpos p) + Zpos p) by lia.
    apply IH; [lia |]. apply IH; assumption.
  - apply shifted_step; assumption.
Qed.

(** The shift by [n] places of an exact mantissa. *)
Lemma shr_exact_start (m0 e n : Z) :
  0 <= m0 ->
  let n' := Z.max 0 n in
  let res := shr (Build_shr_record m0 false false) e n in
  snd res = e + n' /\
  shr_m (fst res) = m0 / 2 ^ n' /\
  (m0 mod 2 ^ n' = 0 -> loc_of_shr_record (fst res) = loc_Exact).
Proof.
  intros Hm. destruct n as [| p | p]; simpl.
  - rewrite Z.div_1_r. repeat split; lia.
  - destruct (shifted_iter m0 p Hm 0 (Build_shr_record m0 false false))
      as [Hq Hx].
    + lia.
    + split; simpl; [rewrite Z.div_1_r; reflexivity | auto].
    + simpl in Hq, Hx. split; [reflexivity |]. split; [exact Hq |].
      intros Hmod. destruct (Hx Hmod) as [Hr Hs].
      destruct (iter_pos shr_1 p _) as [m' r s]. simpl in *. subst. reflexivity.
  - rewrite Z.div_1_r. repeat split; lia.
Qed.

Lemma round_nearest_even_range (q : Z) (l : location) :
  q <= round_nearest_even q l <= q + 1.
Proof.
  destruct l as [| []]; simpl; try lia. destruct (Z.even q); lia.
Qed.

Lemma fexp64_eq (x : Z) : fexp 53 1024 x = Z.max (x - 53) (-1074).
Proof. reflexivity. Qed.

Lemma shr_nonpos (mrs : shr_record) (e n : Z) :
  n <= 0 -> shr mrs e n = (mrs, e).
Proof. destruct n; [reflexivity | lia | reflexivity]. Qed.

Lemma digits2_le_53 (p : positive) :
  Zpos p < 2 ^ 53 -> Zpos (digits2_pos p) <= 53.
Proof.
  intros H. destruct (digits2_bounds p) as [Hlo _].
  set (d := Zpos (digits2_pos p)) in *.
  destruct (Z_le_gt_dec d 53) as [Hle | Hgt]; [exact Hle |].
  assert (2 ^ 53 <= 2 ^ (d - 1)) by (apply Z.pow_le_mono_r; lia).
  lia.
Qed.

(** The second normalisation of [binary_round_aux]: a mantissa of at most
    53 digits is kept, and [2^53] becomes [2^52] one exponent up. *)
Lemma renormalise (k e1 : Z) :
  -1074 <= e1 -> 0 <= k <= 2 ^ 53 ->
  let res := shr_fexp 53 1024 k e1 loc_Exact in
  match k with
  | Z0 => shr_m (fst res) = 0
  | Zpos _ =>
      exists m3, shr_m (fst res) = Zpos m3
                 /\ (dyadic (Zpos m3) (snd res) == dyadic k e1)%Q
  | Zneg _ => False
  end.
Proof.
  intros He Hk. unfold shr_fexp. simpl shr_record_of_loc.
  destruct k as [| p | p]; [| | lia].
  - simpl Zdigits2. rewrite shr_nonpos; [reflexivity |]. rewrite fexp64_eq. lia.
  - simpl Zdigits2.
    destruct (Z.eq_dec (Zpos p) (2 ^ 53)) as [Heq | Hne].
    + assert (Hp : p = 9007199254740992%positive)
        by (apply Pos2Z.inj; exact Heq).
      subst p.
      change (Zpos (digits2_pos 9007199254740992)) with 54.
      replace (fexp 53 1024 (54 + e1) - e1) with 1
        by (rewrite fexp64_eq; lia).
      simpl. exists 4503599627370496%positive. split; [reflexivity |].
      rewrite <- (dyadic_shift 4503599627370496 e1 1) by lia. reflexivity.
    + rewrite shr_nonpos.
      * simpl. exists p. split; reflexivity.
      * rewrite fexp64_eq.
        assert (Zpos (digits2_pos p) <= 53) by (apply digits2_le_53; lia).
        lia.
Qed.

Lemma quotient_below_2_53 (m : positive) (e : Z) :
  Zpos m / 2 ^ (grid m e - e) < 2 ^ 53.
Proof.
  destruct (digits2_bounds m) as [_ Hhi].
  set (d := Zpos (digits2_pos m)) in *.
  set (n := grid m e - e).
  assert (Hn : 0 <= n /\ d - 53 <= n).
  { unfold n, grid. rewrite fexp64_eq. fold d. lia. }
  apply Z.div_lt_upper_bound; [apply Z.pow_pos_nonneg; lia |].
  rewrite <- Z.pow_add_r by lia.
  assert (2 ^ d <= 2 ^ (n + 53)) by (apply Z.pow_le_mono_r; lia). lia.
Qed.

(** The rounding of an exact positive value [m * 2^e]: with [q] the
    quotient of [m] at the exponent [grid m e], the result is [k * 2^grid]
    for [k] equal to [q] or [q + 1], and to [q] if the division is
    exact. *)
Lemma round_aux_spec (m : positive) (e : Z) :
  let e1 := grid m e in
  let q := Zpos m / 2 ^ (e1 - e) in
  exists k : Z, q <= k <= q + 1 /\ (Zpos m mod 2 ^ (e1 - e) = 0 -> k = q) /\
    match k with
    | Z0 =>
        binary_round_aux 53 1024 false (Zpos m) e loc_Exact
        = S754_zero false
    | Zpos _ => exists m3 e3, (dyadic (Zpos m3) e3 == dyadic k e1)%Q /\
        binary_round_aux 53 1024 false (Zpos m) e loc_Exact =
        if e3 <=? 971 then S754_finite false m3 e3 else S754_infinity false
    | Zneg _ => False
    end.
Proof.
  intros e1 q.
  assert (Hgrid : -1074 <= grid m e) by (unfold grid; rewrite fexp64_eq; lia).
  assert (Hq53 := quotient_below_2_53 m e). fold e1 in Hq53. fold q in Hq53.
  assert (Hq0 : 0 <= q).
  { apply Z.div_pos; [lia | apply Z.pow_pos_nonneg; unfold e1, grid; lia]. }
  unfold binary_round_aux.
  set (n := fexp 53 1024 (Zpos (digits2_pos m) + e) - e).
  change (shr_fexp 53 1024 (Zpos m) e loc_Exact)
    with (shr (Build_shr_record (Zpos m) false false) e n).
  assert (Hn : e1 - e = Z.max 0 n) by (unfold e1, grid, n; lia).
  destruct (shr_exact_start (Zpos m) e n ltac:(lia)) as (He' & Hm' & Hloc).
  destruct (shr (Build_shr_record (Zpos m) false false) e n) as [mrs' e'].
  simpl in He', Hm', Hloc. rewrite <- Hn in *.
  replace (e + (e1 - e)) with e1 in He' by lia. subst e'.
  fold q in Hm'.
  set (k := round_nearest_even (shr_m mrs') (loc_of_shr_record mrs')).
  assert (Hk : q <= k <= q + 1).
  { unfold k. rewrite <- Hm'. apply round_nearest_even_range. }
  exists k. split; [exact Hk |]. split.
  { intros Hmod. unfold k. rewrite (Hloc Hmod). simpl. exact Hm'. }
  assert (Hr := renormalise k e1 Hgrid ltac:(lia)).
  destruct (shr_fexp 53 1024 k e1 loc_Exact) as [mrs'' e''].
  simpl in Hr.
  cbv beta iota zeta.
  destruct k as [| p | p]; [| | lia].
  - rewrite Hr. reflexivity.
  - destruct Hr as (m3 & H3 & Hv). rewrite H3. exists m3, e''.
    split; [exact Hv | reflexivity].
Qed.

Lemma dyadic_pow2 (a e : Z) : 0 <= a -> (dyadic (2 ^ a) e == 2 ^ (a + e))%Q.
Proof.
  intros Ha. unfold dyadic. rewrite (Zpower_Qpower 2 a Ha).
  rewrite (Qpower_plus 2 a e) by discriminate. reflexivity.
Qed.

Lemma dyadic_magnitude (m : positive) (e : Z) :
  (2 ^ (Zpos (digits2_pos m) - 1 + e) <= dyadic (Zpos m) e /\
   dyadic (Zpos m) e < 2 ^ (Zpos (digits2_pos m) + e))%Q.
Proof.
  destruct (digits2_bounds m) as [Hlo Hhi]. split.
  - rewrite <- dyadic_pow2 by lia. apply dyadic_le. exact Hlo.
  - rewrite <- dyadic_pow2 by lia. unfold dyadic.
    apply Qmult_lt_r; [apply pow2_pos |].
    rewrite <- Zlt_Qlt. exact Hhi.
Qed.

Lemma magnitude_le (m1 m2 : positive) (e1 e2 : Z) :
  (dyadic (Zpos m1) e1 <= dyadic (Zpos m2) e2)%Q ->
  Zpos (digits2_pos m1) + e1 <= Zpos (digits2_pos m2) + e2.
Proof.
  intros H.
  destruct (dyadic_magnitude m1 e1) as [Hlo _].
  destruct (dyadic_magnitude m2 e2) as [_ Hhi].
  assert (Hlt : (2 ^ (Zpos (digits2_pos m1) - 1 + e1)
                 < 2 ^ (Zpos (digits2_pos m2) + e2))%Q).
  { eapply Qle_lt_trans; [exact Hlo |].
    eapply Qle_lt_trans; [exact H | exact Hhi]. }
  apply Qpower_lt_compat_l_inv in Hlt; [lia | reflexivity].
Qed.

Lemma grid_cases (m : positive) (e k : Z) :
  (Zpos m mod 2 ^ (grid m e - e) = 0 -> k = Zpos m / 2 ^ (grid m e - e)) ->
  (grid m e = e /\ k = Zpos m)
  \/ (e < grid m e /\ grid m e = fexp 53 1024 (Zpos (digits2_pos m) + e)).
Proof.
  intros Hexact. destruct (Z.eq_dec (grid m e) e) as [Heq | Hne].
  - left. split; [exact Heq |]. rewrite Heq, Z.sub_diag in Hexact.
    rewrite Hexact; [apply Z.div_1_r | apply Z.mod_1_r].
  - right. unfold grid in *. lia.
Qed.

Lemma quotient_brackets (m : positive) (e : Z) :
  0 <= grid m e - e
  /\ Zpos m / 2 ^ (grid m e - e) * 2 ^ (grid m e - e) <= Zpos m
     < (Zpos m / 2 ^ (grid m e - e) + 1) * 2 ^ (grid m e - e).
Proof.
  assert (Hn : 0 <= grid m e - e) by (unfold grid; lia).
  assert (Hp : 0 < 2 ^ (grid m e - e)) by (apply Z.pow_pos_nonneg; lia).
  split; [exact Hn |].
  assert (Hdm := Z.div_mod (Zpos m) (2 ^ (grid m e - e)) ltac:(lia)).
  assert (Hr := Z.mod_pos_bound (Zpos m) (2 ^ (grid m e - e)) Hp). nia.
Qed.

(** A binary64 number above the exact value is above the rounded one. *)
Lemma rounded_le (m : positive) (e k : Z) (mc : positive) (ec : Z) :
  Zpos m / 2 ^ (grid m e - e) <= k <= Zpos m / 2 ^ (grid m e - e) + 1 ->
  (Zpos m mod 2 ^ (grid m e - e) = 0 -> k = Zpos m / 2 ^ (grid m e - e)) ->
  canonical_mantissa 53 1024 mc ec = true ->
  (dyadic (Zpos m) e <= dyadic (Zpos mc) ec)%Q ->
  (dyadic k (grid m e) <= dyadic (Zpos mc) ec)%Q.
Proof.
  intros Hk Hexact Hc Hx.
  destruct (grid_cases m e k Hexact) as [[He Hkm] | [Hlt He]].
  - rewrite He, Hkm. exact Hx.
  - apply Z.eqb_eq in Hc.
    assert (Hmag := magnitude_le m mc e ec Hx).
    destruct (quotient_brackets m e) as [Hn Hq].
    set (e1 := grid m e) in *. set (q := Zpos m / 2 ^ (e1 - e)) in *.
    assert (Hec : e1 <= ec) by (rewrite He, <- Hc, !fexp64_eq; lia).
    set (C := Zpos mc * 2 ^ (ec - e1)).
    assert (HC : (dyadic (Zpos mc) ec == dyadic C e1)%Q).
    { unfold C. rewrite dyadic_shift by lia.
      replace (e1 + (ec - e1)) with ec by lia. reflexivity. }
    rewrite HC. apply dyadic_le.
    assert (HmC : Zpos m <= C * 2 ^ (e1 - e)).
    { apply (dyadic_le_inv _ _ e). rewrite (dyadic_shift C e (e1 - e) Hn).
      replace (e + (e1 - e)) with e1 by lia. rewrite <- HC. exact Hx. }
    assert (Hp : 0 < 2 ^ (e1 - e)) by (apply Z.pow_pos_nonneg; lia).
    destruct (Z.eq_dec (Zpos m mod 2 ^ (e1 - e)) 0) as [Hz | Hnz].
    + rewrite (Hexact Hz). apply Z.div_le_upper_bound; lia.
    + assert (Hdm := Z.div_mod (Zpos m) (2 ^ (e1 - e)) ltac:(lia)).
      assert (Hr := Z.mod_pos_bound (Zpos m) (2 ^ (e1 - e)) Hp).
      fold q in Hdm. nia.
Qed.

(** A binary64 number below the exact value is below the rounded one. *)
Lemma rounded_ge (m : positive) (e k : Z) (mc : positive) (ec : Z) :
  Zpos m / 2 ^ (grid m e - e) <= k <= Zpos m / 2 ^ (grid m e - e) + 1 ->
  (Zpos m mod 2 ^ (grid m e - e) = 0 -> k = Zpos m / 2 ^ (grid m e - e)) ->
  canonical_mantissa 53 1024 mc ec = true ->
  (dyadic (Zpos mc) ec <= dyadic (Zpos m) e)%Q ->
  (dyadic (Zpos mc) ec <= dyadic k (grid m e))%Q.
Proof.
  intros Hk Hexact Hc Hx.
  destruct (grid_cases m e k Hexact) as [[He Hkm] | [Hlt He]].
  - rewrite He, Hkm. exact Hx.
  - apply Z.eqb_eq in Hc.
    assert (Hmag := magnitude_le mc m ec e Hx).
    destruct (quotient_brackets m e) as [Hn Hq].
    set (e1 := grid m e) in *. set (q := Zpos m / 2 ^ (e1 - e)) in *.
    assert (Hp : 0 < 2 ^ (e1 - e)) by (apply Z.pow_pos_nonneg; lia).
    apply Qle_trans with (dyadic q e1); [| apply dyadic_le; lia].
    set (d := Zpos (digits2_pos m)) in *.
    set (dc := Zpos (digits2_pos mc)) in *.
    destruct (Z.eq_dec (dc + ec) (d + e)) as [Hsame | Hless].
    + assert (Hec : ec = e1) by (rewrite He, <- Hc, Hsame; reflexivity).
      rewrite Hec in *. apply dyadic_le.
      assert (Hmc : Zpos mc * 2 ^ (e1 - e) <= Zpos m).
      { apply (dyadic_le_inv _ _ e).
        rewrite (dyadic_shift (Zpos mc) e (e1 - e) Hn).
        replace (e + (e1 - e)) with e1 by lia. exact Hx. }
      apply Z.div_le_lower_bound; lia.
    + rewrite fexp64_eq in Hc, He.
      assert (Hg : 0 <= d + e - 1 - e1) by lia.
      apply Qle_trans with (dyadic (2 ^ (d + e - 1 - e1)) e1).
      * rewrite dyadic_pow2 by exact Hg.
        destruct (dyadic_magnitude mc ec) as [_ Hhi]. fold dc in Hhi.
        apply Qlt_le_weak. eapply Qlt_le_trans; [exact Hhi |].
        apply Qpower_le_compat_l; [lia | discriminate].
      * apply dyadic_le. apply Z.div_le_lower_bound; [lia |].
        rewrite Z.mul_comm, <- Z.pow_add_r by lia.
        replace (d + e - 1 - e1 + (e1 - e)) with (d - 1) by lia.
        destruct (digits2_bounds m) as [Hlo _]. exact Hlo.
Qed.

(** Below 1 the rounded value is within [2^-53] of the exact one. *)
Lemma rounded_near (m : positive) (e k : Z) :
  Zpos m / 2 ^ (grid m e - e) <= k <= Zpos m / 2 ^ (grid m e - e) + 1 ->
  (Zpos m mod 2 ^ (grid m e - e) = 0 -> k = Zpos m / 2 ^ (grid m e - e)) ->
  (dyadic (Zpos m) e < 1)%Q ->
  (dyadic (Zpos m) e - ulp53 <= dyadic k (grid m e)
   /\ dyadic k (grid m e) <= dyadic (Zpos m) e + ulp53)%Q.
Proof.
  intros Hk Hexact Hx.
  destruct (grid_cases m e k Hexact) as [[He Hkm] | [Hlt He]].
  - rewrite He, Hkm. unfold ulp53. split; lra.
  - destruct (quotient_brackets m e) as [Hn Hq].
    set (e1 := grid m e) in *. set (q := Zpos m / 2 ^ (e1 - e)) in *.
    assert (Hd : Zpos (digits2_pos m) + e <= 0).
    { destruct (dyadic_magnitude m e) as [Hlo _].
      assert (Hlt1 : (2 ^ (Zpos (digits2_pos m) - 1 + e) < 2 ^ 0)%Q)
        by (eapply Qle_lt_trans; [exact Hlo | exact Hx]).
      apply Qpower_lt_compat_l_inv in Hlt1; [lia | reflexivity]. }
    assert (He53 : e1 <= -53) by (rewrite He, fexp64_eq; lia).
    assert (Hulp : (dyadic 1 e1 <= ulp53)%Q).
    { unfold dyadic. rewrite Qmult_1_l.
      change ulp53 with (2 ^ (-53))%Q.
      apply Qpower_le_compat_l; [exact He53 | discriminate]. }
    assert (Hshift : forall a, (dyadic a e1 == dyadic (a * 2 ^ (e1 - e)) e)%Q).
    { intros a. rewrite dyadic_shift by lia.
      replace (e + (e1 - e)) with e1 by lia. reflexivity. }
    assert (Hlo : (dyadic q e1 <= dyadic (Zpos m) e)%Q).
    { rewrite Hshift. apply dyadic_le. lia. }
    assert (Hhi : (dyadic (Zpos m) e <= dyadic (q + 1) e1)%Q).
    { rewrite Hshift. apply dyadic_le. lia. }
    assert (Hq1 : (dyadic (q + 1) e1 == dyadic q e1 + dyadic 1 e1)%Q).
    { unfold dyadic. rewrite inject_Z_plus. ring. }
    assert (Hkq : (dyadic q e1 <= dyadic k e1
                   /\ dyadic k e1 <= dyadic (q + 1) e1)%Q)
      by (split; apply dyadic_le; lia).
    rewrite Hq1 in Hhi, Hkq. destruct Hkq as [Hk1 Hk2]. split; lra.
Qed.

Lemma dyadic_one : (dyadic 4503599627370496 (-52) == 1)%Q.
Proof. reflexivity. Qed.

Lemma dyadic_ge_pow2 (p : positive) (e : Z) : (2 ^ e <= dyadic (Zpos p) e)%Q.
Proof.
  unfold dyadic. rewrite <- (Qmult_1_l (2 ^ e)) at 1.
  apply Qmult_le_compat_r; [| apply Qlt_le_weak, pow2_pos].
  change 1%Q with (inject_Z 1). rewrite <- Zle_Qle. lia.
Qed.

(** Rounding an exact value below 1: the result is [+0] or positive and
    finite, within [2^-53] of the value, and on the same side of every
    binary64 number as the value. *)
Lemma round64_bounds (m : positive) (e : Z) :
  (dyadic (Zpos m) e < 1)%Q ->
  let z := binary_round_aux 53 1024 false (Zpos m) e loc_Exact in
  nonnegFinite z = true /\
  (dyadic (Zpos m) e - ulp53 <= SF2Q z
   /\ SF2Q z <= dyadic (Zpos m) e + ulp53)%Q /\
  (forall mc ec, canonical_mantissa 53 1024 mc ec = true ->
     (dyadic (Zpos mc) ec <= dyadic (Zpos m) e)%Q ->
     (dyadic (Zpos mc) ec <= SF2Q z)%Q) /\
  (forall mc ec, canonical_mantissa 53 1024 mc ec = true ->
     (dyadic (Zpos m) e <= dyadic (Zpos mc) ec)%Q ->
     (SF2Q z <= dyadic (Zpos mc) ec)%Q).
Proof.
  intros Hx z.
  destruct (round_aux_spec m e) as (k & Hk & Hexact & Hz).
  assert (Hle1 : (dyadic k (grid m e) <= 1)%Q).
  { rewrite <- dyadic_one.
    apply (rounded_le m e k _ _ Hk Hexact); [reflexivity |].
    rewrite dyadic_one. apply Qlt_le_weak. exact Hx. }
  assert (Hv : nonnegFinite z = true /\ (SF2Q z == dyadic k (grid m e))%Q).
  { unfold z. destruct k as [| p | p]; [| | contradiction].
    - rewrite Hz. split; reflexivity.
    - destruct Hz as (m3 & e3 & Hval & Hres). rewrite Hres.
      assert (He3 : e3 <= 0).
      { assert (H2 : (2 ^ e3 <= 2 ^ 0)%Q).
        { eapply Qle_trans; [apply (dyadic_ge_pow2 m3) |].
          rewrite Hval. exact Hle1. }
        apply Qpower_le_compat_l_inv in H2; [exact H2 | reflexivity]. }
      replace (e3 <=? 971) with true by (symmetry; apply Z.leb_le; lia).
      split; [reflexivity | exact Hval]. }
  destruct Hv as [Hfin Hv]. split; [exact Hfin |]. split; [| split].
  - rewrite Hv. apply (rounded_near m e k Hk Hexact Hx).
  - intros mc ec Hc Hb. rewrite Hv.
    apply (rounded_ge m e k mc ec Hk Hexact Hc Hb).
  - intros mc ec Hc Hb. rewrite Hv.
    apply (rounded_le m e k mc ec Hk Hexact Hc Hb).
Qed.

Lemma iter_xO (m d : positive) : Zpos (Pos.iter xO m d) = Zpos m * 2 ^ Zpos d.
Proof.
  induction d as [| d IH] using Pos.peano_ind.
  - simpl. lia.
  - rewrite Pos.iter_succ, Pos2Z.inj_xO, IH, Pos2Z.inj_succ.
    rewrite Z.pow_succ_r by lia. lia.
Qed.

(** Aligning a mantissa to a finer exponent keeps the value. *)
Lemma shl_align_value (m : positive) (e t : Z) :
  (dyadic (Zpos (fst (shl_align m e t))) (snd (shl_align m e t))
   == dyadic (Zpos m) e)%Q.
Proof.
  unfold shl_align.
  destruct (t - e) as [| d | d] eqn:Hd; simpl; try reflexivity.
  rewrite iter_xO. rewrite dyadic_shift by lia.
  replace (t + Zpos d) with e by lia. reflexivity.
Qed.

Lemma shl_align_to (m : positive) (e t : Z) :
  t <= e -> snd (shl_align m e t) = t.
Proof.
  intros H. unfold shl_align. destruct (t - e) as [| d | d] eqn:Hd; simpl; lia.
Qed.

Lemma dyadic_mul (a b e f : Z) :
  (dyadic (a * b) (e + f) == dyadic a e * dyadic b f)%Q.
Proof.
  unfold dyadic.
  rewrite inject_Z_mult, (Qpower_plus 2 e f) by discriminate. ring.
Qed.

Lemma dyadic_add (a b e : Z) : (dyadic (a + b) e == dyadic a e + dyadic b e)%Q.
Proof. unfold dyadic. rewrite inject_Z_plus. ring. Qed.

Lemma dyadic_pos (p : positive) (e : Z) : (0 < dyadic (Zpos p) e)%Q.
Proof.
  unfold dyadic. apply Qmult_lt_0_compat; [| apply pow2_pos].
  change 0%Q with (inject_Z 0). rewrite <- Zlt_Qlt. lia.
Qed.

Lemma nonnegFinite_value (x : spec_float) :
  nonnegFinite x = true -> (0 <= SF2Q x)%Q.
Proof.
  destruct x as [s | s | | s m e]; try destruct s; simpl;
    try discriminate; intros _.
  apply Qlt_le_weak, dyadic_pos.
Qed.

Lemma lit07_value : (SF2Q lit07 == double07)%Q.
Proof. reflexivity. Qed.

Lemma lit03_value : (SF2Q lit03 == double03)%Q.
Proof. reflexivity. Qed.

(** The product [r * 0.7] for a draw below 1: at most the literal [0.7]
    and within [2^-53] of the exact product. *)
Lemma mul64_draw (r : spec_float) :
  nonnegFinite r = true -> (SF2Q r < 1)%Q ->
  nonnegFinite (mul64 r lit07) = true /\
  (SF2Q (mul64 r lit07) <= double07)%Q /\
  (SF2Q r * double07 - ulp53 <= SF2Q (mul64 r lit07))%Q /\
  (SF2Q (mul64 r lit07) <= SF2Q r * double07 + ulp53)%Q.
Proof.
  intros Hr Hlt.
  destruct r as [s | s | | s mr er]; try destruct s; try discriminate Hr.
  - simpl. repeat split; discriminate.
  - simpl SF2Q in Hlt |- *.
    change (mul64 (S754_finite false mr er) lit07)
      with (binary_round_aux 53 1024 false
              (Zpos (mr * 6305039478318694)) (er + -53) loc_Exact).
    assert (Hx : (dyadic (Zpos (mr * 6305039478318694)) (er + -53)
                  == dyadic (Zpos mr) er * double07)%Q).
    { rewrite Pos2Z.inj_mul, dyadic_mul. reflexivity. }
    assert (Hp := dyadic_pos mr er).
    assert (Hx1 : (dyadic (Zpos (mr * 6305039478318694)) (er + -53) < 1)%Q).
    { rewrite Hx. unfold double07. nra. }
    destruct (round64_bounds _ _ Hx1) as (Hfin & [Hlo Hhi] & _ & Hup).
    split; [exact Hfin |]. split; [| split].
    + apply Qle_trans with (dyadic 6305039478318694 (-53)); [| apply Qle_refl].
      apply Hup; [reflexivity |]. rewrite Hx.
      change (dyadic 6305039478318694 (-53)) with (SF2Q lit07).
      rewrite lit07_value.
      unfold double07. nra.
    + rewrite <- Hx. exact Hlo.
    + rewrite <- Hx. exact Hhi.
Qed.

(** The sum [0.3 + y] for a product [y] of at most [0.7]: a positive
    finite number between the literal [0.3] and 1, within [2^-53] of the
    exact sum. *)
Lemma add64_level (y : spec_float) :
  nonnegFinite y = true -> (SF2Q y <= double07)%Q ->
  exists m e, add64 lit03 y = S754_finite false m e /\
    (double03 <= dyadic (Zpos m) e)%Q /\ (dyadic (Zpos m) e <= 1)%Q /\
    (double03 + SF2Q y - ulp53 <= dyadic (Zpos m) e)%Q /\
    (dyadic (Zpos m) e <= double03 + SF2Q y + ulp53)%Q.
Proof.
  intros Hy Hle.
  destruct y as [s | s | | s my ey]; try destruct s; try discriminate Hy.
  - exists 5404319552844595%positive, (-54). split; [reflexivity |].
    change (dyadic 5404319552844595 (-54)) with (SF2Q lit03).
    rewrite lit03_value. simpl SF2Q.
    unfold double03, ulp53. repeat split; lra.
  - simpl SF2Q in Hle |- *.
    unfold add64, lit03, SFadd.
    set (ez := Z.min (-54) ey).
    set (a := fst (shl_align 5404319552844595 (-54) ez)).
    set (b := fst (shl_align my ey ez)).
    assert (Ha : (dyadic (Zpos a) ez == double03)%Q).
    { unfold a.
      rewrite <- (shl_align_to 5404319552844595 (-54) ez) at 2
        by (unfold ez; lia).
      rewrite shl_align_value. reflexivity. }
    assert (Hb : (dyadic (Zpos b) ez == dyadic (Zpos my) ey)%Q).
    { unfold b. rewrite <- (shl_align_to my ey ez) at 2 by (unfold ez; lia).
      apply shl_align_value. }
    simpl cond_Zopp. change (Zpos a + Zpos b) with (Zpos (a + b)).
    unfold binary_normalize, binary_round.
    set (t := fexp 53 1024 (Zpos (digits2_pos (a + b)) + ez)).
    assert (Hs := shl_align_value (a + b) ez t).
    destruct (shl_align (a + b) ez t) as [mz ez'].
    simpl in Hs.
    assert (Hx : (dyadic (Zpos mz) ez' == double03 + dyadic (Zpos my) ey)%Q).
    { rewrite Hs, Pos2Z.inj_add, dyadic_add, Ha, Hb. reflexivity. }
    assert (Hp := dyadic_pos my ey).
    assert (Hx1 : (dyadic (Zpos mz) ez' < 1)%Q).
    { rewrite Hx. unfold double03, double07 in *. lra. }
    destruct (round64_bounds _ _ Hx1) as (Hfin & [Hlo Hhi] & Hdown & Hup).
    set (z := binary_round_aux 53 1024 false (Zpos mz) ez' loc_Exact) in *.
    assert (H03 : (double03 <= SF2Q z)%Q).
    { rewrite <- lit03_value.
      apply (Hdown 5404319552844595%positive (-54)); [reflexivity |].
      rewrite Hx. change (dyadic 5404319552844595 (-54)) with (SF2Q lit03).
      rewrite lit03_value. lra. }
    assert (H1 : (SF2Q z <= 1)%Q).
    { rewrite <- dyadic_one. apply Hup; [reflexivity |].
      rewrite dyadic_one. lra. }
    rewrite Hx in Hlo, Hhi.
    destruct z as [s | s | | s m e]; try destruct s; try discriminate Hfin.
    + simpl in H03. unfold double03 in H03. lra.
    + exists m, e. simpl in *. repeat split; assumption.
Qed.

Lemma unitDraw_spec (r : spec_float) :
  unitDraw r = true -> nonnegFinite r = true /\ (SF2Q r < 1)%Q.
Proof.
  unfold unitDraw. intros H.
  apply andb_true_iff in H as [H Hlt]. apply andb_true_iff in H as [_ Hn].
  split; [exact Hn |]. apply Qnot_le_lt. intros Hle.
  apply Qle_bool_iff in Hle. rewrite Hle in Hlt. discriminate.
Qed.

(** The level written for a draw in [0, 1): a positive finite number
    between the literal [0.3] and 1, within [2^-51] of the exact
    [3/10 + r * 7/10]. *)
Lemma newLevel_bounds (r : spec_float) :
  unitDraw r = true ->
  (exists m e, newLevel64 r = S754_finite false m e)
  /\ (double03 <= newLevel r /\ newLevel r <= 1)%Q
  /\ ((3 # 10) + SF2Q r * (7 # 10) - (1 # 2251799813685248)
      <= newLevel r)%Q
  /\ (newLevel r
      <= (3 # 10) + SF2Q r * (7 # 10) + (1 # 2251799813685248))%Q.
Proof.
  intros Hr. destruct (unitDraw_spec r Hr) as [Hn Hlt].
  assert (H0 := nonnegFinite_value r Hn).
  destruct (mul64_draw r Hn Hlt) as (Hy & Hy7 & Hylo & Hyhi).
  destruct (add64_level (mul64 r lit07) Hy Hy7)
    as (m & e & Heq & H03 & H1 & Hlo & Hhi).
  unfold newLevel, newLevel64. rewrite Heq. simpl SF2Q.
  split; [now exists m, e |]. split; [split; assumption |].
  unfold double03, double07, ulp53 in *. split; lra.
Qed.

End Binary64.

Lemma findTimer_tid id ts t :
  Mock.findTimer id ts = Some t -> Mock.tid t = id /\ In t ts.
Proof.
  unfold Mock.findTimer. intros H. apply find_some in H as [H1 H2].
  now apply Pos.eqb_eq in H2.
Qed.

Lemma findTimer_rearmed id ts t clock p :
  Mock.findTimer id ts = Some t ->
  Mock.findTimer id
    (map (fun u => if Pos.eqb (Mock.tid u) (Mock.tid t)
                   then Mock.mkTimer (Mock.tid u) (clock + p)
                          (Mock.period u) (Mock.cb u)
                   else u) ts)
  = Some (Mock.mkTimer (Mock.tid t) (clock + p) (Mock.period t) (Mock.cb t)).
Proof.
  intros H. destruct (findTimer_tid _ _ _ H) as [Hid _]. revert H.
  unfold Mock.findTimer. induction ts as [|u ts IH]; [discriminate|].
  simpl. destruct (Pos.eqb (Mock.tid u) id) eqn:E.
  - intros [= ->]. rewrite Pos.eqb_refl. simpl. now rewrite E.
  - intros H. destruct (Pos.eqb (Mock.tid u) (Mock.tid t)); simpl;
      rewrite E; now apply IH.
Qed.

(** C7, the claim as stated fails at the lower end.  The [0.3] of the
    expression is the binary64 number nearest to 3/10, which lies below
    3/10, and a tick that draws 0 writes exactly that number: the value
    written is less than 3/10. *)
Lemma synthetic_tick_counterexample :
  Mock.admissible Mock.init Mock.sessionFirstTick = true
  /\ unitDraw draw0 = true
  /\ Mock.botState (Mock.run Mock.init Mock.sessionFirstTick) = listening
  /\ Mock.audioLevel (Mock.run Mock.init Mock.sessionFirstTick) == double03
  /\ Mock.audioLevel (Mock.run Mock.init Mock.sessionFirstTick) < 3 # 10.
Proof.
  split; [vm_compute; reflexivity |].
  split; [vm_compute; reflexivity |].
  split; [vm_compute; reflexivity |].
  split; vm_compute; reflexivity.
Qed.

(** C7, amended.  While the sampler interval is pending, each of its ticks
    writes to the audio level the binary64 number that
    [0.3 + Math.random() * 0.7] evaluates to for the draw r in [0, 1) it
    makes: a positive finite number between the binary64 number nearest to
    3/10 (which is below 3/10) and 1, and within [2^-51] of the exact
    3/10 + r * 7/10, so that it is spread over that interval the way the
    draw is spread over [0, 1).  The interval has period 100 ms and is due
    again 100 ms after the tick; once the interval has been cleared a tick
    writes nothing.  The lower bound is attained, by the draw 0; the
    largest draw gives [1 - 2^-52]. *)
Theorem synthetic_tick_level :
  (forall (s : Mock.State) (id : positive) (t : Mock.Timer)
          (r : spec_float),
      Mock.wf s = true ->
      Mock.findTimer id (Mock.timers s) = Some t ->
      Mock.isTick t = true ->
      unitDraw r = true ->
      Mock.period t = Some 100%N
      /\ Mock.audioLevel (Mock.fire id r s) = newLevel r
      /\ (exists m e, newLevel64 r = S754_finite false m e)
      /\ double03 <= Mock.audioLevel (Mock.fire id r s)
      /\ Mock.audioLevel (Mock.fire id r s) <= 1
      /\ (3 # 10) + SF2Q r * (7 # 10) - (1 # 2251799813685248)
         <= Mock.audioLevel (Mock.fire id r s)
      /\ Mock.audioLevel (Mock.fire id r s)
         <= (3 # 10) + SF2Q r * (7 # 10) + (1 # 2251799813685248)
      /\ Mock.findTimer id (Mock.timers (Mock.fire id r s))
         = Some (Mock.mkTimer id (Mock.now s + 100) (Some 100%N)
                   Mock.LevelTickCb))
  /\ (forall (s : Mock.State) (id : positive) (r : spec_float),
        Mock.fire id r (Mock.clearInterval id s) = Mock.clearInterval id s)
  /\ (unitDraw draw0 = true
      /\ newLevel draw0 == double03
      /\ double03 < 3 # 10)
  /\ (unitDraw drawMax = true
      /\ newLevel drawMax == 1 - (1 # 4503599627370496)).
Proof.
  split; [|split; [|split]].
  - intros s id t r Hwf Hfind Htick Hr.
    apply wf_spec in Hwf. destruct Hwf as (_ & _ & H3).
    destruct (findTimer_tid _ _ _ Hfind) as [Hid Hin].
    destruct (H3 t Hin Htick) as [_ Hp].
    assert (Hcb : Mock.cb t = Mock.LevelTickCb).
    { unfold Mock.isTick in Htick. now destruct (Mock.cb t). }
    destruct (newLevel_bounds r Hr) as (Hfin & [Hlo Hhi] & Hn1 & Hn2).
    unfold Mock.fire. rewrite Hfind, Hcb. cbn [Mock.runCallback].
    split; [exact Hp|]. split; [reflexivity|].
    split; [exact Hfin|].
    split; [exact Hlo|]. split; [exact Hhi|].
    split; [exact Hn1|]. split; [exact Hn2|].
    cbn [Mock.setAudioLevel Mock.timers]. unfold Mock.rearm. rewrite Hp.
    rewrite (findTimer_rearmed id _ t _ _ Hfind). now rewrite Hid, Hp, Hcb.
  - intros s id r. unfold Mock.fire. cbn [Mock.clearInterval Mock.timers].
    now rewrite find_after_filter.
  - split; [vm_compute; reflexivity |]. split; vm_compute; reflexivity.
  - split; vm_compute; reflexivity.
Qed.

Lemma synthetic_tick_level_witness :
  Mock.audioLevel
    (Mock.fire 4 drawHalf (Mock.run Mock.init Mock.sessionToSpeaking))
  = newLevel drawHalf
  /\ double03 <= Mock.audioLevel
                   (Mock.fire 4 drawHalf
                      (Mock.run Mock.init Mock.sessionToSpeaking))
  /\ Mock.audioLevel
       (Mock.fire 4 drawHalf (Mock.run Mock.init Mock.sessionToSpeaking))
     <= 1.
Proof.
  assert (H : Mock.wf (Mock.run Mock.init Mock.sessionToSpeaking) = true
              /\ Mock.findTimer 4
                   (Mock.timers (Mock.run Mock.init Mock.sessionToSpeaking))
                 = Some (Mock.mkTimer 4 5100 (Some 100%N) Mock.LevelTickCb)
              /\ Mock.isTick
                   (Mock.mkTimer 4 5100 (Some 100%N) Mock.LevelTickCb)
                 = true
              /\ unitDraw drawHalf = true).
  { split; [vm_compute; reflexivity |].
    split; [vm_compute; reflexivity |].
    split; vm_compute; reflexivity. }
  destruct H as (Hwf & Hfind & Htick & Hr).
  destruct (proj1 synthetic_tick_level _ _ _ _ Hwf Hfind Htick Hr)
    as (_ & Ha & _ & Hlo & Hhi & _).
  exact (conj Ha (conj Hlo Hhi)).
Defined.

(** The literals and the sample draws are the binary64 numbers the
    processor uses, and the specification of the expression agrees with
    the processor's arithmetic at these draws; the draw 1/2 gives
    0.6499999999999999, not 13/20. *)
Example double_constants :
  Prim2SF 0x1.3333333333333p-2%float = lit03
  /\ Prim2SF 0x1.6666666666666p-1%float = lit07
  /\ Prim2SF 0%float = draw0
  /\ Prim2SF 0.5%float = drawHalf
  /\ Prim2SF largestDraw = drawMax
  /\ SF2Q lit03 == double03
  /\ SF2Q lit07 == double07
  /\ valid_binary 53 1024 lit03 = true
  /\ valid_binary 53 1024 lit07 = true.
Proof.
  split; [vm_compute; reflexivity |].
  split; [vm_compute; reflexivity |].
  split; [vm_compute; reflexivity |].
  split; [vm_compute; reflexivity |].
  split; [vm_compute; reflexivity |].
  split; [vm_compute; reflexivity |].
  split; [vm_compute; reflexivity |].
  split; vm_compute; reflexivity.
Qed.

Example newLevel64_on_the_processor :
  Prim2SF (newLevelPrim 0%float) = newLevel64 draw0
  /\ Prim2SF (newLevelPrim 0.5%float) = newLevel64 drawHalf
  /\ Prim2SF (newLevelPrim largestDraw) = newLevel64 drawMax
  /\ Prim2SF (newLevelPrim 0x1p-1074%float)
     = newLevel64 (Prim2SF 0x1p-1074%float)
  /\ Prim2SF (newLevelPrim 0x1.999999999999ap-4%float)
     = newLevel64 (Prim2SF 0x1.999999999999ap-4%float)
  /\ newLevel64 drawHalf = S754_finite false 5854679515581644 (-53)
  /\ newLevel drawHalf < 13 # 20
  /\ PrimFloat.ltb largestDraw 1%float = true
  /\ PrimFloat.ltb 1%float (PrimFloat.next_up largestDraw) = false.
Proof.
  split; [vm_compute; reflexivity |].
  split; [vm_compute; reflexivity |].
  split; [vm_compute; reflexivity |].
  split; [vm_compute; reflexivity |].
  split; [vm_compute; reflexivity |].
  split; [vm_compute; reflexivity |].
  split; [vm_compute; reflexivity |].
  split; vm_compute; reflexivity.
Qed.

(** ** Response timers outlive a disconnect *)

Lemma findTimer_last ts t :
  (forall u, In u ts -> (Mock.tid u < Mock.tid t)%positive) ->
  Mock.findTimer (Mock.tid t) (ts ++ [t]) = Some t.
Proof.
  unfold Mock.findTimer. induction ts as [|u ts IH]; intros H; simpl.
  - now rewrite Pos.eqb_refl.
  - assert (Hu : (Mock.tid u < Mock.tid t)%positive) by (apply H; now left).
    assert (Hn : Pos.eqb (Mock.tid u) (Mock.tid t) = false)
      by (apply Pos.eqb_neq; lia).
    rewrite Hn.
    apply IH. intros v Hv. apply H. now right.
Qed.

Lemma filter_drop_last ts t :
  (forall u, In u ts -> (Mock.tid u < Mock.tid t)%positive) ->
  filter (fun u => negb (Pos.eqb (Mock.tid u) (Mock.tid t))) (ts ++ [t])
  = ts.
Proof.
  induction ts as [|u ts IH]; intros H; simpl.
  - now rewrite Pos.eqb_refl.
  - assert (Hu : (Mock.tid u < Mock.tid t)%positive) by (apply H; now left).
    assert (Hn : Pos.eqb (Mock.tid u) (Mock.tid t) = false)
      by (apply Pos.eqb_neq; lia).
    rewrite Hn. simpl. f_equal.
    apply IH. intros v Hv. apply H. now right.
Qed.

(** Full unfolding of the setters, arguments first. *)
Ltac mock_unfold :=
  cbv beta iota zeta delta
    [Mock.simulateVoiceActivity Mock.setIntervalRef Mock.setTimeout
     Mock.register Mock.clearInterval Mock.clearIntervalRef
     Mock.addMessage Mock.setAudioLevel
     Mock.setBotState Mock.setIsConnected Mock.elapse append
     Mock.botState Mock.isConnected Mock.audioLevel Mock.transcript
     Mock.intervalRef Mock.timers Mock.nextId Mock.now].

Lemma kept_fresh (s : Mock.State) :
  Mock.wfP s ->
  forall u, In u (Mock.timers (Mock.clearIntervalRef s)) ->
            (Mock.tid u < Mock.nextId s)%positive.
Proof.
  intros H u Hu. apply wfP_clearIntervalRef in H.
  destruct H as (H1 & _). rewrite <- (mock_nextId_clearIntervalRef s).
  now apply H1.
Qed.

Lemma stopThenHangUp_state (s : Mock.State) (d1 : N) :
  Mock.wf s = true ->
  Mock.isConnected s = true ->
  Mock.botState s = listening ->
  Mock.stopThenHangUp d1 s
  = Mock.mkState idle false 0
      (Mock.transcript s
       ++ [mkMessage system "Disconnected." (Mock.now s + d1)])
      (Mock.intervalRef s)
      (Mock.timers (Mock.clearIntervalRef s)
       ++ [Mock.mkTimer (Mock.nextId s) (Mock.now s + 1500) None
             Mock.ResponseCb])
      (Pos.succ (Mock.nextId s))
      (Mock.now s + d1).
Proof.
  intros Hwf Hc Hb. apply wf_spec in Hwf.
  pose proof (kept_fresh s Hwf) as Hk. destruct Hwf as (_ & H2 & _).
  destruct s as [b c a tr ref ts n clock]. simpl in *. subst b c.
  unfold Mock.stopThenHangUp, Mock.handleDisconnect, Mock.toggleRecording,
    Mock.clearIntervalRef in *.
  simpl in *. destruct ref as [id|]; mock_unfold; [|reflexivity].
  f_equal. rewrite filter_app, filter_twice. simpl.
  assert (Hn : Pos.eqb n id = false)
    by (apply Pos.eqb_neq; specialize (H2 id eq_refl); lia).
  now rewrite Hn.
Qed.

(** The response timeout firing: any table [K] of older timers followed by
    the response timeout. *)
Lemma fire_response b c a tr ref K n n' clock due :
  (forall u, In u K -> (Mock.tid u < n)%positive) ->
  match ref with
  | Some id => filter (fun t => negb (Pos.eqb (Mock.tid t) id)) K
  | None => K
  end = K ->
  Mock.fire n draw0
    (Mock.mkState b c a tr ref
       (K ++ [Mock.mkTimer n due None Mock.ResponseCb]) n' clock)
  = Mock.mkState speaking c a
      (tr ++ [mkMessage user Mock.userText clock])
      (Some n')
      (K ++ [Mock.mkTimer n' (clock + 100) (Some 100%N) Mock.LevelTickCb;
             Mock.mkTimer (Pos.succ n') (clock + 3000) None
               Mock.PlaybackDoneCb])
      (Pos.succ (Pos.succ n')) clock.
Proof.
  intros Hk Hstable.
  pose proof (findTimer_last K (Mock.mkTimer n due None Mock.ResponseCb) Hk)
    as Ef.
  pose proof (filter_drop_last K (Mock.mkTimer n due None Mock.ResponseCb)
                Hk) as Ed.
  cbn [Mock.tid] in Ef, Ed.
  unfold Mock.fire. cbn [Mock.timers]. rewrite Ef.
  unfold Mock.rearm. cbn [Mock.period Mock.tid Mock.cb]. rewrite Ed.
  destruct ref as [id|]; unfold Mock.runCallback; mock_unfold;
    rewrite ?Hstable; now rewrite <- app_assoc.
Qed.

(** The playback timeout firing while the sampler interval is pending. *)
Lemma fire_playback b c a tr K n' nx clock due due' :
  (forall u, In u K -> (Mock.tid u < n')%positive) ->
  Mock.fire (Pos.succ n') draw0
    (Mock.mkState b c a tr (Some n')
       (K ++ [Mock.mkTimer n' due (Some 100%N) Mock.LevelTickCb;
              Mock.mkTimer (Pos.succ n') due' None Mock.PlaybackDoneCb])
       nx clock)
  = Mock.mkState idle c 0
      (tr ++ [mkMessage bot Mock.botText clock])
      (Some n') K nx clock.
Proof.
  intros Hk.
  set (tick := Mock.mkTimer n' due (Some 100%N) Mock.LevelTickCb).
  set (done := Mock.mkTimer (Pos.succ n') due' None Mock.PlaybackDoneCb).
  assert (Hk' : forall u, In u (K ++ [tick]) ->
                          (Mock.tid u < Mock.tid done)%positive).
  { intros u Hu. apply in_app_or in Hu as [Hu | [<- | []]].
    - specialize (Hk u Hu). simpl. lia.
    - simpl. lia. }
  pose proof (findTimer_last _ done Hk') as Ef.
  pose proof (filter_drop_last _ done Hk') as Ed.
  pose proof (filter_drop_last K tick Hk) as Et.
  rewrite <- app_assoc in Ef, Ed. cbn [Mock.tid done tick app] in Ef, Ed, Et.
  unfold Mock.fire. cbn [Mock.timers]. rewrite Ef.
  unfold Mock.rearm. cbn [Mock.period Mock.tid Mock.cb done]. rewrite Ed.
  unfold Mock.runCallback. mock_unfold. now rewrite Et.
Qed.

Lemma kept_stable (s : Mock.State) :
  match Mock.intervalRef s with
  | Some id =>
      filter (fun t => negb (Pos.eqb (Mock.tid t) id))
        (Mock.timers (Mock.clearIntervalRef s))
  | None => Mock.timers (Mock.clearIntervalRef s)
  end = Mock.timers (Mock.clearIntervalRef s).
Proof.
  rewrite timers_clearIntervalRef.
  destruct (Mock.intervalRef s); [apply filter_twice | reflexivity].
Qed.

Ltac mock_fields :=
  cbn [Mock.botState Mock.isConnected Mock.audioLevel Mock.transcript
       Mock.intervalRef Mock.timers Mock.nextId Mock.now].

Lemma thenResponse_state (s : Mock.State) (d1 d2 : N) :
  Mock.wf s = true ->
  Mock.isConnected s = true ->
  Mock.botState s = listening ->
  Mock.thenResponse d1 d2 s
  = Mock.mkState speaking false 0
      (Mock.transcript s
       ++ [mkMessage system "Disconnected." (Mock.now s + d1);
           mkMessage user Mock.userText (Mock.now s + d1 + d2)])
      (Some (Pos.succ (Mock.nextId s)))
      (Mock.timers (Mock.clearIntervalRef s)
       ++ [Mock.mkTimer (Pos.succ (Mock.nextId s))
             (Mock.now s + d1 + d2 + 100) (Some 100%N) Mock.LevelTickCb;
           Mock.mkTimer (Pos.succ (Pos.succ (Mock.nextId s)))
             (Mock.now s + d1 + d2 + 3000) None Mock.PlaybackDoneCb])
      (Pos.succ (Pos.succ (Pos.succ (Mock.nextId s))))
      (Mock.now s + d1 + d2).
Proof.
  intros Hwf Hc Hb. unfold Mock.thenResponse.
  rewrite (stopThenHangUp_state s d1 Hwf Hc Hb).
  apply wf_spec in Hwf. pose proof (kept_fresh s Hwf) as Hk.
  unfold Mock.elapse. mock_fields.
  rewrite (fire_response _ _ _ _ _ _ _ _ _ _ Hk (kept_stable s)).
  now rewrite <- app_assoc.
Qed.

Lemma thenPlaybackDone_state (s : Mock.State) (d1 d2 d3 : N) :
  Mock.wf s = true ->
  Mock.isConnected s = true ->
  Mock.botState s = listening ->
  Mock.thenPlaybackDone d1 d2 d3 s
  = Mock.mkState idle false 0
      (Mock.transcript s
       ++ [mkMessage system "Disconnected." (Mock.now s + d1);
           mkMessage user Mock.userText (Mock.now s + d1 + d2);
           mkMessage bot Mock.botText (Mock.now s + d1 + d2 + d3)])
      (Some (Pos.succ (Mock.nextId s)))
      (Mock.timers (Mock.clearIntervalRef s))
      (Pos.succ (Pos.succ (Pos.succ (Mock.nextId s))))
      (Mock.now s + d1 + d2 + d3).
Proof.
  intros Hwf Hc Hb. unfold Mock.thenPlaybackDone.
  rewrite (thenResponse_state s d1 d2 Hwf Hc Hb).
  apply wf_spec in Hwf. pose proof (kept_fresh s Hwf) as Hk.
  unfold Mock.elapse. mock_fields.
  rewrite fire_playback.
  - now rewrite <- app_assoc.
  - intros u Hu. specialize (Hk u Hu). lia.
Qed.

(** C6.  On the simulated page, let a connected, listening session receive
    the stop toggle and, [d1] ms later, a disconnect.  The disconnect
    leaves the session disconnected and [idle] but the response timeout
    scheduled by the toggle is still pending.  When it fires the state
    becomes [speaking], a user utterance is appended and the sampler is
    started, all while disconnected; when the playback timeout it
    schedules fires, a bot utterance is appended as well. *)
Theorem response_timers_survive_disconnect :
  forall (s : Mock.State) (d1 d2 d3 : N),
    Mock.wf s = true ->
    Mock.isConnected s = true ->
    Mock.botState s = listening ->
    (Mock.isConnected (Mock.stopThenHangUp d1 s) = false
     /\ Mock.botState (Mock.stopThenHangUp d1 s) = idle
     /\ Mock.findTimer (Mock.nextId s)
          (Mock.timers (Mock.stopThenHangUp d1 s))
        = Some (Mock.mkTimer (Mock.nextId s) (Mock.now s + 1500) None
                  Mock.ResponseCb))
    /\ (Mock.isConnected (Mock.thenResponse d1 d2 s) = false
        /\ Mock.botState (Mock.thenResponse d1 d2 s) = speaking
        /\ Mock.samplerRunning (Mock.thenResponse d1 d2 s) = true
        /\ Mock.transcript (Mock.thenResponse d1 d2 s)
           = Mock.transcript s
             ++ [mkMessage system "Disconnected." (Mock.now s + d1);
                 mkMessage user Mock.userText (Mock.now s + d1 + d2)])
    /\ (Mock.isConnected (Mock.thenPlaybackDone d1 d2 d3 s) = false
        /\ Mock.transcript (Mock.thenPlaybackDone d1 d2 d3 s)
           = Mock.transcript s
             ++ [mkMessage system "Disconnected." (Mock.now s + d1);
                 mkMessage user Mock.userText (Mock.now s + d1 + d2);
                 mkMessage bot Mock.botText (Mock.now s + d1 + d2 + d3)]).
Proof.
  intros s d1 d2 d3 Hwf Hc Hb.
  rewrite (stopThenHangUp_state s d1 Hwf Hc Hb).
  rewrite (thenResponse_state s d1 d2 Hwf Hc Hb).
  rewrite (thenPlaybackDone_state s d1 d2 d3 Hwf Hc Hb).
  apply wf_spec in Hwf. pose proof (kept_fresh s Hwf) as Hk.
  mock_fields. repeat split.
  - exact (findTimer_last _
             (Mock.mkTimer (Mock.nextId s) (Mock.now s + 1500) None
                Mock.ResponseCb) Hk).
  - unfold Mock.samplerRunning. mock_fields.
    destruct (Mock.findTimer _ _) eqn:E; [reflexivity|].
    now apply find_hit_inside in E.
Qed.

Lemma response_timers_survive_disconnect_witness :
  Mock.botState
    (Mock.thenResponse 500 1000
       (Mock.run Mock.init Mock.sessionToListening)) = speaking
  /\ Mock.isConnected
       (Mock.thenResponse 500 1000
          (Mock.run Mock.init Mock.sessionToListening)) = false
  /\ Mock.transcript
       (Mock.thenPlaybackDone 500 1000 3000
          (Mock.run Mock.init Mock.sessionToListening))
     = Mock.transcript (Mock.run Mock.init Mock.sessionToListening)
       ++ [mkMessage system "Disconnected."
             (Mock.now (Mock.run Mock.init Mock.sessionToListening) + 500);
           mkMessage user Mock.userText
             (Mock.now (Mock.run Mock.init Mock.sessionToListening)
              + 500 + 1000);
           mkMessage bot Mock.botText
             (Mock.now (Mock.run Mock.init Mock.sessionToListening)
              + 500 + 1000 + 3000)].
Proof.
  assert (H : Mock.wf (Mock.run Mock.init Mock.sessionToListening) = true
              /\ Mock.isConnected
                   (Mock.run Mock.init Mock.sessionToListening) = true
              /\ Mock.botState
                   (Mock.run Mock.init Mock.sessionToListening) = listening)
    by (repeat split; vm_compute; reflexivity).
  destruct H as (Hwf & Hc & Hb).
  destruct (response_timers_survive_disconnect _ 500%N 1000%N 3000%N
              Hwf Hc Hb) as (_ & (Hc2 & Hb2 & _ & _) & (_ & Ht3)).
  exact (conj Hb2 (conj Hc2 Ht3)).
Defined.

(** The same run as a session of page events, each enabled in its turn:
    the hang-up comes 500 ms after the stop, the response timeout fires on
    time, the sampler ticks through the playback while disconnected, and
    the playback timeout fires on time. *)
Example hang_up_session :
  Mock.admissible Mock.init Mock.hangUpThenPlayback = true
  /\ Mock.run Mock.init Mock.hangUpWhileProcessing
     = Mock.thenResponse 500 1000
         (Mock.run Mock.init Mock.sessionToListening)
  /\ Mock.isConnected (Mock.run Mock.init Mock.hangUpWhileProcessing)
     = false
  /\ Mock.botState (Mock.run Mock.init Mock.hangUpWhileProcessing)
     = speaking
  /\ Mock.transcript (Mock.run Mock.init Mock.hangUpThenPlayback)
     = [mkMessage system "Connected to HF Inference Model." 1500;
        mkMessage system "Disconnected." 4000;
        mkMessage user Mock.userText 5000;
        mkMessage bot Mock.botText 8000].
Proof.
  split; [|split; [|split; [|split]]]; vm_compute; reflexivity.
Qed.

(** * Further properties of the code *)

(** ** At most one sampler interval *)

Lemma filter_filter_le {A : Type} (p q : A -> bool) (l : list A) :
  (List.length (filter p (filter q l)) <= List.length (filter p l))%nat.
Proof.
  induction l as [|a l IH]; [apply le_n|].
  cbn [filter]. destruct (q a), (p a) eqn:E; cbn [filter List.length];
    rewrite ?E; cbn [List.length]; lia.
Qed.

Lemma filter_map_same {A : Type} (p : A -> bool) (f : A -> A)
    (l : list A) :
  (forall a, p (f a) = p a) ->
  List.length (filter p (map f l)) = List.length (filter p l).
Proof.
  intros H. induction l as [|a l IH]; [reflexivity|].
  cbn [map filter]. rewrite H. destruct (p a); cbn [List.length]; lia.
Qed.

Lemma tickCount_cleared (s : Mock.State) :
  Mock.wfP s -> Mock.tickCount (Mock.clearIntervalRef s) = 0%nat.
Proof.
  intros H. pose proof (noTicks_clearIntervalRef s H) as Hno.
  unfold Mock.noTicks, Mock.tickCount in *.
  induction (Mock.timers (Mock.clearIntervalRef s)) as [|t ts IH];
    [reflexivity|].
  simpl in *. apply andb_true_iff in Hno as [Ht Hts].
  destruct (Mock.isTick t); [discriminate|]. now apply IH.
Qed.

Lemma tickCount_same (s s' : Mock.State) :
  Mock.timers s' = Mock.timers s -> Mock.tickCount s' = Mock.tickCount s.
Proof. unfold Mock.tickCount. now intros ->. Qed.

Lemma tickCount_setTimeout c d (s : Mock.State) :
  c <> Mock.LevelTickCb ->
  Mock.tickCount (Mock.setTimeout c d s) = Mock.tickCount s.
Proof.
  intros Hc. unfold Mock.tickCount. cbn [Mock.setTimeout Mock.register
    Mock.timers]. rewrite filter_app, length_app.
  unfold Mock.isTick at 2. simpl. destruct c; simpl; try lia.
  now destruct Hc.
Qed.

Lemma tickCount_simulate (s : Mock.State) :
  Mock.wfP s -> Mock.tickCount (Mock.simulateVoiceActivity s) = 1%nat.
Proof.
  intros H. pose proof (tickCount_cleared s H) as H0.
  unfold Mock.tickCount in *.
  cbn [Mock.simulateVoiceActivity Mock.setIntervalRef Mock.register
       Mock.timers].
  rewrite filter_app, length_app, H0. reflexivity.
Qed.

Lemma tickCount_rearm clock t (s : Mock.State) :
  (List.length (filter Mock.isTick (Mock.rearm clock t (Mock.timers s)))
   <= Mock.tickCount s)%nat.
Proof.
  unfold Mock.tickCount, Mock.rearm. destruct (Mock.period t) as [p|].
  - rewrite filter_map_same; [apply le_n|].
    intros u. now destruct (Pos.eqb (Mock.tid u) (Mock.tid t)).
  - apply filter_filter_le.
Qed.

Lemma tickCount_step (s : Mock.State) (e : Mock.Event) :
  Mock.wfP s -> (Mock.tickCount s <= 1)%nat ->
  (Mock.tickCount (Mock.step s e) <= 1)%nat.
Proof.
  intros Hwf Hn. unfold Mock.step.
  destruct (Mock.enabled e s); [|assumption].
  destruct e; cbn [Mock.dispatch].
  - unfold Mock.handleConnect.
    rewrite tickCount_setTimeout by discriminate. exact Hn.
  - unfold Mock.handleDisconnect.
    rewrite (tickCount_same
               (Mock.clearIntervalRef
                  (Mock.setAudioLevel 0
                     (Mock.setBotState idle (Mock.setIsConnected false s)))))
      by reflexivity.
    rewrite tickCount_cleared; [lia|]. revert Hwf. now apply wfP_same.
  - unfold Mock.toggleRecording.
    destruct (negb (Mock.isConnected s)); [assumption|].
    assert (Hs : forall v, Mock.wfP (Mock.setBotState v s))
      by (intros v; revert Hwf; now apply wfP_same).
    destruct (Mock.botState s);
      try (rewrite tickCount_simulate; [lia | apply Hs]).
    rewrite tickCount_setTimeout by discriminate.
    rewrite (tickCount_same
               (Mock.clearIntervalRef (Mock.setBotState processing s)))
      by reflexivity.
    rewrite tickCount_cleared; [lia | apply Hs].
  - exact Hn.
  - unfold Mock.fire.
    destruct (Mock.findTimer id (Mock.timers s)) as [t|]; [|assumption].
    pose proof (wfP_rearm (Mock.now s) t s Hwf) as Hwf'.
    pose proof (tickCount_rearm (Mock.now s) t s) as Hn'.
    set (s' := Mock.mkState _ _ _ _ _ _ _ _) in *.
    change (List.length (filter Mock.isTick
              (Mock.rearm (Mock.now s) t (Mock.timers s))))
      with (Mock.tickCount s') in Hn'.
    destruct (Mock.cb t); cbn [Mock.runCallback].
    + rewrite (tickCount_same s') by reflexivity. lia.
    + rewrite tickCount_setTimeout by discriminate.
      rewrite tickCount_simulate; [lia|].
      revert Hwf'. now apply wfP_same.
    + rewrite (tickCount_same
                 (Mock.clearIntervalRef
                    (Mock.setBotState idle
                       (Mock.addMessage bot Mock.botText s'))))
        by reflexivity.
      rewrite tickCount_cleared; [lia|]. revert Hwf'. now apply wfP_same.
    + rewrite (tickCount_same s') by reflexivity. lia.
Qed.

(** X1.  On the simulated page no sequence of clicks, waits and timer
    firings ever leaves more than one sampler interval pending: a new
    interval is only ever set after the one in [intervalRef] has been
    cleared. *)
Theorem mock_at_most_one_sampler :
  forall es : list Mock.Event,
    (Mock.tickCount (Mock.run Mock.init es) <= 1)%nat.
Proof.
  intros es. unfold Mock.run.
  assert (H : Mock.wfP Mock.init /\ (Mock.tickCount Mock.init <= 1)%nat).
  { split; [now apply wf_spec | apply Nat.le_0_l]. }
  revert H. generalize Mock.init.
  induction es as [|e es IH]; intros s [Hwf Hn]; [exact Hn|].
  simpl. apply IH. split; [now apply wfP_step | now apply tickCount_step].
Qed.

(** ** The audio level stays in the unit interval *)

Lemma mock_audioLevel_simulate (s : Mock.State) :
  Mock.audioLevel (Mock.simulateVoiceActivity s) = Mock.audioLevel s.
Proof. unfold Mock.simulateVoiceActivity. now mock_simpl. Qed.

Lemma mock_step_level (s : Mock.State) (e : Mock.Event) :
  Mock.audioLevel (Mock.step s e) = Mock.audioLevel s
  \/ Mock.audioLevel (Mock.step s e) = 0
  \/ exists id r, e = Mock.TimerFires id r
                  /\ Mock.audioLevel (Mock.step s e) = newLevel r.
Proof.
  unfold Mock.step. destruct (Mock.enabled e s); [|now left].
  destruct e; cbn [Mock.dispatch].
  - now left.
  - right; left. apply mock_handleDisconnect_fields.
  - unfold Mock.toggleRecording.
    destruct (negb (Mock.isConnected s)); [now left|].
    destruct (Mock.botState s);
      try (left; now rewrite mock_audioLevel_simulate).
    now right; left.
  - now left.
  - unfold Mock.fire.
    destruct (Mock.findTimer id (Mock.timers s)) as [t|]; [|now left].
    destruct (Mock.cb t); cbn [Mock.runCallback].
    + now left.
    + left. cbn [Mock.setTimeout Mock.register Mock.audioLevel].
      now rewrite mock_audioLevel_simulate.
    + now right; left.
    + right; right. now exists id, r.
Qed.

(** X2.  On the simulated page, as long as the random draws lie in
    [0, 1) as [Math.random()] promises, the audio level is between 0 and 1
    in every state the page can reach, so the orb's glow is scaled by a
    factor between 1 and 1.5. *)
Theorem mock_level_in_unit_interval :
  forall es : list Mock.Event,
    forallb Mock.validDraw es = true ->
    0 <= Mock.audioLevel (Mock.run Mock.init es)
    /\ Mock.audioLevel (Mock.run Mock.init es) <= 1
    /\ 1 <= 1 + Mock.audioLevel (Mock.run Mock.init es) * (1 # 2)
    /\ 1 + Mock.audioLevel (Mock.run Mock.init es) * (1 # 2) <= 3 # 2.
Proof.
  intros es Hes.
  assert (H : 0 <= Mock.audioLevel (Mock.run Mock.init es)
              /\ Mock.audioLevel (Mock.run Mock.init es) <= 1).
  { unfold Mock.run.
    assert (H0 : 0 <= Mock.audioLevel Mock.init
                 /\ Mock.audioLevel Mock.init <= 1)
      by (split; simpl; lra).
    revert H0 Hes. generalize Mock.init.
    induction es as [|e es IH]; intros s H0 Hes; [exact H0|].
    simpl in Hes. apply andb_true_iff in Hes as [He Hes].
    simpl. apply IH; [|exact Hes].
    destruct (mock_step_level s e) as [-> | [-> | (id & r & -> & ->)]].
    - exact H0.
    - split; lra.
    - cbn [Mock.validDraw] in He.
      destruct (newLevel_bounds r He) as (_ & [Hlo Hhi] & _).
      unfold double03 in Hlo. split; lra. }
  destruct H as [Hlo Hhi]. repeat split; lra.
Qed.

Lemma mock_level_in_unit_interval_witness :
  0 <= Mock.audioLevel
         (Mock.run Mock.init
            (Mock.sessionConnected ++ [Mock.ClickToggle]
             ++ Mock.ticks 3 2 drawMax))
  /\ Mock.audioLevel
       (Mock.run Mock.init
          (Mock.sessionConnected ++ [Mock.ClickToggle]
           ++ Mock.ticks 3 2 drawMax)) <= 1.
Proof.
  assert (H : forallb Mock.validDraw
                (Mock.sessionConnected ++ [Mock.ClickToggle]
                 ++ Mock.ticks 3 2 drawMax) = true)
    by (vm_compute; reflexivity).
  destruct (mock_level_in_unit_interval _ H) as (Hlo & Hhi & _).
  exact (conj Hlo Hhi).
Defined.

(** ** Entries are logged in chronological order *)

Lemma sorted_append (log : list Message) (m : Message) :
  StronglySorted stampLe log ->
  Forall (fun a => stampLe a m) log ->
  StronglySorted stampLe (log ++ [m]).
Proof.
  induction log as [|a log IH]; intros Hs Hb; simpl.
  - constructor; constructor.
  - inversion Hs as [|? ? Hs' Ha]; subst.
    inversion Hb as [|? ? Ham Hb']; subst.
    constructor; [now apply IH|].
    apply Forall_app. split; [exact Ha | now constructor].
Qed.

Lemma chronological_append clock r t log :
  chronological clock log -> chronological clock (append clock r t log).
Proof.
  intros [Hs Hb]. split.
  - apply sorted_append; [exact Hs | exact Hb].
  - apply Forall_app. split; [exact Hb|]. constructor; [|constructor].
    simpl. lia.
Qed.

Lemma chronological_later clock clock' log :
  (clock <= clock')%N -> chronological clock log ->
  chronological clock' log.
Proof.
  intros Hle [Hs Hb]. split; [exact Hs|].
  eapply Forall_impl; [|exact Hb]. simpl. intros a Ha. lia.
Qed.

Lemma mock_runCallback_chronological c r (s : Mock.State) :
  chronological (Mock.now s) (Mock.transcript s) ->
  chronological (Mock.now (Mock.runCallback c r s))
    (Mock.transcript (Mock.runCallback c r s)).
Proof.
  intros H. destruct c; unfold Mock.runCallback, Mock.simulateVoiceActivity;
    mock_simpl; try exact H; now apply chronological_append.
Qed.

Lemma mock_step_chronological (s : Mock.State) (e : Mock.Event) :
  chronological (Mock.now s) (Mock.transcript s) ->
  chronological (Mock.now (Mock.step s e)) (Mock.transcript (Mock.step s e)).
Proof.
  intros H. unfold Mock.step. destruct (Mock.enabled e s); [|exact H].
  destruct e; cbn [Mock.dispatch].
  - exact H.
  - unfold Mock.handleDisconnect. mock_simpl.
    now apply chronological_append.
  - unfold Mock.toggleRecording.
    destruct (negb (Mock.isConnected s)); [exact H|].
    destruct (Mock.botState s); unfold Mock.simulateVoiceActivity;
      mock_simpl; exact H.
  - cbn [Mock.elapse Mock.now Mock.transcript].
    apply (chronological_later (Mock.now s)); [lia | exact H].
  - unfold Mock.fire.
    destruct (Mock.findTimer id (Mock.timers s)) as [t|]; [|exact H].
    now apply mock_runCallback_chronological.
Qed.

Lemma live_step_chronological (s : Live.State) (e : Live.Event) :
  chronological (Live.now s) (Live.transcript s) ->
  chronological (Live.now (Live.step s e)) (Live.transcript (Live.step s e)).
Proof.
  intros H.
  destruct s as [b c a tr room fr ready fs nf nr calls clock].
  cbn [Live.now Live.transcript] in H.
  destruct e; cbn [Live.step].
  - now apply chronological_append.
  - destruct reply as [m | token url]; cbn [Live.connectWithReply].
    + now apply chronological_append.
    + destruct (negb (truthy token)).
      * now apply chronological_append.
      * exact H.
  - destruct t; cbn [Live.connectSettled].
    + exact H.
    + now apply chronological_append.
  - unfold Live.handleDisconnect, Live.releaseRoom, Live.cancelFrameRef.
    destruct room, fr; exact H.
  - unfold Live.toggleRecording, Live.cancelFrameRef.
    destruct c, room, b, fr; exact H.
  - destruct o as [[|]|]; cbn [Live.micSettled].
    + unfold Live.setupRealVisualizer, Live.updateVolume. exact H.
    + exact H.
    + now apply chronological_append.
  - now apply chronological_append.
  - now apply chronological_append.
  - unfold Live.onFrame, Live.updateVolume. cbn [Live.frames].
    destruct (existsb _ _); [|exact H].
    cbn [Live.analyzerReady]. destruct ready; exact H.
  - cbn [Live.elapse Live.now Live.transcript].
    apply (chronological_later clock); [lia | exact H].
Qed.

(** X3.  In every state either page can reach, the entries of the log are
    in chronological order: each entry is stamped no later than the entries
    after it, and none is stamped later than the current time. *)
Theorem transcript_is_chronological :
  (forall es : list Mock.Event,
      chronological (Mock.now (Mock.run Mock.init es))
        (Mock.transcript (Mock.run Mock.init es)))
  /\ (forall es : list Live.Event,
        chronological (Live.now (Live.run Live.init es))
          (Live.transcript (Live.run Live.init es))).
Proof.
  split; intros es.
  - unfold Mock.run.
    assert (H : chronological (Mock.now Mock.init)
                  (Mock.transcript Mock.init))
      by (split; constructor).
    revert H. generalize Mock.init.
    induction es as [|e es IH]; intros s H; [exact H|].
    simpl. apply IH. now apply mock_step_chronological.
  - unfold Live.run.
    assert (H : chronological (Live.now Live.init)
                  (Live.transcript Live.init))
      by (split; constructor).
    revert H. generalize Live.init.
    induction es as [|e es IH]; intros s H; [exact H|].
    simpl. apply IH. now apply live_step_chronological.
Qed.

(** ** Connecting on the simulated page *)

Lemma connectThenLink_state (s : Mock.State) (d : N) :
  Mock.wf s = true ->
  Mock.connectThenLink d s
  = Mock.mkState idle true (Mock.audioLevel s)
      (Mock.transcript s
       ++ [mkMessage system "Connected to HF Inference Model."
             (Mock.now s + d)])
      (Mock.intervalRef s) (Mock.timers s)
      (Pos.succ (Mock.nextId s)) (Mock.now s + d).
Proof.
  intros Hwf. apply wf_spec in Hwf. destruct Hwf as (H1 & _).
  set (T := Mock.mkTimer (Mock.nextId s) (Mock.now s + 1500) None
              Mock.ConnectedCb).
  pose proof (findTimer_last (Mock.timers s) T H1) as Ef.
  pose proof (filter_drop_last (Mock.timers s) T H1) as Ed.
  cbn [Mock.tid T] in Ef, Ed.
  unfold Mock.connectThenLink, Mock.handleConnect, Mock.fire.
  cbn [Mock.elapse Mock.setTimeout Mock.register Mock.setBotState
       Mock.timers Mock.nextId Mock.now Mock.botState Mock.isConnected
       Mock.audioLevel Mock.transcript Mock.intervalRef].
  fold T. rewrite Ef. unfold Mock.rearm. cbn [Mock.period Mock.tid Mock.cb T].
  fold T. rewrite Ed. reflexivity.
Qed.

(** X4.  On the simulated page a connect request puts the state at
    [processing] and leaves the session disconnected; the link cannot come
    up before 1500 ms have passed; when the connection timeout fires the
    session is connected and [idle], the log has gained the one system
    entry "Connected to HF Inference Model." and nothing else of the state
    has changed. *)
Theorem mock_connect_completes :
  forall (s : Mock.State) (d : N),
    Mock.wf s = true ->
    (Mock.botState (Mock.handleConnect s) = processing
     /\ Mock.isConnected (Mock.handleConnect s) = Mock.isConnected s
     /\ Mock.transcript (Mock.handleConnect s) = Mock.transcript s)
    /\ ((d < 1500)%N ->
        forall r,
          Mock.enabled (Mock.TimerFires (Mock.nextId s) r)
            (Mock.elapse d (Mock.handleConnect s)) = false)
    /\ Mock.connectThenLink d s
       = Mock.mkState idle true (Mock.audioLevel s)
           (Mock.transcript s
            ++ [mkMessage system "Connected to HF Inference Model."
                  (Mock.now s + d)])
           (Mock.intervalRef s) (Mock.timers s)
           (Pos.succ (Mock.nextId s)) (Mock.now s + d).
Proof.
  intros s d Hwf. split; [now repeat split|].
  split; [|now apply connectThenLink_state].
  intros Hd r. apply wf_spec in Hwf. destruct Hwf as (H1 & _).
  set (T := Mock.mkTimer (Mock.nextId s) (Mock.now s + 1500) None
              Mock.ConnectedCb).
  pose proof (findTimer_last (Mock.timers s) T H1) as Ef.
  cbn [Mock.tid T] in Ef.
  unfold Mock.enabled, Mock.handleConnect.
  cbn [Mock.elapse Mock.setTimeout Mock.register Mock.setBotState
       Mock.timers Mock.nextId Mock.now].
  fold T. rewrite Ef. cbn [Mock.due T].
  assert (Hlt : (Mock.now s + 1500 <=? Mock.now s + d)%N = false)
    by (apply N.leb_gt; lia).
  now rewrite Hlt.
Qed.

Lemma mock_connect_completes_witness :
  Mock.enabled (Mock.TimerFires 1 draw0)
    (Mock.elapse 1499 (Mock.handleConnect Mock.init)) = false
  /\ Mock.connectThenLink 1500 Mock.init
     = Mock.mkState idle true 0
         [mkMessage system "Connected to HF Inference Model." 1500]
         None [] 2%positive 1500%N.
Proof.
  assert (Hwf : Mock.wf Mock.init = true) by reflexivity.
  destruct (mock_connect_completes Mock.init 1499 Hwf) as (_ & He & _).
  destruct (mock_connect_completes Mock.init 1500 Hwf) as (_ & _ & Hs).
  split.
  - apply He. reflexivity.
  - exact Hs.
Defined.

(** ** A turn that runs to its end *)

Lemma toggle_stop_state (s : Mock.State) :
  Mock.isConnected s = true ->
  Mock.botState s = listening ->
  Mock.toggleRecording s
  = Mock.mkState processing true 0 (Mock.transcript s)
      (Mock.intervalRef s)
      (Mock.timers (Mock.clearIntervalRef s)
       ++ [Mock.mkTimer (Mock.nextId s) (Mock.now s + 1500) None
             Mock.ResponseCb])
      (Pos.succ (Mock.nextId s)) (Mock.now s).
Proof.
  intros Hc Hb.
  destruct s as [b c a tr ref ts n clock]. simpl in *. subst b c.
  unfold Mock.toggleRecording. cbn [negb Mock.isConnected Mock.botState].
  destruct ref as [id|]; mock_unfold; reflexivity.
Qed.

Lemma turnDone_state (s : Mock.State) (d1 d2 : N) :
  Mock.wf s = true ->
  Mock.isConnected s = true ->
  Mock.botState s = listening ->
  Mock.turnDone d1 d2 s
  = Mock.mkState idle true 0
      (Mock.transcript s
       ++ [mkMessage user Mock.userText (Mock.now s + d1);
           mkMessage bot Mock.botText (Mock.now s + d1 + d2)])
      (Some (Pos.succ (Mock.nextId s)))
      (Mock.timers (Mock.clearIntervalRef s))
      (Pos.succ (Pos.succ (Pos.succ (Mock.nextId s))))
      (Mock.now s + d1 + d2).
Proof.
  intros Hwf Hc Hb. unfold Mock.turnDone, Mock.turnResponse.
  rewrite (toggle_stop_state s Hc Hb).
  apply wf_spec in Hwf. pose proof (kept_fresh s Hwf) as Hk.
  unfold Mock.elapse. mock_fields.
  rewrite (fire_response _ _ _ _ _ _ _ _ _ _ Hk (kept_stable s)).
  mock_fields. rewrite fire_playback.
  - now rewrite <- app_assoc.
  - intros u Hu. specialize (Hk u Hu). lia.
Qed.

(** X5.  On the simulated page a turn that is left to run ends where it
    began: once the user has stopped talking and the two response timeouts
    have fired, the session is still connected, the state is [idle], the
    audio level is 0, no sampler tick is pending, and the log has gained
    the user utterance followed by the bot utterance, each stamped with the
    time its timeout fired. *)
Theorem mock_turn_completes :
  forall (s : Mock.State) (d1 d2 : N),
    Mock.wf s = true ->
    Mock.isConnected s = true ->
    Mock.botState s = listening ->
    Mock.botState (Mock.turnResponse d1 s) = speaking
    /\ Mock.botState (Mock.turnDone d1 d2 s) = idle
    /\ Mock.isConnected (Mock.turnDone d1 d2 s) = true
    /\ Mock.audioLevel (Mock.turnDone d1 d2 s) = 0
    /\ Mock.samplerRunning (Mock.turnDone d1 d2 s) = false
    /\ Mock.noTicks (Mock.turnDone d1 d2 s) = true
    /\ Mock.transcript (Mock.turnDone d1 d2 s)
       = Mock.transcript s
         ++ [mkMessage user Mock.userText (Mock.now s + d1);
             mkMessage bot Mock.botText (Mock.now s + d1 + d2)].
Proof.
  intros s d1 d2 Hwf Hc Hb.
  rewrite (turnDone_state s d1 d2 Hwf Hc Hb).
  assert (Hwf' := Hwf). apply wf_spec in Hwf'.
  pose proof (kept_fresh s Hwf') as Hk.
  pose proof (noTicks_clearIntervalRef s Hwf') as Hno.
  split.
  - unfold Mock.turnResponse. rewrite (toggle_stop_state s Hc Hb).
    unfold Mock.elapse. mock_fields.
    now rewrite (fire_response _ _ _ _ _ _ _ _ _ _ Hk (kept_stable s)).
  - mock_fields. repeat split.
    + unfold Mock.samplerRunning. mock_fields.
      destruct (Mock.findTimer _ _) as [t|] eqn:E; [|reflexivity].
      apply findTimer_tid in E as [Hid Hin].
      specialize (Hk t Hin). lia.
    + exact Hno.
Qed.

Lemma mock_turn_completes_witness :
  Mock.botState
    (Mock.turnDone 1500 3000 (Mock.run Mock.init Mock.sessionToListening))
  = idle
  /\ Mock.transcript
       (Mock.turnDone 1500 3000
          (Mock.run Mock.init Mock.sessionToListening))
     = Mock.transcript (Mock.run Mock.init Mock.sessionToListening)
       ++ [mkMessage user Mock.userText
             (Mock.now (Mock.run Mock.init Mock.sessionToListening) + 1500);
           mkMessage bot Mock.botText
             (Mock.now (Mock.run Mock.init Mock.sessionToListening)
              + 1500 + 3000)].
Proof.
  assert (H : Mock.wf (Mock.run Mock.init Mock.sessionToListening) = true
              /\ Mock.isConnected
                   (Mock.run Mock.init Mock.sessionToListening) = true
              /\ Mock.botState
                   (Mock.run Mock.init Mock.sessionToListening) = listening)
    by (split; [|split]; vm_compute; reflexivity).
  destruct H as (Hwf & Hc & Hb).
  destruct (mock_turn_completes _ 1500%N 3000%N Hwf Hc Hb)
    as (_ & Hi & _ & _ & _ & _ & Ht).
  exact (conj Hi Ht).
Defined.

(** ** The live caption *)

Lemma liveCaption_append tr clock r t :
  liveCaption (append clock r t tr) true false = Some (mkMessage r t clock).
Proof. unfold liveCaption. now rewrite lastMessage_append. Qed.

Lemma liveCaption_disconnected tr h : liveCaption tr false h = None.
Proof. unfold liveCaption. now destruct (lastMessage tr). Qed.

(** X6.  The live caption shows the entry appended last whenever the
    session is connected and the history is closed: the notice of a link
    that has just come up is captioned on both pages.  It shows nothing
    while disconnected, so the "Disconnected." notice is never captioned,
    neither after the simulated handler nor after the live session-ended
    event, whether or not the history is open. *)
Theorem caption_follows_log_while_connected :
  (forall tr clock r t,
      liveCaption (append clock r t tr) true false
      = Some (mkMessage r t clock))
  /\ (forall (s : Mock.State) (r : spec_float),
        liveCaption
          (Mock.transcript (Mock.runCallback Mock.ConnectedCb r s))
          (Mock.isConnected (Mock.runCallback Mock.ConnectedCb r s)) false
        = Some (mkMessage system "Connected to HF Inference Model."
                  (Mock.now s)))
  /\ (forall s : Live.State,
        liveCaption (Live.transcript (Live.onConnected s))
          (Live.isConnected (Live.onConnected s)) false
        = Some (mkMessage system "Secure Link Established." (Live.now s)))
  /\ (forall (s : Mock.State) (h : bool),
        liveCaption (Mock.transcript (Mock.handleDisconnect s))
          (Mock.isConnected (Mock.handleDisconnect s)) h = None)
  /\ (forall (s : Live.State) (h : bool),
        liveCaption (Live.transcript (Live.onDisconnected s))
          (Live.isConnected (Live.onDisconnected s)) h = None
        /\ liveCaption (Live.transcript (Live.handleDisconnect s))
             (Live.isConnected (Live.handleDisconnect s)) h = None).
Proof.
  split; [exact liveCaption_append|].
  split; [intros s r; apply liveCaption_append|].
  split; [intros s; apply liveCaption_append|].
  split.
  - intros s h.
    rewrite (proj2 (proj2 (proj2 (mock_handleDisconnect_fields s)))).
    apply liveCaption_disconnected.
  - intros s h. split; [apply liveCaption_disconnected|].
    rewrite (proj1 (proj2 (proj2 (live_handleDisconnect_fields s)))).
    apply liveCaption_disconnected.
Qed.

(** ** A connection attempt that succeeds *)

(** X7.  On the live page, when the token reply carries a non-empty token,
    the room reports the connection and [room.connect] resolves, the
    session ends up connected and [idle], [roomRef] holds the room created
    for the attempt, the SDK has been asked, in this order, to create the
    room, register the handlers and connect with the chosen URL and the
    token, and the log has gained "Connecting to Server..." followed by
    "Secure Link Established.".  Audio level and sampler are untouched. *)
Theorem live_connect_succeeds :
  forall (s : Live.State) (envUrl token server_url : option string),
    truthy token = true ->
    Live.botState (Live.run s (Live.connectSession envUrl token server_url))
    = idle
    /\ Live.isConnected
         (Live.run s (Live.connectSession envUrl token server_url)) = true
    /\ Live.roomRef
         (Live.run s (Live.connectSession envUrl token server_url))
       = Some (Live.nextRoom s)
    /\ Live.sdk (Live.run s (Live.connectSession envUrl token server_url))
       = Live.sdk s
         ++ [Live.NewRoom (Live.nextRoom s);
             Live.RegisterHandlers (Live.nextRoom s);
             Live.RoomConnect (Live.nextRoom s)
               (Live.pickUrl envUrl server_url) (str token)]
    /\ Live.transcript
         (Live.run s (Live.connectSession envUrl token server_url))
       = Live.transcript s
         ++ [mkMessage system "Connecting to Server..." (Live.now s);
             mkMessage system "Secure Link Established." (Live.now s)]
    /\ Live.audioLevel
         (Live.run s (Live.connectSession envUrl token server_url))
       = Live.audioLevel s
    /\ Live.frames
         (Live.run s (Live.connectSession envUrl token server_url))
       = Live.frames s.
Proof.
  intros s envUrl token server_url Htok.
  unfold Live.run, Live.connectSession.
  cbn [fold_left Live.step Live.connectWithReply Live.connectSettled].
  rewrite Htok. cbn [negb].
  destruct s as [b c a tr room fr ready fs nf nr calls clock].
  cbv beta iota zeta delta
    [Live.onConnected Live.connectBegin Live.call Live.setRoomRef
     Live.newRoom Live.addMessage Live.setBotState Live.setIsConnected
     Live.botState Live.isConnected Live.audioLevel Live.transcript
     Live.roomRef Live.animationFrameRef Live.analyzerReady Live.frames
     Live.nextFrame Live.nextRoom Live.sdk Live.now append].
  repeat split; now rewrite <- !app_assoc.
Qed.

Lemma live_connect_succeeds_witness :
  Live.isConnected
    (Live.run Live.init (Live.connectSession None (Some "jwt") None)) = true
  /\ Live.roomRef
       (Live.run Live.init (Live.connectSession None (Some "jwt") None))
     = Some 1%positive.
Proof.
  assert (H : truthy (Some "jwt") = true) by reflexivity.
  destruct (live_connect_succeeds Live.init None (Some "jwt") None H)
    as (_ & Hc & Hr & _).
  exact (conj Hc Hr).
Defined.

(** ** The level computed from the microphone *)

Lemma sumBins_bounds (n : nat) (data : list Z) :
  forallb (fun d => (0 <=? d)%Z && (d <=? 255)%Z) data = true ->
  (0 <= Live.sumBins n data <= 255 * Z.of_nat n)%Z.
Proof.
  revert data. induction n as [|n IH]; intros data H.
  - simpl. lia.
  - destruct data as [|d data]; [simpl; lia|].
    cbn [forallb] in H. apply andb_true_iff in H as [Hd H].
    apply andb_true_iff in Hd as [Hd0 Hd1].
    apply Z.leb_le in Hd0, Hd1. specialize (IH data H).
    cbn [Live.sumBins]. lia.
Qed.

(** Every sum of 32 bytes has been checked, by evaluation. *)
Lemma byteSums_checked : forallb Live.levelChecked Live.byteSums = true.
Proof. vm_compute. reflexivity. Qed.

Lemma levelChecked_of_bytes (data : list Z) :
  Live.validBytes data = true ->
  Live.levelChecked (Live.sumBins Live.bufferLength data) = true.
Proof.
  unfold Live.validBytes. intros H. apply andb_true_iff in H as [_ H].
  pose proof (sumBins_bounds Live.bufferLength data H) as Hs.
  change (Z.of_nat Live.bufferLength) with 32%Z in Hs.
  apply (proj1 (forallb_forall _ _) byteSums_checked).
  unfold Live.byteSums. apply in_map_iff.
  exists (Z.to_nat (Live.sumBins Live.bufferLength data)).
  split; [lia | apply in_seq; lia].
Qed.

Lemma level_of_bytes (data : list Z) :
  Live.validBytes data = true ->
  0 <= Live.level data
  /\ Live.level data <= 255 # 100.
Proof.
  intros H. apply levelChecked_of_bytes in H. unfold Live.levelChecked in H.
  apply andb_true_iff in H as [H _]. apply andb_true_iff in H as [H _].
  apply andb_true_iff in H as [H0 H1].
  split; apply Qle_bool_iff; assumption.
Qed.

(** The rounding of the two divisions moves the level by at most [2^-51]
    from the exact mean byte over 100. *)
Lemma level_near_mean (data : list Z) :
  Live.validBytes data = true ->
  inject_Z (Live.sumBins Live.bufferLength data) / (3200 # 1)
    - (1 # 2251799813685248) <= Live.level data
  /\ Live.level data
     <= inject_Z (Live.sumBins Live.bufferLength data) / (3200 # 1)
        + (1 # 2251799813685248).
Proof.
  intros H. apply levelChecked_of_bytes in H. unfold Live.levelChecked in H.
  apply andb_true_iff in H as [H H3]. apply andb_true_iff in H as [_ H2].
  split; apply Qle_bool_iff; assumption.
Qed.

Lemma live_step_level (s : Live.State) (e : Live.Event) :
  Live.audioLevel (Live.step s e) = Live.audioLevel s
  \/ Live.audioLevel (Live.step s e) = 0
  \/ exists data,
       Live.validFrames e = Live.validBytes data
       /\ Live.audioLevel (Live.step s e)
          = Live.level data.
Proof.
  destruct s as [b c a tr room fr ready fs nf nr calls clock].
  destruct e; cbn [Live.step].
  - now left.
  - destruct reply as [m | token url]; cbn [Live.connectWithReply];
      [now left|]. destruct (negb (truthy token)); now left.
  - destruct t; now left.
  - right; left. apply live_handleDisconnect_fields.
  - unfold Live.toggleRecording, Live.cancelFrameRef.
    destruct c, room, b, fr; cbn; auto.
  - destruct o as [[|]|]; cbn [Live.micSettled]; [|now left|now left].
    right; right. exists data. split; reflexivity.
  - now left.
  - now left.
  - unfold Live.onFrame, Live.updateVolume. cbn [Live.frames].
    destruct (existsb _ _); [|now left].
    cbn [Live.analyzerReady]. destruct ready; [|now left].
    right; right. exists data. split; reflexivity.
  - now left.
Qed.

(** X8.  On the live page, with the analyser delivering its 32 bytes per
    reading, the audio level is between 0 and 2.55 in every state the page
    can reach, and the level written for a reading is within [2^-51] of
    the exact mean byte over 100.  A reading of 32 bytes of 255 gives the
    binary64 number nearest to 2.55, which lies just below it, so the level
    can exceed 1: the mean byte is divided by 100, not by 255. *)
Theorem live_level_bounds :
  (forall es : list Live.Event,
      forallb Live.validFrames es = true ->
      0 <= Live.audioLevel (Live.run Live.init es)
      /\ Live.audioLevel (Live.run Live.init es) <= 255 # 100)
  /\ (forall s : Live.State,
        Live.validBytes (repeat 255%Z 32) = true
        /\ Live.audioLevel
             (Live.setupRealVisualizer (repeat 255%Z 32) s)
           == dyadic 5742089524897382 (-51)
        /\ 5 # 2 < Live.audioLevel
                     (Live.setupRealVisualizer (repeat 255%Z 32) s)
        /\ Live.audioLevel
             (Live.setupRealVisualizer (repeat 255%Z 32) s) < 255 # 100)
  /\ (forall data : list Z,
        Live.validBytes data = true ->
        inject_Z (Live.sumBins Live.bufferLength data) / (3200 # 1)
          - (1 # 2251799813685248) <= Live.level data
        /\ Live.level data
           <= inject_Z (Live.sumBins Live.bufferLength data) / (3200 # 1)
              + (1 # 2251799813685248)).
Proof.
  split; [|split].
  - intros es Hes. unfold Live.run.
    assert (H0 : 0 <= Live.audioLevel Live.init
                 /\ Live.audioLevel Live.init <= 255 # 100)
      by (split; simpl; lra).
    revert H0 Hes. generalize Live.init.
    induction es as [|e es IH]; intros s H0 Hes; [exact H0|].
    simpl in Hes. apply andb_true_iff in Hes as [He Hes].
    simpl. apply IH; [|exact Hes].
    destruct (live_step_level s e) as [-> | [-> | (data & Hv & ->)]].
    + exact H0.
    + split; lra.
    + apply level_of_bytes. now rewrite <- Hv.
  - intros s.
    change (Live.audioLevel (Live.setupRealVisualizer (repeat 255%Z 32) s))
      with (Live.level (repeat 255%Z 32)).
    split; [vm_compute; reflexivity |].
    split; [vm_compute; reflexivity |].
    split; vm_compute; reflexivity.
  - exact level_near_mean.
Qed.

(** The specification of the two divisions agrees with the processor's
    arithmetic at these sums; 2.55 itself denotes the number that 32 bytes
    of 255 give. *)
Example level_on_the_processor :
  Prim2SF ((8160 / 32) / 100)%float
  = div64 (div64 (ofInt 8160) (ofInt 32)) (ofInt 100)
  /\ Prim2SF ((8000 / 32) / 100)%float
     = div64 (div64 (ofInt 8000) (ofInt 32)) (ofInt 100)
  /\ Prim2SF ((7 / 32) / 100)%float
     = div64 (div64 (ofInt 7) (ofInt 32)) (ofInt 100)
  /\ Prim2SF ((0 / 32) / 100)%float
     = div64 (div64 (ofInt 0) (ofInt 32)) (ofInt 100)
  /\ Prim2SF 0x1.4666666666666p+1%float
     = S754_finite false 5742089524897382 (-51)
  /\ ofInt 8160 = Prim2SF 8160%float
  /\ ofInt 100 = Prim2SF 100%float.
Proof.
  split; [vm_compute; reflexivity |].
  split; [vm_compute; reflexivity |].
  split; [vm_compute; reflexivity |].
  split; [vm_compute; reflexivity |].
  split; [vm_compute; reflexivity |].
  split; vm_compute; reflexivity.
Qed.

Lemma live_level_bounds_witness :
  Live.audioLevel (Live.run Live.init Live.sessionToListening) <= 255 # 100.
Proof.
  assert (H : forallb Live.validFrames Live.sessionToListening = true)
    by (vm_compute; reflexivity).
  exact (proj2 (proj1 live_level_bounds _ H)).
Defined.

(** ** The animation-frame loop *)

Lemma existsb_last (id : positive) (fs : list positive) :
  existsb (Pos.eqb id) (fs ++ [id]) = true.
Proof.
  rewrite existsb_app. simpl. rewrite Pos.eqb_refl.
  now rewrite orb_true_r.
Qed.

(** X9.  On the live page the sampler loop keeps itself going: a pending
    frame that runs while the analyser is set writes the level of its
    reading and requests the next frame.  Once the frame recorded in
    [animationFrameRef] has been cancelled, by disconnecting or by
    stopping the recording, that frame does nothing when its turn comes:
    the state, and with it the level of 0, stays as the handler left
    it. *)
Theorem live_frame_loop :
  (forall (s : Live.State) (id : positive) (data : list Z),
      existsb (Pos.eqb id) (Live.frames s) = true ->
      Live.analyzerReady s = true ->
      Live.audioLevel (Live.onFrame id data s)
      = Live.level data
      /\ Live.trackedFramePending (Live.onFrame id data s) = true
      /\ Live.animationFrameRef (Live.onFrame id data s)
         = Some (Live.nextFrame s))
  /\ (forall (s : Live.State) (id : positive) (data : list Z),
        Live.animationFrameRef s = Some id ->
        Live.onFrame id data (Live.handleDisconnect s)
        = Live.handleDisconnect s
        /\ Live.onFrame id data (Live.cancelFrameRef s)
           = Live.cancelFrameRef s).
Proof.
  split.
  - intros s id data Hp Hr.
    unfold Live.onFrame, Live.updateVolume. rewrite Hp.
    cbn [Live.analyzerReady]. rewrite Hr.
    cbn [Live.requestFrame Live.setAudioLevel Live.audioLevel
         Live.animationFrameRef Live.nextFrame].
    repeat split.
    unfold Live.trackedFramePending.
    cbn [Live.animationFrameRef Live.frames]. apply existsb_last.
  - intros s id data Href.
    destruct s as [b c a tr room fr ready fs nf nr calls clock].
    cbn [Live.animationFrameRef] in Href. subst fr.
    unfold Live.onFrame, Live.handleDisconnect, Live.releaseRoom,
      Live.cancelFrameRef.
    destruct room; cbn; now rewrite existsb_after_filter.
Qed.

Lemma live_frame_loop_witness :
  Live.trackedFramePending
    (Live.onFrame 1 (repeat 50%Z 32)
       (Live.run Live.init Live.sessionToListening)) = true
  /\ Live.onFrame 1 (repeat 50%Z 32)
       (Live.handleDisconnect (Live.run Live.init Live.sessionToListening))
     = Live.handleDisconnect (Live.run Live.init Live.sessionToListening).
Proof.
  destruct live_frame_loop as [Hgo Hstop]. split.
  - refine (proj1 (proj2 (Hgo _ 1%positive _ _ _))); vm_compute; reflexivity.
  - refine (proj1 (Hstop _ 1%positive _ _)). vm_compute; reflexivity.
Defined.

(** ** The outcome of the microphone request *)

(** X10.  On the live page, a start-recording toggle in a connected session
    holding a room sets the state to [listening] and asks for the
    microphone.  If the microphone is granted with a track, the sampler
    starts and the level is that of the first reading; if it is granted
    without a track, nothing more happens; if it is refused, the state
    goes back to [idle] and the system entry "Microphone access denied."
    is logged, the session staying connected with its room. *)
Theorem live_microphone_outcomes :
  forall (s : Live.State) (room : positive) (data : list Z),
    Live.isConnected s = true ->
    Live.roomRef s = Some room ->
    Live.botState s <> listening ->
    (Live.botState
       (Live.micSettled (Live.MicPublished true) data
          (Live.toggleRecording s)) = listening
     /\ Live.trackedFramePending
          (Live.micSettled (Live.MicPublished true) data
             (Live.toggleRecording s)) = true
     /\ Live.audioLevel
          (Live.micSettled (Live.MicPublished true) data
             (Live.toggleRecording s))
        = Live.level data)
    /\ Live.micSettled (Live.MicPublished false) data
         (Live.toggleRecording s)
       = Live.call (Live.SetMicrophoneEnabled room)
           (Live.setBotState listening s)
    /\ (Live.botState
          (Live.micSettled Live.MicRejected data (Live.toggleRecording s))
        = idle
        /\ Live.transcript
             (Live.micSettled Live.MicRejected data (Live.toggleRecording s))
           = Live.transcript s
             ++ [mkMessage system "Microphone access denied." (Live.now s)]
        /\ Live.isConnected
             (Live.micSettled Live.MicRejected data (Live.toggleRecording s))
           = true
        /\ Live.roomRef
             (Live.micSettled Live.MicRejected data (Live.toggleRecording s))
           = Some room
        /\ Live.frames
             (Live.micSettled Live.MicRejected data (Live.toggleRecording s))
           = Live.frames s).
Proof.
  intros s room data Hc Hr Hb.
  assert (Ht : Live.toggleRecording s
               = Live.call (Live.SetMicrophoneEnabled room)
                   (Live.setBotState listening s)).
  { unfold Live.toggleRecording. rewrite Hc, Hr. cbn [negb].
    destruct (Live.botState s); try reflexivity. now destruct Hb. }
  rewrite Ht.
  destruct s as [b c a tr rm fr ready fs nf nr calls clock].
  cbn [Live.isConnected Live.roomRef] in Hc, Hr. subst c rm.
  split; [|split; [reflexivity|]].
  - cbn. repeat split. unfold Live.trackedFramePending.
    cbn [Live.animationFrameRef Live.frames]. apply existsb_last.
  - cbn. repeat split.
Qed.

Lemma live_microphone_outcomes_witness :
  Live.botState
    (Live.micSettled Live.MicRejected []
       (Live.toggleRecording
          (Live.run Live.init (Live.connectSession None (Some "jwt") None))))
  = idle.
Proof.
  refine (proj1 (proj2 (proj2
            (live_microphone_outcomes _ 1%positive [] _ _ _)))).
  - vm_compute; reflexivity.
  - vm_compute; reflexivity.
  - vm_compute; discriminate.
Defined.

(** ** The URL handed to the transport *)

Lemma truthy_str (v : option string) :
  truthy v = true -> truthy (Some (str v)) = true.
Proof. destruct v; [exact (fun H => H) | discriminate]. Qed.

(** X11.  The URL passed to [room.connect] is never empty.  A non-empty
    environment URL wins; failing that, a non-empty [server_url] of the
    token reply; failing both, the built-in default.  An environment URL
    or [server_url] that is set but empty counts as absent. *)
Theorem live_url_choice :
  forall envUrl server_url : option string,
    truthy (Some (Live.pickUrl envUrl server_url)) = true
    /\ Live.pickUrl envUrl server_url
       = (if truthy envUrl then str envUrl
          else if truthy server_url then str server_url
          else Live.defaultUrl)
    /\ Live.pickUrl (Some EmptyString) (Some EmptyString)
       = Live.defaultUrl.
Proof.
  intros envUrl server_url.
  assert (E : Live.pickUrl envUrl server_url
              = (if truthy envUrl then str envUrl
                 else if truthy server_url then str server_url
                 else Live.defaultUrl)).
  { unfold Live.pickUrl, orElse.
    destruct (truthy envUrl) eqn:E1.
    - rewrite E1. destruct envUrl; [reflexivity | discriminate].
    - destruct (truthy server_url) eqn:E2.
      + destruct server_url; [reflexivity | discriminate].
      + reflexivity. }
  split; [|split; [exact E | reflexivity]].
  rewrite E. destruct (truthy envUrl) eqn:E1; [now apply truthy_str|].
  destruct (truthy server_url) eqn:E2; [now apply truthy_str|].
  reflexivity.
Qed.

(** ** The participant identity *)

Lemma string_length_append (p q : string) :
  String.length (p ++ q)%string = (String.length p + String.length q)%nat.
Proof. induction p as [|c p IH]; simpl; [reflexivity | now rewrite IH]. Qed.

Lemma substring_all (q : string) :
  String.substring 0 (String.length q) q = q.
Proof. induction q as [|c q IH]; simpl; [reflexivity | now rewrite IH]. Qed.

Lemma substring_skip (p q : string) (m : nat) :
  String.substring (String.length p) m (p ++ q)%string = String.substring 0 m q.
Proof. induction p as [|c p IH]; simpl; [reflexivity | exact IH]. Qed.

Lemma substring_nothing (n : nat) (s : string) :
  String.substring n 0 s = EmptyString.
Proof.
  revert s. induction n as [|n IH]; intros s.
  - now destruct s.
  - destruct s as [|c s]; [reflexivity | apply IH].
Qed.

Lemma substringFrom_suffix (p q : string) :
  TokenRoute.substringFrom (String.length p) (p ++ q)%string = q.
Proof.
  unfold TokenRoute.substringFrom. rewrite string_length_append.
  replace (String.length p + String.length q - String.length p)%nat
    with (String.length q) by lia.
  rewrite substring_skip. apply substring_all.
Qed.

(** X12.  The participant identity is "user-" followed by what is left of
    the base-36 rendering of the random draw after its first seven
    characters, the leading "0." and five digits.  A rendering of seven
    characters or fewer leaves nothing, so every such draw gets the same
    identity "user-". *)
Theorem token_identity_suffix :
  (forall p q : string,
      String.length p = 7%nat ->
      TokenRoute.makeIdentity (p ++ q)%string = ("user-" ++ q)%string)
  /\ (forall d : string,
        (String.length d <= 7)%nat ->
        TokenRoute.makeIdentity d = "user-")
  /\ (forall d : string,
        String.length (TokenRoute.makeIdentity d)
        = (5 + (String.length d - 7))%nat).
Proof.
  split; [|split].
  - intros p q Hp. unfold TokenRoute.makeIdentity.
    rewrite <- Hp. now rewrite substringFrom_suffix.
  - intros d Hd. unfold TokenRoute.makeIdentity, TokenRoute.substringFrom.
    replace (String.length d - 7)%nat with 0%nat by lia.
    now rewrite substring_nothing.
  - intros d. unfold TokenRoute.makeIdentity.
    rewrite string_length_append. cbn [String.length]. f_equal.
    destruct (Nat.le_gt_cases (String.length d) 7) as [Hle | Hgt].
    + unfold TokenRoute.substringFrom.
      replace (String.length d - 7)%nat with 0%nat by lia.
      now rewrite substring_nothing.
    + assert (Hsplit : exists p q, d = (p ++ q)%string /\ String.length p = 7%nat).
      { clear -Hgt. revert Hgt. generalize 7%nat as n. intros n.
        revert d. induction n as [|n IH]; intros d Hgt.
        - exists EmptyString, d. now split.
        - destruct d as [|c d]; [simpl in Hgt; lia|].
          simpl in Hgt. destruct (IH d) as (p & q & -> & Hp); [lia|].
          exists (String c p), q. split; [reflexivity | simpl; now rewrite Hp]. }
      destruct Hsplit as (p & q & -> & Hp).
      rewrite <- Hp at 1. rewrite substringFrom_suffix.
      rewrite string_length_append. lia.
Qed.

Lemma token_identity_suffix_witness :
  TokenRoute.makeIdentity ("0.4fzyo" ++ "82mvyr")%string
  = ("user-" ++ "82mvyr")%string
  /\ TokenRoute.makeIdentity "0.i" = "user-".
Proof.
  destruct token_identity_suffix as (Hs & He & _). split.
  - apply Hs. reflexivity.
  - apply He. simpl. lia.
Defined.

(** ** The sampler runs while the page shows activity *)

(** Dropping timers from a table keeps its handles distinct. *)
Lemma distinct_filter (keep : Mock.Timer -> bool) (ts : list Mock.Timer) :
  NoDup (map Mock.tid ts) -> NoDup (map Mock.tid (filter keep ts)).
Proof.
  induction ts as [|t ts IH]; intros Hd; [exact Hd|].
  cbn [map] in Hd. apply NoDup_cons_iff in Hd as [Hfresh Hd].
  cbn [filter]. destruct (keep t); [|exact (IH Hd)].
  cbn [map]. apply NoDup_cons; [|exact (IH Hd)].
  intros Hin. apply Hfresh.
  apply in_map_iff in Hin as (u & Eu & Hu).
  apply filter_In in Hu as [Hu _].
  rewrite <- Eu. now apply in_map.
Qed.

(** In a table with distinct handles a handle names one timer. *)
Lemma distinct_same_timer (ts : list Mock.Timer) (u t : Mock.Timer) :
  NoDup (map Mock.tid ts) -> In u ts -> In t ts ->
  Mock.tid u = Mock.tid t -> u = t.
Proof.
  induction ts as [|c ts IH]; intros Hd Hu Ht E; [destruct Hu|].
  cbn [map] in Hd. apply NoDup_cons_iff in Hd as [Hfresh Hd].
  destruct Hu as [-> | Hu], Ht as [-> | Ht]; [reflexivity | | |].
  - destruct Hfresh. rewrite E. now apply in_map.
  - destruct Hfresh. rewrite <- E. now apply in_map.
  - exact (IH Hd Hu Ht E).
Qed.

Lemma distinct_same (s s' : Mock.State) :
  Mock.timers s' = Mock.timers s -> Mock.distinctHandles s -> Mock.distinctHandles s'.
Proof. unfold Mock.distinctHandles. now intros ->. Qed.

Lemma distinct_clearIntervalRef (s : Mock.State) :
  Mock.distinctHandles s -> Mock.distinctHandles (Mock.clearIntervalRef s).
Proof.
  unfold Mock.distinctHandles. rewrite timers_clearIntervalRef.
  destruct (Mock.intervalRef s); [apply distinct_filter | exact (fun H => H)].
Qed.

Lemma distinct_register p c d (s : Mock.State) :
  Mock.wfP s -> Mock.distinctHandles s ->
  Mock.distinctHandles (Mock.register p c d s).
Proof.
  intros (H1 & _) Hd. unfold Mock.distinctHandles in *.
  cbn [Mock.register Mock.timers]. rewrite map_app. cbn [map Mock.tid].
  apply NoDup_app; [exact Hd | repeat constructor; easy |].
  intros x Hx [<- | []]. apply in_map_iff in Hx as (t & Ht & Hin).
  specialize (H1 t Hin). lia.
Qed.

Lemma distinct_simulate (s : Mock.State) :
  Mock.wfP s -> Mock.distinctHandles s ->
  Mock.distinctHandles (Mock.simulateVoiceActivity s).
Proof.
  intros Hwf Hd. unfold Mock.simulateVoiceActivity, Mock.setIntervalRef.
  apply (distinct_same
           (Mock.register (Some 100%N) Mock.LevelTickCb 100
              (Mock.clearIntervalRef s))); [reflexivity|].
  apply distinct_register;
    [now apply wfP_clearIntervalRef | now apply distinct_clearIntervalRef].
Qed.

Lemma distinct_rearm clock t (s : Mock.State) :
  Mock.distinctHandles s ->
  NoDup (map Mock.tid (Mock.rearm clock t (Mock.timers s))).
Proof.
  unfold Mock.distinctHandles, Mock.rearm. intros Hd.
  destruct (Mock.period t) as [p|]; [|now apply distinct_filter].
  rewrite map_map.
  rewrite (map_ext _ Mock.tid); [exact Hd|].
  intros u. now destruct (Pos.eqb (Mock.tid u) (Mock.tid t)).
Qed.

Lemma distinct_step (s : Mock.State) (e : Mock.Event) :
  Mock.wfP s -> Mock.distinctHandles s -> Mock.distinctHandles (Mock.step s e).
Proof.
  intros Hwf Hd. unfold Mock.step.
  destruct (Mock.enabled e s); [|exact Hd].
  destruct e; cbn [Mock.dispatch].
  - apply (distinct_register None Mock.ConnectedCb 1500
             (Mock.setBotState processing s)); [|exact Hd].
    revert Hwf. now apply wfP_same.
  - apply (distinct_same
             (Mock.clearIntervalRef
                (Mock.setAudioLevel 0
                   (Mock.setBotState idle (Mock.setIsConnected false s)))));
      [reflexivity|]. now apply distinct_clearIntervalRef.
  - unfold Mock.toggleRecording.
    destruct (negb (Mock.isConnected s)); [exact Hd|].
    assert (Hs : forall v, Mock.wfP (Mock.setBotState v s))
      by (intros v; revert Hwf; now apply wfP_same).
    destruct (Mock.botState s);
      try (apply distinct_simulate; [apply Hs | exact Hd]).
    apply (distinct_register None Mock.ResponseCb 1500).
    + apply (wfP_same (Mock.clearIntervalRef
                         (Mock.setBotState processing s)));
        try reflexivity. apply wfP_clearIntervalRef, Hs.
    + apply (distinct_same
               (Mock.clearIntervalRef (Mock.setBotState processing s)));
        [reflexivity|]. now apply distinct_clearIntervalRef.
  - exact Hd.
  - unfold Mock.fire.
    destruct (Mock.findTimer id (Mock.timers s)) as [t|]; [|exact Hd].
    pose proof (wfP_rearm (Mock.now s) t s Hwf) as Hwf'.
    pose proof (distinct_rearm (Mock.now s) t s Hd) as Hd'.
    set (s' := Mock.mkState _ _ _ _ _ _ _ _) in *.
    change (Mock.distinctHandles s') in Hd'.
    destruct (Mock.cb t); cbn [Mock.runCallback].
    + exact Hd'.
    + apply (distinct_register None Mock.PlaybackDoneCb 3000).
      * apply wfP_simulateVoiceActivity. revert Hwf'. now apply wfP_same.
      * apply distinct_simulate; [|exact Hd'].
        revert Hwf'. now apply wfP_same.
    + apply (distinct_same
               (Mock.clearIntervalRef
                  (Mock.setBotState idle
                     (Mock.addMessage bot Mock.botText s'))));
        [reflexivity|]. now apply distinct_clearIntervalRef.
    + exact Hd'.
Qed.

Lemma filter_filter_same {A : Type} (p q : A -> bool) (l : list A) :
  (forall a, In a l -> q a = false -> p a = false) ->
  filter p (filter q l) = filter p l.
Proof.
  induction l as [|a l IH]; intros H; [reflexivity|].
  cbn [filter]. destruct (q a) eqn:Eq.
  - cbn [filter]. destruct (p a); [f_equal|];
      apply IH; intros b Hb; apply H; now right.
  - rewrite (H a (or_introl eq_refl) Eq).
    apply IH; intros b Hb; apply H; now right.
Qed.

(** A timer that fires takes no sampler interval with it. *)
Lemma tickCount_rearm_eq id clock t (s : Mock.State) :
  Mock.wfP s -> Mock.distinctHandles s ->
  Mock.findTimer id (Mock.timers s) = Some t ->
  List.length (filter Mock.isTick (Mock.rearm clock t (Mock.timers s)))
  = Mock.tickCount s.
Proof.
  intros (_ & _ & H3) Hd Hf. apply findTimer_tid in Hf as [_ Hin].
  unfold Mock.tickCount, Mock.rearm.
  destruct (Mock.period t) as [p|] eqn:Ep.
  - apply filter_map_same.
    intros u. now destruct (Pos.eqb (Mock.tid u) (Mock.tid t)).
  - rewrite filter_filter_same; [reflexivity|].
    intros u Hu Hq. apply negb_false_iff, Pos.eqb_eq in Hq.
    rewrite (distinct_same_timer _ u t Hd Hu Hin Hq).
    destruct (Mock.isTick t) eqn:Et; [|reflexivity].
    destruct (H3 t Hin Et) as [_ Hp]. rewrite Hp in Ep. discriminate.
Qed.

Lemma active_step (s : Mock.State) (e : Mock.Event) :
  Mock.wfP s -> Mock.distinctHandles s ->
  (Mock.active (Mock.botState s) = true -> Mock.tickCount s = 1%nat) ->
  Mock.active (Mock.botState (Mock.step s e)) = true ->
  Mock.tickCount (Mock.step s e) = 1%nat.
Proof.
  intros Hwf Hd Hs. unfold Mock.step.
  destruct (Mock.enabled e s); [|exact Hs].
  destruct e; cbn [Mock.dispatch].
  - discriminate.
  - rewrite (proj1 (proj2 (proj2 (mock_handleDisconnect_fields s)))).
    discriminate.
  - unfold Mock.toggleRecording.
    destruct (negb (Mock.isConnected s)); [exact Hs|].
    assert (Hv : forall v, Mock.wfP (Mock.setBotState v s))
      by (intros v; revert Hwf; now apply wfP_same).
    destruct (Mock.botState s);
      try (intros _; apply tickCount_simulate, Hv).
    mock_simpl. discriminate.
  - exact Hs.
  - unfold Mock.fire.
    destruct (Mock.findTimer id (Mock.timers s)) as [t|] eqn:Ef;
      [|exact Hs].
    pose proof (wfP_rearm (Mock.now s) t s Hwf) as Hwf'.
    pose proof (tickCount_rearm_eq id (Mock.now s) t s Hwf Hd Ef) as Hn.
    set (s' := Mock.mkState _ _ _ _ _ _ _ _) in *.
    change (List.length (filter Mock.isTick
              (Mock.rearm (Mock.now s) t (Mock.timers s))))
      with (Mock.tickCount s') in Hn.
    destruct (Mock.cb t); cbn [Mock.runCallback].
    + discriminate.
    + intros _. rewrite tickCount_setTimeout by discriminate.
      apply tickCount_simulate. revert Hwf'. now apply wfP_same.
    + mock_simpl. discriminate.
    + intros Ha. rewrite (tickCount_same s') by reflexivity.
      rewrite Hn. now apply Hs.
Qed.

Lemma samplerRunning_of_tick (s : Mock.State) :
  Mock.wfP s -> Mock.tickCount s = 1%nat -> Mock.samplerRunning s = true.
Proof.
  intros (_ & _ & H3) Hn. unfold Mock.tickCount in Hn.
  destruct (filter Mock.isTick (Mock.timers s)) as [|t l] eqn:E;
    [discriminate|].
  assert (Ht : In t (filter Mock.isTick (Mock.timers s)))
    by (rewrite E; now left).
  apply filter_In in Ht as [Hin Htick].
  destruct (H3 t Hin Htick) as [Href _].
  unfold Mock.samplerRunning. rewrite Href.
  destruct (Mock.findTimer (Mock.tid t) (Mock.timers s)) eqn:Ef;
    [reflexivity|].
  unfold Mock.findTimer in Ef.
  pose proof (find_none _ _ Ef t Hin) as Hc. cbn in Hc.
  now rewrite Pos.eqb_refl in Hc.
Qed.

(** X13.  On the simulated page, in every reachable state in which the
    conversation state is [listening] or [speaking], exactly one sampler
    interval is pending and it is the one recorded in [intervalRef]: the
    level keeps being refreshed for as long as the page shows activity. *)
Theorem mock_sampler_runs_while_active :
  forall es : list Mock.Event,
    Mock.active (Mock.botState (Mock.run Mock.init es)) = true ->
    Mock.tickCount (Mock.run Mock.init es) = 1%nat
    /\ Mock.samplerRunning (Mock.run Mock.init es) = true.
Proof.
  intros es.
  assert (H : Mock.wfP (Mock.run Mock.init es)
              /\ Mock.distinctHandles (Mock.run Mock.init es)
              /\ (Mock.active (Mock.botState (Mock.run Mock.init es)) = true
                  -> Mock.tickCount (Mock.run Mock.init es) = 1%nat)).
  { unfold Mock.run.
    assert (H0 : Mock.wfP Mock.init /\ Mock.distinctHandles Mock.init
                 /\ (Mock.active (Mock.botState Mock.init) = true ->
                     Mock.tickCount Mock.init = 1%nat)).
    { split; [now apply wf_spec|]. split; [constructor | discriminate]. }
    revert H0. generalize Mock.init.
    induction es as [|e es IH]; intros s H0; [exact H0|].
    simpl. apply IH. destruct H0 as (Hwf & Hd & Hs).
    split; [now apply wfP_step|].
    split; [now apply distinct_step | now apply active_step]. }
  destruct H as (Hwf & _ & Hs). intros Ha.
  split; [now apply Hs | now apply samplerRunning_of_tick, Hs].
Qed.

Lemma mock_sampler_runs_while_active_witness :
  Mock.tickCount (Mock.run Mock.init Mock.hangUpWhileProcessing) = 1%nat
  /\ Mock.samplerRunning (Mock.run Mock.init Mock.hangUpWhileProcessing)
     = true.
Proof.
  apply mock_sampler_runs_while_active. vm_compute; reflexivity.
Defined.
